(** * Caring Caribou: ISO-TP segmentation/reassembly, CAN actions and XCP

    A shallow embedding of the parts of the toolkit that carry the
    transport logic:

    - [caringcaribou/utils/iso15765_2.py]  (class [IsoTp])
    - [caringcaribou/utils/can_actions.py] (class [CanActions])
    - [tool/modules/xcp.py]                (error decoder, memory dump)

    Python integers are [Z]; Python lists of bytes are [list Z]; an
    exception is the [Raise] outcome of the [result] monad.  The CAN bus is
    an explicit stream of incoming events and a log of the frames sent. *)

From Stdlib Require Import ZArith List Bool Lia String.
From stdpp Require Import base list gmap.
Import ListNotations.
Local Open Scope Z_scope.

(** ** Python outcomes *)

Inductive exn : Type :=
| ValueError
| TypeError
| IndexError
| AttributeError.

(** [OutOfFuel] is not a Python outcome: it marks a [while] loop of the model
    that was cut off by its fuel.  The totality lemmas show that the code
    never produces it. *)
Inductive result (A : Type) : Type :=
| Ok (a : A)
| Raise (e : exn)
| OutOfFuel.

Arguments Ok {A} a.
Arguments Raise {A} e.
Arguments OutOfFuel {A}.

Definition bind {A B : Type} (m : result A) (k : A -> result B) : result B :=
  match m with
  | Ok a => k a
  | Raise e => Raise e
  | OutOfFuel => OutOfFuel
  end.

Declare Scope py_scope.
Delimit Scope py_scope with py.
Notation "x <- m ;; k" := (bind m (fun x => k))
  (at level 100, m at next level, right associativity) : py_scope.
Local Open Scope py_scope.

(** ** Python list primitives *)

Definition len {A : Type} (l : list A) : Z := Z.of_nat (length l).

(** Index normalisation of [l[i]]: negative indices count from the end, an
    index outside [-len, len) is an [IndexError]. *)
Definition py_index (n : Z) (i : Z) : option nat :=
  if (0 <=? i) && (i <? n) then Some (Z.to_nat i)
  else if (- n <=? i) && (i <? 0) then Some (Z.to_nat (n + i))
  else None.

(** [l[i]] *)
Definition getitem {A : Type} (l : list A) (i : Z) : result A :=
  match py_index (len l) i with
  | Some k => match l !! k with Some x => Ok x | None => Raise IndexError end
  | None => Raise IndexError
  end.

(** [l[i] = v] *)
Definition setitem {A : Type} (l : list A) (i : Z) (v : A) : result (list A) :=
  match py_index (len l) i with
  | Some k => Ok (<[k := v]> l)
  | None => Raise IndexError
  end.

(** [[v] * n]: a non-positive count gives the empty list. *)
Definition py_repeat {A : Type} (v : A) (n : Z) : list A := replicate (Z.to_nat n) v.

(** [l[:n]] *)
Definition slice_to {A : Type} (l : list A) (n : Z) : list A :=
  if 0 <=? n then take (Z.to_nat n) l else take (Z.to_nat (len l + n)) l.

(** [l[n:]] for a literal, non-negative [n]. *)
Definition slice_from {A : Type} (l : list A) (n : nat) : list A := drop n l.

(** [for i in range(start, start + count): s = body(i, s)] *)
Fixpoint for_range {S : Type} (start : Z) (count : nat)
    (body : Z -> S -> result S) (s : S) : result S :=
  match count with
  | O => Ok s
  | S c => s' <- body start s ;; for_range (start + 1) c body s'
  end.

(** [for i in range(lo, hi)] *)
Definition for_in_range {S : Type} (lo hi : Z) (body : Z -> S -> result S) (s : S)
    : result S :=
  for_range lo (Z.to_nat (hi - lo)) body s.

(** ** CAN messages and the bus *)

(** [can.Message] with the fields the toolkit sets. *)
Module can.
Record Message : Type := mkMessage {
  arbitration_id : Z;
  data : list Z;
  is_extended_id : bool;
  is_error_frame : bool;
  is_remote_frame : bool
}.
End can.

(** What one iteration of a receive loop observes: the deadline check fires
    ([Expired]), or it does not and [bus.recv] comes back empty ([RecvNone])
    or with a message ([Recv]).  A stream that has run dry stands for a bus on
    which nothing arrives any more: every further [recv] is empty until the
    deadline fires. *)
Inductive bus_event : Type :=
| Expired
| RecvNone
| Recv (msg : can.Message).

Module constants.
(** Modelled from the spec: [caringcaribou/utils/constants.py] is missing.
    An arbitration ID is "an 11-bit (standard) or 29-bit (extended) unsigned
    integer", so the smallest one is 0. *)
Definition ARBITRATION_ID_MIN : Z := 0x0.

(** Modelled from the spec: [caringcaribou/utils/constants.py] is missing.
    "Extended format is required when the value exceeds 0x7FF." *)
Definition ARBITRATION_ID_MAX : Z := 0x7FF.

(** Modelled from the spec: [caringcaribou/utils/constants.py] is missing.
    The largest 29-bit value; the single-ID filter is "(id, 0x1FFFFFFF)". *)
Definition ARBITRATION_ID_MAX_EXTENDED : Z := 0x1FFFFFFF.
End constants.

(** ** iso15765_2.py *)

Module IsoTp.
Import constants.

Definition MAX_SF_LENGTH : Z := 7.
Definition MAX_FF_LENGTH : Z := 6.
Definition MAX_CF_LENGTH : Z := 7.

Definition SF_PCI_LENGTH : Z := 1.
Definition CF_PCI_LENGTH : Z := 1.
Definition FF_PCI_LENGTH : Z := 2.
Definition FC_PCI_LENGTH : Z := 3.

Definition FC_FS_CTS : Z := 0.
Definition FC_FS_WAIT : Z := 1.
Definition FC_FS_OVFLW : Z := 2.

Definition SF_FRAME_ID : Z := 0.
Definition FF_FRAME_ID : Z := 1.
Definition CF_FRAME_ID : Z := 2.
Definition FC_FRAME_ID : Z := 3.

Definition MAX_FRAME_LENGTH : Z := 8.
Definition MAX_MESSAGE_LENGTH : Z := 4095.

(** *** get_frames_from_message *)

(** Body of [for i in range(..): frame[off + i] = message[i]]. *)
Definition copy_body (message : list Z) (off : Z) (i : Z) (frame : list Z)
    : result (list Z) :=
  v <- getitem message i ;;
  setitem frame (off + i) v.

(** State of the loop that fills one consecutive frame. *)
Record cf_fill : Type := mkFill {
  fill_frame : list Z;
  fill_left : Z;       (* bytes_left_to_copy *)
  fill_copied : Z      (* bytes_copied *)
}.

(** Body of
    [for i in range(bytes_to_copy_to_current_cf):
         frame[1 + i] = message[bytes_copied]
         bytes_left_to_copy = bytes_left_to_copy - 1
         bytes_copied = bytes_copied + 1] *)
Definition cf_body (message : list Z) (i : Z) (s : cf_fill) : result cf_fill :=
  v <- getitem message (fill_copied s) ;;
  frame <- setitem (fill_frame s) (1 + i) v ;;
  Ok (mkFill frame (fill_left s - 1) (fill_copied s + 1)).

(** The [while bytes_left_to_copy > 0] loop that creates the CFs. *)
Fixpoint cf_loop (fuel : nat) (message : list Z) (padding_enabled : bool)
    (padding_value : Z) (sn bytes_copied bytes_left_to_copy : Z)
    (frame_list : list (list Z)) : result (list (list Z)) :=
  if bytes_left_to_copy >? 0 then
    match fuel with
    | O => OutOfFuel
    | S fuel' =>
        let sn := (sn + 1) mod 16 in
        let frame :=
          if negb padding_enabled && (bytes_left_to_copy <? 7)
          then py_repeat padding_value (bytes_left_to_copy + 1)
          else py_repeat padding_value MAX_FRAME_LENGTH in
        frame <- setitem frame 0 (Z.lor (Z.shiftl CF_FRAME_ID 4) sn) ;;
        let bytes_to_copy_to_current_cf := Z.min MAX_CF_LENGTH bytes_left_to_copy in
        s <- for_in_range 0 bytes_to_copy_to_current_cf (cf_body message)
               (mkFill frame bytes_left_to_copy bytes_copied) ;;
        cf_loop fuel' message padding_enabled padding_value sn
                (fill_copied s) (fill_left s) (frame_list ++ [fill_frame s])
    end
  else Ok frame_list.

(** [padding_value = None] disables padding. *)
Definition get_frames_from_message (message : list Z) (padding_value : option Z)
    : result (list (list Z)) :=
  let '(padding_enabled, padding_value) :=
    match padding_value with
    | None => (false, 0x00)
    | Some v => (true, v)
    end in
  let frame_list : list (list Z) := [] in
  let message_length := len message in
  if message_length >? MAX_MESSAGE_LENGTH then Raise ValueError
  else if message_length <=? MAX_SF_LENGTH then
    (* Single frame (SF) message *)
    let frame :=
      if padding_enabled then py_repeat padding_value MAX_FRAME_LENGTH
      else py_repeat padding_value (message_length + 1) in
    frame <- setitem frame 0 (Z.lor (Z.shiftl SF_FRAME_ID 4) message_length) ;;
    frame <- for_in_range 0 message_length (copy_body message 1) frame ;;
    Ok (frame_list ++ [frame])
  else
    (* Multiple frame message *)
    let bytes_left_to_copy := message_length in
    let frame := py_repeat padding_value MAX_FRAME_LENGTH in
    frame <- setitem frame 0
               (Z.lor (Z.shiftl FF_FRAME_ID 4) (Z.shiftr message_length 8)) ;;
    frame <- setitem frame 1 (Z.land message_length 0xFF) ;;
    frame <- for_in_range 0 MAX_FF_LENGTH (copy_body message 2) frame ;;
    let frame_list := frame_list ++ [frame] in
    let bytes_copied := MAX_FF_LENGTH in
    let bytes_left_to_copy := bytes_left_to_copy - bytes_copied in
    let sn := 0 in
    cf_loop (length message) message padding_enabled padding_value
            sn bytes_copied bytes_left_to_copy frame_list.

(** *** Frame decoders and the FC encoder *)

(** A decoder returns a tuple of [None]s on a frame shorter than its PCI. *)
Definition decode_sf (frame : list Z) : result (option Z * option (list Z)) :=
  if len frame >=? SF_PCI_LENGTH then
    b0 <- getitem frame 0 ;;
    let sf_dl := Z.land b0 0xF in
    let data := slice_from frame 1 in
    Ok (Some sf_dl, Some data)
  else Ok (None, None).

Definition decode_ff (frame : list Z) : result (option Z * option (list Z)) :=
  if len frame >=? FF_PCI_LENGTH then
    b0 <- getitem frame 0 ;;
    b1 <- getitem frame 1 ;;
    let ff_dl := Z.lor (Z.shiftl (Z.land b0 0xF) 8) b1 in
    let data := slice_from frame 2 in
    Ok (Some ff_dl, Some data)
  else Ok (None, None).

Definition decode_cf (frame : list Z) : result (option Z * option (list Z)) :=
  if len frame >=? CF_PCI_LENGTH then
    b0 <- getitem frame 0 ;;
    let sn := Z.land b0 0xF in
    let data := slice_from frame 1 in
    Ok (Some sn, Some data)
  else Ok (None, None).

Definition decode_fc (frame : list Z) : result (option Z * option Z * option Z) :=
  if len frame >=? FC_PCI_LENGTH then
    b0 <- getitem frame 0 ;;
    let fs := Z.land b0 0xF in
    block_size <- getitem frame 1 ;;
    st_min <- getitem frame 2 ;;
    Ok (Some fs, Some block_size, Some st_min)
  else Ok (None, None, None).

Definition encode_fc (flow_status block_size st_min : Z) : list Z :=
  [Z.lor (Z.shiftl FC_FRAME_ID 4) flow_status; block_size; st_min; 0; 0; 0; 0; 0].

(** *** The instance and its constructor *)

(** The Python values a caller may pass as [padding_value]. *)
Inductive pyval : Type :=
| PyNone
| PyBool (b : bool)
| PyInt (z : Z)
| PyStr (s : string)
| PyList (l : list Z).

(** [isinstance(v, int)]: [bool] is a subclass of [int]. *)
Definition isinstance_int (v : pyval) : bool :=
  match v with
  | PyBool _ | PyInt _ => true
  | _ => false
  end.

(** The integer a value compares as, for the instances of [int]. *)
Definition int_value (v : pyval) : Z :=
  match v with
  | PyInt z => z
  | PyBool true => 1
  | _ => 0
  end.

(** [bus=None] opens the default interface; no frame is sent or received
    by the constructor. *)
Inductive bus_handle : Type :=
| DefaultBus
| GivenBus (id : nat).

Record t : Type := mkIsoTp {
  bus : bus_handle;
  arb_id_request : Z;
  arb_id_response : Z;
  padding_value : pyval;
  padding_enabled : bool
}.

Definition __init__ (arb_id_request arb_id_response : Z) (bus : option nat)
    (padding_value : pyval) : result t :=
  let bus := match bus with None => DefaultBus | Some b => GivenBus b end in
  match padding_value with
  | PyNone =>
      Ok (mkIsoTp bus arb_id_request arb_id_response padding_value false)
  | _ =>
      if negb (isinstance_int padding_value) then Raise TypeError
      else if negb ((0x00 <=? int_value padding_value)
                    && (int_value padding_value <=? 0xFF)) then Raise ValueError
      else Ok (mkIsoTp bus arb_id_request arb_id_response padding_value true)
  end.

(** *** send_message *)

(** The message handed to [bus.send]. *)
Definition send_message (data : list Z) (arbitration_id : Z) (force_extended : bool)
    : can.Message :=
  let is_extended := force_extended || (arbitration_id >? ARBITRATION_ID_MAX) in
  can.mkMessage arbitration_id data is_extended false false.

(** *** indication *)

Record rx_state : Type := mkRx {
  rx_sn : Z;
  rx_message_length : option Z;
  rx_message : option (list Z)
}.

(** [sn = 0], [message_length = 0], [message = []]: nothing received yet. *)
Definition rx_idle : rx_state := mkRx 0 (Some 0) (Some []).

(** How the handling of one frame leaves the [while True] loop body. *)
Inductive rx_ctrl : Type :=
| Continue (st : rx_state) (sent : list can.Message)
| Break (message : option (list Z)) (sent : list can.Message)
| ReturnNone.

(** [message[:n]] on the values the receive state can hold. *)
Definition trim (message : option (list Z)) (n : option Z)
    : result (option (list Z)) :=
  match message with
  | None => Raise TypeError
  | Some m =>
      match n with
      | Some n => Ok (Some (slice_to m n))
      | None => Ok (Some m)
      end
  end.

(** The loop body from [frame_type = ...] on, for a non-empty frame. *)
Definition indication_frame (trim_padding first_frame_only : bool)
    (st : rx_state) (flow_control_arbitration_id : Z) (frame : list Z)
    : result rx_ctrl :=
  b0 <- getitem frame 0 ;;
  let frame_type := Z.land (Z.shiftr b0 4) 0xF in
  if frame_type =? SF_FRAME_ID then
    r <- decode_sf frame ;;
    let '(dl, message) := r in
    message <- (if trim_padding then trim message dl else Ok message) ;;
    Ok (Break message [])
  else if frame_type =? FF_FRAME_ID then
    r <- decode_ff frame ;;
    let '(message_length, message) := r in
    if first_frame_only then
      let ovflw_frame := encode_fc FC_FS_OVFLW 0 0 in
      Ok (Break message [send_message ovflw_frame flow_control_arbitration_id false])
    else
      let fc_frame := encode_fc FC_FS_CTS 0 0 in
      let sn := 0 in
      Ok (Continue (mkRx sn message_length message)
                   [send_message fc_frame flow_control_arbitration_id false])
  else if frame_type =? CF_FRAME_ID then
    r <- decode_cf frame ;;
    let '(new_sn, data) := r in
    if match new_sn with Some n => (rx_sn st + 1) mod 16 =? n | None => false end then
      match new_sn, rx_message st, data with
      | Some sn, Some message, Some data =>
          let message := message ++ data in
          match rx_message_length st with
          | None => Raise TypeError
          | Some message_length =>
              if len message >=? message_length then
                message <- (if trim_padding
                            then trim (Some message) (Some message_length)
                            else Ok (Some message)) ;;
                Ok (Break message [])
              else Ok (Continue (mkRx sn (Some message_length) (Some message)) [])
          end
      | _, _, _ => Raise TypeError
      end
    else Ok (Continue st [])
  else Ok ReturnNone.

(** The [while True] loop of [indication], over what the bus delivers.
    The result is the returned value ([None] on timeout or invalid frame
    type) together with the frames sent. *)
Fixpoint indication_loop (self : t) (trim_padding first_frame_only : bool)
    (st : rx_state) (sent : list can.Message) (events : list bus_event)
    : result (option (list Z)) * list can.Message :=
  match events with
  | [] => (Ok None, sent)
  | Expired :: _ => (Ok None, sent)
  | RecvNone :: rest =>
      indication_loop self trim_padding first_frame_only st sent rest
  | Recv msg :: rest =>
      let fc :=
        if can.arbitration_id msg =? arb_id_request self
        then Some (arb_id_response self)
        else if can.arbitration_id msg =? arb_id_response self
        then Some (arb_id_request self)
        else None in
      match fc with
      | None => indication_loop self trim_padding first_frame_only st sent rest
      | Some flow_control_arbitration_id =>
          let frame := can.data msg in
          if len frame >? 0 then
            match indication_frame trim_padding first_frame_only st
                    flow_control_arbitration_id frame with
            | Ok (Continue st' out) =>
                indication_loop self trim_padding first_frame_only st'
                                (sent ++ out) rest
            | Ok (Break message out) =>
                (* return list(message) *)
                (match message with
                 | Some m => Ok (Some m)
                 | None => Raise TypeError
                 end, sent ++ out)
            | Ok ReturnNone => (Ok None, sent)
            | Raise e => (Raise e, sent)
            | OutOfFuel => (OutOfFuel, sent)
            end
          else indication_loop self trim_padding first_frame_only st sent rest
      end
  end.

Definition indication (self : t) (trim_padding first_frame_only : bool)
    (events : list bus_event) : result (option (list Z)) * list can.Message :=
  indication_loop self trim_padding first_frame_only rx_idle [] events.

(** *** transmit *)

(** What [transmit] does on the bus and the clock, in order. *)
Inductive action : Type :=
| Send (msg : can.Message)
| Sleep (st_min_ms : Z).

Record tx_block : Type := mkBlock {
  blk_index : Z;     (* frame_index *)
  blk_left : Z;      (* number_of_frames_left_to_send *)
  blk_out : list action
}.

(** [while number_of_frames_left_to_send_in_block > 0]; [count] is the
    value of that counter, which each iteration lowers by one. *)
Fixpoint send_block (frames : list (list Z)) (arbitration_id : Z) (st_min : Z)
    (count : nat) (b : tx_block) : result tx_block :=
  match count with
  | O => Ok b
  | S count' =>
      frame <- getitem frames (blk_index b) ;;
      let out := blk_out b ++ [Send (send_message frame arbitration_id false)] in
      let out := if Z.of_nat count' >? 0 then out ++ [Sleep st_min] else out in
      send_block frames arbitration_id st_min count'
                 (mkBlock (blk_index b + 1) (blk_left b - 1) out)
  end.

Definition opt_eqb (o : option Z) (v : Z) : bool :=
  match o with
  | Some x => x =? v
  | None => false
  end.

(** The [while number_of_frames_left_to_send > 0] loop with its inner wait
    for flow control, over what [bus.recv(N_BS_TIMEOUT)] returns.  The
    result holds what was done and the part of the stream left unread. *)
Fixpoint transmit_loop (frames : list (list Z))
    (arbitration_id arbitration_id_flow_control : Z)
    (b : tx_block) (events : list (option can.Message))
    : result unit * list action * list (option can.Message) :=
  match events with
  | [] => (Ok tt, blk_out b, [])
  | None :: rest => (Ok tt, blk_out b, rest)
  | Some msg :: rest =>
      if negb (can.arbitration_id msg =? arbitration_id_flow_control) then
        transmit_loop frames arbitration_id arbitration_id_flow_control b rest
      else
        let fc_frame := can.data msg in
        match decode_fc fc_frame with
        | Ok (fs, block_size, st_min) =>
            if opt_eqb fs FC_FS_WAIT then
              transmit_loop frames arbitration_id arbitration_id_flow_control b rest
            else if opt_eqb fs FC_FS_CTS then
              match block_size, st_min with
              | Some block_size, Some st_min =>
                  let in_block :=
                    if (blk_left b <? block_size) || (block_size =? 0)
                    then blk_left b else block_size in
                  let st_min := if st_min >? 0x7F then 1 else st_min in
                  match send_block frames arbitration_id st_min
                          (Z.to_nat in_block) b with
                  | Ok b' =>
                      if blk_left b' >? 0 then
                        transmit_loop frames arbitration_id
                                      arbitration_id_flow_control b' rest
                      else (Ok tt, blk_out b', rest)
                  | Raise e => (Raise e, blk_out b, rest)
                  | OutOfFuel => (OutOfFuel, blk_out b, rest)
                  end
              | _, _ => (Raise TypeError, blk_out b, rest)
              end
            else if opt_eqb fs FC_FS_OVFLW then (Ok tt, blk_out b, rest)
            else (Ok tt, blk_out b, rest)
        | Raise e => (Raise e, blk_out b, rest)
        | OutOfFuel => (OutOfFuel, blk_out b, rest)
        end
  end.

Definition transmit (frames : list (list Z))
    (arbitration_id arbitration_id_flow_control : Z)
    (events : list (option can.Message))
    : result unit * list action * list (option can.Message) :=
  if len frames =? 0 then (Ok tt, [], events)
  else if len frames =? 1 then
    match getitem frames 0 with
    | Ok frame => (Ok tt, [Send (send_message frame arbitration_id false)], events)
    | Raise e => (Raise e, [], events)
    | OutOfFuel => (OutOfFuel, [], events)
    end
  else
    let frame_index := 0 in
    match getitem frames frame_index with
    | Ok frame =>
        let out := [Send (send_message frame arbitration_id false)] in
        let number_of_frames_left_to_send := len frames - 1 in
        let frame_index := frame_index + 1 in
        transmit_loop frames arbitration_id arbitration_id_flow_control
                      (mkBlock frame_index number_of_frames_left_to_send out) events
    | Raise e => (Raise e, [], events)
    | OutOfFuel => (OutOfFuel, [], events)
    end.

(** *** send_request, send_response *)

(** What [get_frames_from_message] gets as [padding_value] from an instance
    that the constructor accepted: [None], or an [int] (a [bool] counts as
    its integer). *)
Definition padding_arg (v : pyval) : option Z :=
  match v with
  | PyNone => None
  | _ => Some (int_value v)
  end.

Definition send_request (self : t) (message : list Z)
    (events : list (option can.Message))
    : result unit * list action * list (option can.Message) :=
  match get_frames_from_message message (padding_arg (padding_value self)) with
  | Ok frames => transmit frames (arb_id_request self) (arb_id_response self) events
  | Raise e => (Raise e, [], events)
  | OutOfFuel => (OutOfFuel, [], events)
  end.

Definition send_response (self : t) (message : list Z)
    (events : list (option can.Message))
    : result unit * list action * list (option can.Message) :=
  match get_frames_from_message message (padding_arg (padding_value self)) with
  | Ok frames => transmit frames (arb_id_response self) (arb_id_request self) events
  | Raise e => (Raise e, [], events)
  | OutOfFuel => (OutOfFuel, [], events)
  end.

End IsoTp.

(** ** can_actions.py *)

Module CanActions.
Import constants.

(** What [callback_end] is called with.  The texts are
    "Invalid range: min > max" and
    "Bruteforce of range 0x{min}-0x{max} completed". *)
Inductive end_message : Type :=
| InvalidRange
| RangeCompleted (min_id max_id : Z).

Section WithListeners.
(** The listeners are opaque callables to this class. *)
Variable listener : Type.

(** The instance together with what it has done so far: the frames given
    to [bus.send] and the calls of [callback_end]. *)
Record t : Type := mkCanActions {
  arb_id : option Z;
  bruteforce_running : bool;
  notifier : option (list listener);   (* notifier.listeners *)
  bus_sent : list can.Message;
  end_calls : list end_message
}.

Definition with_listeners (self : t) (ls : list listener) : result t :=
  match notifier self with
  | None => Raise AttributeError
  | Some _ =>
      Ok (mkCanActions (arb_id self) (bruteforce_running self) (Some ls)
                       (bus_sent self) (end_calls self))
  end.

Definition add_listener (self : t) (l : listener) : result t :=
  match notifier self with
  | None => Raise AttributeError
  | Some ls => with_listeners self (ls ++ [l])
  end.

Definition clear_listeners (self : t) : result t := with_listeners self [].

Definition set_listener (self : t) (l : listener) : result t :=
  self <- clear_listeners self ;;
  add_listener self l.

Definition bus_send (self : t) (msg : can.Message) : t :=
  mkCanActions (arb_id self) (bruteforce_running self) (notifier self)
               (bus_sent self ++ [msg]) (end_calls self).

Definition set_running (self : t) (b : bool) : t :=
  mkCanActions (arb_id self) b (notifier self) (bus_sent self) (end_calls self).

Definition call_end (self : t) (m : end_message) : t :=
  mkCanActions (arb_id self) (bruteforce_running self) (notifier self)
               (bus_sent self) (end_calls self ++ [m]).

Definition bruteforce_stop (self : t) : t := set_running self false.

(** [self.arb_id], where a parameter named [arb_id] hides the field. *)
Definition self_arb_id (self : t) : option Z := arb_id self.

(** [send(data, arb_id=None, is_extended=None, is_error=False,
    is_remote=False)] *)
Definition send (self : t) (data : list Z) (arb_id : option Z)
    (is_extended : option bool) (is_error is_remote : bool) : result t :=
  if len data >? 8 then Raise IndexError
  else
    arb_id <- match arb_id with
              | Some a => Ok a
              | None =>
                  match self_arb_id self with
                  | None => Raise ValueError
                  | Some a => Ok a
                  end
              end ;;
    let is_extended :=
      match is_extended with
      | None => arb_id >? ARBITRATION_ID_MAX
      | Some e => e
      end in
    let msg := can.mkMessage arb_id data is_extended is_error is_remote in
    Ok (bus_send self msg).

Definition send_single_message_with_callback (self : t) (data : list Z)
    (callback : listener) : result t :=
  self <- set_listener self callback ;;
  send self data None None false false.

(** [callback(arb_id)] makes the listener of one iteration. *)
Variable callback : Z -> listener.

(** [stop arb_id] tells whether the calling module has called
    [bruteforce_stop] by the time the iteration for [arb_id] wakes up
    from its [time.sleep(MESSAGE_DELAY)]. *)
Variable stop : Z -> bool.

(** The [for arb_id in range(min_id, max_id + 1)] loop; the boolean of
    the result tells whether it was left by the [return] in its body. *)
Fixpoint bruteforce_loop (count : nat) (arb_id : Z) (data : list Z) (self : t)
    : result (t * bool) :=
  match count with
  | O => Ok (self, false)
  | S count' =>
      self <- with_listeners self [callback arb_id] ;;
      let extended := false in
      let extended := if arb_id >? ARBITRATION_ID_MAX then true else extended in
      let msg := can.mkMessage arb_id data extended false false in
      let self := bus_send self msg in
      let self := if stop arb_id then bruteforce_stop self else self in
      if negb (bruteforce_running self) then
        self <- clear_listeners self ;;
        Ok (self, true)
      else bruteforce_loop count' (arb_id + 1) data self
  end.

(** [callback_end] is [true] when a callable was given. *)
Definition bruteforce_arbitration_id (self : t) (data : list Z)
    (min_id max_id : option Z) (callback_end : bool) : result t :=
  let min_id := match min_id with None => ARBITRATION_ID_MIN | Some m => m end in
  let max_id :=
    match max_id with
    | None =>
        if min_id <=? ARBITRATION_ID_MAX then ARBITRATION_ID_MAX
        else ARBITRATION_ID_MAX_EXTENDED
    | Some m => m
    end in
  if min_id >? max_id then
    if callback_end then Ok (call_end self InvalidRange) else Ok self
  else
    let self := set_running self true in
    r <- bruteforce_loop (Z.to_nat (max_id + 1 - min_id)) min_id data self ;;
    let '(self, returned) := r in
    if returned then Ok self
    else if callback_end then
      self <- clear_listeners self ;;
      Ok (call_end self (RangeCompleted min_id max_id))
    else Ok self.

(** *** bruteforce_data *)

(** The [for value in range(min_value, max_value + 1)] loop.  [data] is the
    caller's list, changed in place; each frame holds a copy of it.  The
    boolean tells whether the loop was left by its [return]. *)
Fixpoint bruteforce_data_loop (count : nat) (value : Z) (data : list Z)
    (bruteforce_index : Z) (self : t) : result (t * list Z * bool) :=
  match count with
  | O => Ok (self, data, false)
  | S count' =>
      self <- with_listeners self [callback value] ;;
      data <- setitem data bruteforce_index value ;;
      self <- send self data None None false false ;;
      let self := if stop value then bruteforce_stop self else self in
      if negb (bruteforce_running self) then
        self <- with_listeners self [] ;;
        Ok (self, data, true)
      else bruteforce_data_loop count' (value + 1) data bruteforce_index self
  end.

(** The result holds the instance, the caller's [data] after the call, and
    whether [callback_end] was called.  [min_value] and [max_value] are
    given by the caller. *)
Definition bruteforce_data (self : t) (data : list Z) (bruteforce_index : Z)
    (min_value max_value : Z) (callback_end : bool) : result (t * list Z * bool) :=
  let self := set_running self true in
  r <- bruteforce_data_loop (Z.to_nat (max_value + 1 - min_value)) min_value data
         bruteforce_index self ;;
  let '(self, data, returned) := r in
  if returned then Ok (self, data, false)
  else if callback_end then
    self <- with_listeners self [] ;;
    Ok (self, data, true)
  else Ok (self, data, false).

(** *** bruteforce_data_new *)

(** [callback_values] stands for the [callback] of [bruteforce_data_new],
    which gets the values of the bruteforced bytes (the source formats each
    as two hex digits). *)
Variable callback_values : list Z -> listener.

(** [stop_values vs] tells whether the calling module has called
    [bruteforce_stop] by the end of the delay that follows the frame with
    the values [vs]. *)
Variable stop_values : list Z -> bool.

(** [[msg_data[a] for a in idxs]] *)
Fixpoint getitems (msg_data : list Z) (idxs : list Z) : result (list Z) :=
  match idxs with
  | [] => Ok []
  | a :: idxs' =>
      v <- getitem msg_data a ;;
      vs <- getitems msg_data idxs' ;;
      Ok (v :: vs)
  end.

(** The inner function [send(msg_data, idxs)]. *)
Definition data_new_send (msg_data : list Z) (idxs : list Z) (self : t) : result t :=
  values <- getitems msg_data idxs ;;
  self <- with_listeners self [callback_values values] ;;
  self <- send self msg_data None None false false ;;
  let self := if stop_values values then bruteforce_stop self else self in
  if negb (bruteforce_running self) then with_listeners self [] else Ok self.

(** The inner function [bruteforce(idx)]; [indices] is the part of
    [bruteforce_indices] from position [idx] on. *)
Fixpoint data_new_bruteforce (indices : list Z) (bruteforce_indices : list Z)
    (min_value max_value : Z) (s : list Z * t) : result (list Z * t) :=
  match indices with
  | [] =>
      self <- data_new_send (fst s) bruteforce_indices (snd s) ;;
      Ok (fst s, self)
  | index :: indices' =>
      for_in_range min_value (max_value + 1)
        (fun i s =>
           data <- setitem (fst s) index i ;;
           data_new_bruteforce indices' bruteforce_indices min_value max_value
                               (data, snd s))
        s
  end.

(** [for idx_i in bruteforce_indices: data[idx_i] = 0] *)
Fixpoint zero_indices (bruteforce_indices : list Z) (data : list Z)
    : result (list Z) :=
  match bruteforce_indices with
  | [] => Ok data
  | idx_i :: rest =>
      data <- setitem data idx_i 0 ;;
      zero_indices rest data
  end.

(** The result holds the instance, the caller's [data] after the call, and
    whether [callback_done] was called. *)
Definition bruteforce_data_new (self : t) (data : list Z)
    (bruteforce_indices : list Z) (min_value max_value : Z) (callback_done : bool)
    : result (t * list Z * bool) :=
  data <- zero_indices bruteforce_indices data ;;
  r <- data_new_bruteforce bruteforce_indices bruteforce_indices
         min_value max_value (data, self) ;;
  Ok (snd r, fst r, callback_done).

End WithListeners.

Arguments mkCanActions {listener}.
Arguments arb_id {listener}.
Arguments bruteforce_running {listener}.
Arguments notifier {listener}.
Arguments bus_sent {listener}.
Arguments end_calls {listener}.
Arguments with_listeners {listener}.
Arguments add_listener {listener}.
Arguments clear_listeners {listener}.
Arguments set_listener {listener}.
Arguments bus_send {listener}.
Arguments set_running {listener}.
Arguments call_end {listener}.
Arguments bruteforce_stop {listener}.
Arguments send {listener}.
Arguments send_single_message_with_callback {listener}.
Arguments bruteforce_loop {listener}.
Arguments bruteforce_arbitration_id {listener}.
Arguments bruteforce_data_loop {listener}.
Arguments bruteforce_data {listener}.
Arguments data_new_send {listener}.
Arguments data_new_bruteforce {listener}.
Arguments bruteforce_data_new {listener}.

(** *** auto_blacklist *)

(** The [while time.time() < end_time] loop over what the bus delivers;
    the progress prints are left out. *)
Fixpoint auto_blacklist_loop (classifier_function : can.Message -> bool)
    (blacklist : gset Z) (events : list bus_event) : gset Z :=
  match events with
  | [] => blacklist
  | Expired :: _ => blacklist
  | RecvNone :: rest => auto_blacklist_loop classifier_function blacklist rest
  | Recv msg :: rest =>
      if classifier_function msg
      then auto_blacklist_loop classifier_function
             ({[ can.arbitration_id msg ]} ∪ blacklist) rest
      else auto_blacklist_loop classifier_function blacklist rest
  end.

Definition auto_blacklist (classifier_function : can.Message -> bool)
    (events : list bus_event) : gset Z :=
  auto_blacklist_loop classifier_function ∅ events.

(** [CanActions(arb_id=None, notifier_enabled=True)] on a fresh bus;
    [enable_notifier] makes a notifier with no listeners. *)
Definition __init__ {listener : Type} (arb_id : option Z) (notifier_enabled : bool)
    : t listener :=
  let notifier := None in
  let notifier := if notifier_enabled then Some [] else notifier in
  mkCanActions arb_id false notifier [] [].

End CanActions.

(** ** dcm.py *)

Module dcm.

(** [insert_message_length(data, pad=False)] *)
Definition insert_message_length (data : list Z) (pad : bool) : result (list Z) :=
  let length := len data in
  if length >? 7 then Raise IndexError
  else
    let full_data := [length] ++ data in
    let full_data :=
      if pad then full_data ++ py_repeat 0x00 (7 - length) else full_data in
    Ok full_data.

End dcm.

(** ** fuzzer.py *)

Module fuzzer.

(** The number of items of [range(0, n, 2)]. *)
Definition range_step2_count (n : Z) : nat := Z.to_nat ((n + 1) / 2).

(** The loop of [apply_fuzzed_data], over [index] in
    [range(0, len(bitmap), 2)]; [count] is the number of indices left. *)
Fixpoint apply_fuzzed_loop (count : nat) (index : Z)
    (initial_data fuzzed_nibbles : list Z) (bitmap : list bool)
    (fuzz_index : Z) (result_bytes : list Z) : result (list Z) :=
  match count with
  | O => Ok result_bytes
  | S count' =>
      b <- getitem bitmap index ;;
      hi <- (if b : bool then
               high_nibble <- getitem fuzzed_nibbles fuzz_index ;;
               Ok (high_nibble, fuzz_index + 1)
             else
               high_nibble <- getitem initial_data index ;;
               Ok (high_nibble, fuzz_index)) ;;
      let high_nibble := fst hi in
      let fuzz_index := snd hi in
      b <- getitem bitmap (index + 1) ;;
      lo <- (if b : bool then
               low_nibble <- getitem fuzzed_nibbles fuzz_index ;;
               Ok (low_nibble, fuzz_index + 1)
             else
               low_nibble <- getitem initial_data (index + 1) ;;
               Ok (low_nibble, fuzz_index)) ;;
      let low_nibble := fst lo in
      let fuzz_index := snd lo in
      let current_byte := Z.shiftl high_nibble 4 + low_nibble in
      apply_fuzzed_loop count' (index + 2) initial_data fuzzed_nibbles bitmap
        fuzz_index (result_bytes ++ [current_byte])
  end.

Definition apply_fuzzed_data (initial_data fuzzed_nibbles : list Z)
    (bitmap : list bool) : result (list Z) :=
  let fuzz_index := 0 in
  let result_bytes := [] in
  apply_fuzzed_loop (range_step2_count (len bitmap)) 0 initial_data fuzzed_nibbles
    bitmap fuzz_index result_bytes.

Fixpoint nibbles_to_bytes_loop (count : nat) (index : Z) (nibbles : list Z)
    (result_bytes : list Z) : result (list Z) :=
  match count with
  | O => Ok result_bytes
  | S count' =>
      high_nibble <- getitem nibbles index ;;
      low_nibble <- getitem nibbles (index + 1) ;;
      let current_byte := Z.shiftl high_nibble 4 + low_nibble in
      nibbles_to_bytes_loop count' (index + 2) nibbles (result_bytes ++ [current_byte])
  end.

Definition nibbles_to_bytes (nibbles : list Z) : result (list Z) :=
  let result_bytes := [] in
  nibbles_to_bytes_loop (range_step2_count (len nibbles)) 0 nibbles result_bytes.

(** The loop of [split_lists], with the sub-lists it yields, in order.
    The body only runs for [pieces >= 1], so the floor divisions are
    defined, and both bounds of the slice lie in [0, length]. *)
Fixpoint split_lists_loop {A : Type} (count : nat) (i : Z) (full_list : list A)
    (pieces : Z) : list (list A) :=
  match count with
  | O => []
  | S count' =>
      let length := len full_list in
      let lo := i * length / pieces in
      let hi := (i + 1) * length / pieces in
      let sub_list :=
        take (Z.to_nat hi - Z.to_nat lo) (drop (Z.to_nat lo) full_list) in
      let rest := split_lists_loop count' (i + 1) full_list pieces in
      if len sub_list =? 0 then rest else sub_list :: rest
  end.

Definition split_lists {A : Type} (full_list : list A) (pieces : Z)
    : list (list A) :=
  split_lists_loop (Z.to_nat pieces) 0 full_list pieces.

(** [pad_to_even_length(original_list, padding=0x0)]: the list it returns,
    which is the caller's list, changed in place. *)
Definition pad_to_even_length (original_list : list Z) (padding : Z) : list Z :=
  if len original_list mod 2 =? 1 then padding :: original_list
  else original_list.

End fuzzer.

(** ** send.py *)

Module send.
Import constants.

Section WithDuration.
(** Delays are floats, which the module only clamps and hands to [sleep]. *)
Variable duration : Type.

(** [max([delay, 0.0])] *)
Variable clamp : duration -> duration.

Record CanMessage : Type := mkCanMessage {
  arb_id : Z;
  data : list Z;
  delay : duration;
  is_extended : bool;
  is_error : bool;
  is_remote : bool
}.

(** [CanMessage(arb_id, data, delay, is_extended=None, is_error=False,
    is_remote=False)] *)
Definition __init__ (arb_id : Z) (data : list Z) (delay : duration)
    (is_extended : option bool) (is_error is_remote : bool) : CanMessage :=
  mkCanMessage arb_id data (clamp delay)
    (match is_extended with
     | None => arb_id >? ARBITRATION_ID_MAX
     | Some e => e
     end)
    is_error is_remote.

(** The [for i in range(len(messages))] loop of [send_messages]: the
    outcome, the [can_wrap] with the frames it has sent, and the delays
    slept so far.  The line printed for each message is left out. *)
Fixpoint send_loop (count : nat) (i : Z) (messages : list CanMessage)
    (loop_counter : Z) (can_wrap : CanActions.t unit) (slept : list duration)
    : result unit * CanActions.t unit * list duration :=
  match count with
  | O => (Ok tt, can_wrap, slept)
  | S count' =>
      match getitem messages i with
      | Ok msg =>
          let slept :=
            if negb (i =? 0) || negb (loop_counter =? 0)
            then slept ++ [delay msg] else slept in
          match CanActions.send can_wrap (data msg) (Some (arb_id msg))
                  (Some (is_extended msg)) (is_error msg) (is_remote msg) with
          | Ok can_wrap =>
              send_loop count' (i + 1) messages loop_counter can_wrap slept
          | Raise e => (Raise e, can_wrap, slept)
          | OutOfFuel => (OutOfFuel, can_wrap, slept)
          end
      | Raise e => (Raise e, can_wrap, slept)
      | OutOfFuel => (OutOfFuel, can_wrap, slept)
      end
  end.

(** The [while True] loop, cut off after [fuel] rounds. *)
Fixpoint send_rounds (fuel : nat) (messages : list CanMessage) (loop : bool)
    (loop_counter : Z) (can_wrap : CanActions.t unit) (slept : list duration)
    : result unit * CanActions.t unit * list duration :=
  match fuel with
  | O => (OutOfFuel, can_wrap, slept)
  | S fuel' =>
      let '(r, can_wrap, slept) :=
        send_loop (length messages) 0 messages loop_counter can_wrap slept in
      match r with
      | Ok _ =>
          if negb loop then (Ok tt, can_wrap, slept)
          else send_rounds fuel' messages loop (loop_counter + 1) can_wrap slept
      | _ => (r, can_wrap, slept)
      end
  end.

Definition send_messages (fuel : nat) (messages : list CanMessage) (loop : bool)
    : result unit * CanActions.t unit * list duration :=
  let can_wrap := CanActions.__init__ None false in
  let loop_counter := 0 in
  send_rounds fuel messages loop loop_counter can_wrap [].

End WithDuration.

Arguments mkCanMessage {duration}.
Arguments arb_id {duration}.
Arguments data {duration}.
Arguments delay {duration}.
Arguments is_extended {duration}.
Arguments is_error {duration}.
Arguments is_remote {duration}.
Arguments __init__ {duration}.
Arguments send_loop {duration}.
Arguments send_rounds {duration}.
Arguments send_messages {duration}.

End send.

(** ** dump.py *)

Module dump.





End dump.

(** ** xcp.py *)

Module xcp.
Local Open Scope string_scope.
Local Open Scope list_scope.
Local Open Scope Z_scope.

(** The two kinds of Python object a brace literal can build.  A [dict]
    has a [get] method, a [set] has none. *)
Inductive container : Type :=
| PySet (elements : list (Z * (string * string)))
| PyDict (items : list (Z * (string * string))).

Fixpoint assoc (items : list (Z * (string * string))) (key : Z)
    : option (string * string) :=
  match items with
  | [] => None
  | (k, v) :: rest => if (k =? key)%Z then Some v else assoc rest key
  end.

(** The attribute [obj.get]: the bound method of a [dict], an
    [AttributeError] on a [set].  Python looks the attribute up before it
    evaluates the arguments of the call. *)
Definition get (obj : container)
    : result (Z -> string * string -> string * string) :=
  match obj with
  | PyDict items =>
      Ok (fun key default =>
            match assoc items key with Some v => v | None => default end)
  | PySet _ => Raise AttributeError
  end.

Definition error_table : list (Z * (string * string)) :=
  [ (0x00, ("ERR_CMD_SYNC", "Command processor synchronisation."));
    (0x10, ("ERR_CMD_BUSY", "Command was not executed."));
    (0x11, ("ERR_DAQ_ACTIVE", "Command rejected because DAQ is running."));
    (0x12, ("ERR_PGM_ACTIVE", "Command rejected because PGM is running."));
    (0x20, ("ERR_CMD_UNKNOWN", "Unknown command or not implemented optional command."));
    (0x21, ("ERR_CMD_SYNTAX", "Command syntax invalid."));
    (0x22, ("ERR_OUT_OF_RANGE", "Command syntax valid but command parameter(s) out of range."));
    (0x23, ("ERR_WRITE_PROTECTED", "The memory location is write protected."));
    (0x24, ("ERR_ACCESS_DENIED", "The memory location is not accessible."));
    (0x25, ("ERR_ACCESS_LOCKED", "Access denied, Seed & Key is required."));
    (0x26, ("ERR_PAGE_NOT_VALID", "Selected page not available."));
    (0x27, ("ERR_MODE_NOT_VALID", "Selected page mode not available."));
    (0x28, ("ERR_SEGMENT_NOT_VALID", "Selected segment not valid."));
    (0x29, ("ERR_SEQUENCE", "Sequence error."));
    (0x2A, ("ERR_DAQ_CONFIG", "DAQ configuration not valid."));
    (0x30, ("ERR_MEMORY_OVERFLOW", "Memory overflow error."));
    (0x31, ("ERR_GENERIC", "Generic error."));
    (0x32, ("ERR_VERIFY", "The slave internal program verify routine detects an error.")) ]%Z.

(** The source writes the table as [{ (code, (error, description)), ... }]:
    braces around tuples, which is a [set] of tuples. *)
Definition XCP_ERROR_CODES : container := PySet error_table.

(** What the module prints. *)
Inductive printed : Type :=
| NotAValidErrorMessage (msg : can.Message)
| ReceivedErrorMessage (msg : can.Message)
| ErrorCode (code : Z) (label description : string)
| ConnectedUsing (format : string)
| UnexpectedConnectReply (msg : can.Message).

Definition decode_xcp_error (error_message : can.Message) : result (list printed) :=
  let data := can.data error_message in
  b0 <- getitem data 0 ;;
  if negb (b0 =? 0xfe)%Z then Ok [NotAValidErrorMessage error_message]
  else
    get <- get XCP_ERROR_CODES ;;
    b1 <- getitem data 1 ;;
    let error_lookup := get b1 ("UNKNOWN", "Unknown error") in
    Ok [ReceivedErrorMessage error_message;
        ErrorCode b1 (fst error_lookup) (snd error_lookup)].

(** *** xcp_memory_dump *)

(** The reply handlers the dump installs as listeners. *)
Inductive dump_handler : Type :=
| handle_connect_reply_h
| handle_set_mta_reply_h
| handle_upload_reply_h.

(** [r = []; n = start_address; n &= 0xFFFFFFFF;
     for i in range(4): r.append(n & 0xFF); n >>= 8] *)
Definition address_bytes (start_address : Z) : result (list Z) :=
  let r : list Z := [] in
  let n := start_address in
  let n := Z.land n 0xFFFFFFFF in
  s <- for_in_range 0 4
         (fun _ (s : list Z * Z) =>
            let '(r, n) := s in
            Ok (r ++ [Z.land n 0xFF], Z.shiftr n 8))
         (r, n) ;;
  Ok (fst s).

(** The closure [handle_connect_reply]: [r] is the list shared with the
    enclosing [xcp_memory_dump], reversed in place for an Intel slave. *)
Definition handle_connect_reply (rcv_arb_id : Z) (r : list Z)
    (can_wrap : CanActions.t dump_handler) (msg : can.Message)
    : result (list Z * CanActions.t dump_handler * list printed) :=
  if negb (can.arbitration_id msg =? rcv_arb_id)%Z then Ok (r, can_wrap, [])
  else
    b0 <- getitem (can.data msg) 0 ;;
    if (b0 =? 0xfe)%Z then
      out <- decode_xcp_error msg ;;
      Ok (r, can_wrap, out)
    else if (b0 =? 0xff)%Z then
      b2 <- getitem (can.data msg) 2 ;;
      let msb_format := Z.land b2 1 in
      let '(r, out) :=
        if negb (msb_format =? 0)%Z
        then (r, [ConnectedUsing "Motorola format (MSB lower)"])
        else (rev r, [ConnectedUsing "Intel format (LSB lower)"]) in
      r0 <- getitem r 0 ;;
      r1 <- getitem r 1 ;;
      r2 <- getitem r 2 ;;
      r3 <- getitem r 3 ;;
      can_wrap <- CanActions.send_single_message_with_callback can_wrap
                    [0xf6; 0x00; 0x00; 0x00; r0; r1; r2; r3]%Z
                    handle_set_mta_reply_h ;;
      Ok (r, can_wrap, out)
    else Ok (r, can_wrap, [UnexpectedConnectReply msg]).

(** [xcp_memory_dump] up to the Set MTA command: the address bytes, the
    Connect command, and the handling of the first reply. *)
Definition xcp_memory_dump_connect (send_arb_id rcv_arb_id start_address : Z)
    (reply : can.Message)
    : result (list Z * CanActions.t dump_handler * list printed) :=
  r <- address_bytes start_address ;;
  let can_wrap := CanActions.__init__ (Some send_arb_id) true in
  can_wrap <- CanActions.send_single_message_with_callback can_wrap [0xff]%Z
                handle_connect_reply_h ;;
  handle_connect_reply rcv_arb_id r can_wrap reply.

(** *** The upload phase of xcp_memory_dump *)

(** [l[lo:hi]]: a negative bound counts from the end, and bounds outside
    the list are clamped. *)
Definition slice_bound (n b : Z) : Z :=
  if (b <? 0)%Z then Z.max 0 (b + n) else Z.min b n.

Definition slice {A : Type} (l : list A) (lo hi : Z) : list A :=
  let lo := slice_bound (len l) lo in
  let hi := slice_bound (len l) hi in
  take (Z.to_nat (hi - lo)) (drop (Z.to_nat lo) l).

Definition max_segment_size : Z := 0x7.

(** What the dump gives out: the bytes of a reply (appended to the dump
    file, or printed as hex when no file was given) and its messages.  The
    progress lines shown with a dump file are left out. *)
Inductive dump_output : Type :=
| DumpData (bytes : list Z)
| DumpComplete
| SetMtaAcked
| UnexpectedReply (msg : can.Message)
| ConnectOutput (out : list printed)
| ErrorOutput (out : list printed)
| IdleTimeout.

(** The variables the handlers share: the globals [byte_counter],
    [bytes_left], [dump_complete] and [segment_counter], the address list
    [r] and the [can_wrap] of the enclosing function.  [idle_timeout], the
    timer of the waiting loop, is not kept: the replies that are delivered
    are those that arrive in time. *)
Record dump_state : Type := mkDumpState {
  byte_counter : Z;
  bytes_left : Z;
  dump_complete : bool;
  segment_counter : Z;
  address : list Z;
  can_wrap : CanActions.t dump_handler;
  output : list dump_output
}.

Definition put (s : dump_state) (o : dump_output) : dump_state :=
  mkDumpState (byte_counter s) (bytes_left s) (dump_complete s)
    (segment_counter s) (address s) (can_wrap s) (output s ++ [o]).

Definition handle_upload_reply (rcv_arb_id : Z) (s : dump_state)
    (msg : can.Message) : result dump_state :=
  if negb (can.arbitration_id msg =? rcv_arb_id)%Z then Ok s
  else
    b0 <- getitem (can.data msg) 0 ;;
    if (b0 =? 0xfe)%Z then
      out <- decode_xcp_error msg ;;
      Ok (put s (ErrorOutput out))
    else if (b0 =? 0xff)%Z then
      let end_index := Z.min 8 (bytes_left s + 1) in
      let s := put s (DumpData (slice (can.data msg) 1 end_index)) in
      let byte_counter := byte_counter s + 7 in
      let bytes_left := bytes_left s - 7 in
      if (bytes_left <? 1)%Z then
        Ok (put (mkDumpState byte_counter bytes_left true (segment_counter s)
                   (address s) (can_wrap s) (output s))
                DumpComplete)
      else if (byte_counter >? max_segment_size - 1)%Z then
        let segment_counter := segment_counter s + 1 in
        let byte_counter := 0 in
        can_wrap <- CanActions.send_single_message_with_callback (can_wrap s)
                      [0xf5; Z.min max_segment_size bytes_left]%Z
                      handle_upload_reply_h ;;
        Ok (mkDumpState byte_counter bytes_left (dump_complete s) segment_counter
              (address s) can_wrap (output s))
      else
        Ok (mkDumpState byte_counter bytes_left (dump_complete s)
              (segment_counter s) (address s) (can_wrap s) (output s))
    else Ok s.

Definition handle_set_mta_reply (rcv_arb_id : Z) (s : dump_state)
    (msg : can.Message) : result dump_state :=
  if negb (can.arbitration_id msg =? rcv_arb_id)%Z then Ok s
  else
    b0 <- getitem (can.data msg) 0 ;;
    if (b0 =? 0xfe)%Z then
      out <- decode_xcp_error msg ;;
      Ok (put s (ErrorOutput out))
    else if (b0 =? 0xff)%Z then
      let s := put s SetMtaAcked in
      can_wrap <- CanActions.send_single_message_with_callback (can_wrap s)
                    [0xf5; Z.min max_segment_size (bytes_left s)]%Z
                    handle_upload_reply_h ;;
      Ok (mkDumpState (byte_counter s) (bytes_left s) (dump_complete s)
            (segment_counter s) (address s) can_wrap (output s))
    else Ok (put s (UnexpectedReply msg)).

(** A listener is one of the three closures. *)
Definition run_handler (rcv_arb_id : Z) (h : dump_handler) (s : dump_state)
    (msg : can.Message) : result dump_state :=
  match h with
  | handle_connect_reply_h =>
      res <- handle_connect_reply rcv_arb_id (address s) (can_wrap s) msg ;;
      let '(r, can_wrap, out) := res in
      Ok (mkDumpState (byte_counter s) (bytes_left s) (dump_complete s)
            (segment_counter s) r can_wrap
            (output s ++ match out with [] => [] | _ => [ConnectOutput out] end))
  | handle_set_mta_reply_h => handle_set_mta_reply rcv_arb_id s msg
  | handle_upload_reply_h => handle_upload_reply rcv_arb_id s msg
  end.

(** The notifier hands a received message to each listener of the list it
    holds when the message arrives. *)
Fixpoint notify (rcv_arb_id : Z) (listeners : list dump_handler) (s : dump_state)
    (msg : can.Message) : result dump_state :=
  match listeners with
  | [] => Ok s
  | h :: listeners' =>
      s <- run_handler rcv_arb_id h s msg ;;
      notify rcv_arb_id listeners' s msg
  end.

(** The waiting loop of [xcp_memory_dump]: [replies] are the messages that
    reach the listeners before the loop is left. *)
Fixpoint wait_for_dump (rcv_arb_id : Z) (s : dump_state) (replies : list can.Message)
    : result dump_state :=
  match replies with
  | [] => Ok s
  | msg :: replies' =>
      match CanActions.notifier (can_wrap s) with
      | None => Ok s
      | Some listeners =>
          s <- notify rcv_arb_id listeners s msg ;;
          wait_for_dump rcv_arb_id s replies'
      end
  end.

(** [xcp_memory_dump] for the replies that arrive while it waits. *)
Definition xcp_memory_dump (send_arb_id rcv_arb_id start_address length : Z)
    (replies : list can.Message) : result dump_state :=
  let byte_counter := 0 in
  let segment_counter := 0 in
  r <- address_bytes start_address ;;
  let bytes_left := length in
  let can_wrap := CanActions.__init__ (Some send_arb_id) true in
  can_wrap <- CanActions.send_single_message_with_callback can_wrap [0xff]%Z
                handle_connect_reply_h ;;
  s <- wait_for_dump rcv_arb_id
         (mkDumpState byte_counter bytes_left false segment_counter r can_wrap [])
         replies ;;
  if negb (dump_complete s) then Ok (put s IdleTimeout) else Ok s.

(** *** decode_connect_response *)

(** The values [decode_connect_response] prints; the heading, the message
    itself and the separator lines are left out. *)
Inductive connect_line : Type :=
| InvalidResponseLength (n : Z)
| ResourceProtection (name : string) (protected : bool)
| CommModeBasic (name : string) (value : Z)
| AddressGranularity (bytes : Z)
| MaxCtoLength (n : Z)
| MaxDtoLength (n : Z)
| ProtocolLayerVersion (n : Z)
| TransportLayerVersion (n : Z).

Definition resource_bits : list string :=
  ["CAL/PAG"; "X (bit 1)"; "DAQ"; "STIM"; "PGM"; "X (bit 5)"; "X (bit 6)";
   "X (bit 7)"].

Definition comm_mode_bits : list string :=
  ["BYTE_ORDER"; "ADDRESS_GRANULARITY_0"; "ADDRESS_GRANULARITY_1"; "X (bit 3)";
   "X (bit 4)"; "X (bit 5)"; "SLAVE_BLOCK_MODE"; "OPTIONAL"].

(** [bool(x)] of an [int] *)
Definition py_bool (x : Z) : bool := negb (x =? 0)%Z.

(** [int(b)] of a [bool] *)
Definition int_of_bool (b : bool) : Z := if b then 1 else 0.

Definition decode_connect_response (response_message : can.Message)
    : result (list connect_line) :=
  let data := can.data response_message in
  if negb (len data =? 8)%Z then Ok [InvalidResponseLength (len data)]
  else
    out <- for_in_range 0 8
             (fun i out =>
                name <- getitem resource_bits i ;;
                d1 <- getitem data 1 ;;
                Ok (out ++ [ResourceProtection name (py_bool (Z.land d1 (2 ^ i)))]))
             [] ;;
    out <- for_in_range 0 8
             (fun i out =>
                name <- getitem comm_mode_bits i ;;
                d2 <- getitem data 2 ;;
                Ok (out ++ [CommModeBasic name
                              (int_of_bool (py_bool (Z.land d2 (2 ^ i))))]))
             out ;;
    (* 2 ** ((data[2] & 4) * 2 + data[2] & 2): [+] binds tighter than [&] *)
    d2 <- getitem data 2 ;;
    d2' <- getitem data 2 ;;
    let out := out ++ [AddressGranularity (2 ^ Z.land (Z.land d2 4 * 2 + d2') 2)] in
    d3 <- getitem data 3 ;;
    let out := out ++ [MaxCtoLength d3] in
    d5 <- getitem data 5 ;;
    d4 <- getitem data 4 ;;
    let out := out ++ [MaxDtoLength (d5 * 16 + d4)] in
    d6 <- getitem data 6 ;;
    let out := out ++ [ProtocolLayerVersion d6] in
    d7 <- getitem data 7 ;;
    Ok (out ++ [TransportLayerVersion d7]).

End xcp.

(** ** Notions used to state the properties *)

Module Wire.
Import IsoTp.

(** The two local variables [get_frames_from_message] derives from its
    [padding_value] argument. *)
Definition padding_enabled_of (padding : option Z) : bool :=
  match padding with Some _ => true | None => false end.

Definition padding_value_of (padding : option Z) : Z :=
  match padding with Some v => v | None => 0x00 end.

(** The flow-control ID [indication] picks for a frame with ID [a] that
    matches one of the two IDs of the channel. *)
Definition fc_id (self : IsoTp.t) (a : Z) : Z :=
  if a =? arb_id_request self then arb_id_response self else arb_id_request self.

(** The padding appended to a frame that carries [used] payload bytes. *)
Definition pad_tail (padding : option Z) (used : nat) : list Z :=
  match padding with
  | Some v => replicate (7 - used) v
  | None => []
  end.

(** The consecutive frames that carry [payload], after sequence number
    [sn]: seven bytes per frame, the last one padded or left short. *)
Inductive cf_frames (padding : option Z) : Z -> list Z -> list (list Z) -> Prop :=
| cf_done sn : cf_frames padding sn [] []
| cf_next sn payload frames :
    payload <> [] ->
    cf_frames padding ((sn + 1) mod 16) (drop 7 payload) frames ->
    cf_frames padding sn payload
      ((Z.lor 0x20 ((sn + 1) mod 16)
          :: take 7 payload ++ pad_tail padding (length (take 7 payload)))
         :: frames).

(** The frames of a whole message. *)
Inductive frames_of (padding : option Z) (message : list Z) : list (list Z) -> Prop :=
| single_frame :
    len message <= 7 ->
    frames_of padding message
      [len message :: message ++ pad_tail padding (length message)]
| first_and_consecutive cfs :
    7 < len message ->
    cf_frames padding 0 (drop 6 message) cfs ->
    frames_of padding message
      ((Z.lor 0x10 (Z.shiftr (len message) 8) :: Z.land (len message) 0xFF
          :: take 6 message) :: cfs).

(** The sequence number a consecutive frame decodes to. *)
Definition sn_of (frame : list Z) : option Z :=
  match decode_cf frame with
  | Ok (sn, _) => sn
  | _ => None
  end.

(** The PCI type nibble, as [indication] reads it. *)
Definition frame_type (frame : list Z) : option Z :=
  match getitem frame 0 with
  | Ok b0 => Some (Z.land (Z.shiftr b0 4) 0xF)
  | _ => None
  end.

(** The frames among the actions of [transmit]. *)
Definition sent_frames (out : list action) : list can.Message :=
  omap (fun a => match a with Send m => Some m | Sleep _ => None end) out.

(** The frames as the bus delivers them, in order and within the wait
    window, from a peer that sends with arbitration ID [arb_id]. *)
Definition deliver (arb_id : Z) (frames : list (list Z)) : list bus_event :=
  map (fun frame => Recv (send_message frame arb_id false)) frames.

(** A frame is ignored by the receive loop in state [st] when the loop
    goes on exactly as if the frame had not arrived. *)
Definition ignored (self : IsoTp.t) (trim_padding first_frame_only : bool)
    (st : rx_state) (msg : can.Message) : Prop :=
  forall sent rest,
    indication_loop self trim_padding first_frame_only st sent (Recv msg :: rest)
    = indication_loop self trim_padding first_frame_only st sent rest.

(** The flow status [transmit] reads from a message. *)
Definition flow_status (msg : can.Message) : option Z :=
  match decode_fc (can.data msg) with
  | Ok (fs, _, _) => fs
  | _ => None
  end.

(** A message the wait for flow control passes over: it comes from another
    arbitration ID, or it asks the sender to wait. *)
Definition passed_over (arbitration_id_flow_control : Z) (msg : can.Message) : Prop :=
  can.arbitration_id msg <> arbitration_id_flow_control
  \/ flow_status msg = Some FC_FS_WAIT.

(** The frames a bruteforce sends for [count] arbitration IDs from
    [first] on. *)
Definition probes (data : list Z) (first : Z) (count : nat) : list can.Message :=
  map (fun k => let arb_id := first + Z.of_nat k in
                can.mkMessage arb_id data
                  (if arb_id >? constants.ARBITRATION_ID_MAX then true else false)
                  false false)
      (seq 0 count).

(** An arbitration ID above 0x7FF carries the extended flag. *)
Definition extended_ok (msg : can.Message) : Prop :=
  can.arbitration_id msg > constants.ARBITRATION_ID_MAX ->
  can.is_extended_id msg = true.

(** An event that the receive loop acts on: the deadline, or a message
    with one of the two IDs of the channel and at least one data byte. *)
Definition relevant (self : IsoTp.t) (ev : bus_event) : bool :=
  match ev with
  | Expired => true
  | RecvNone => false
  | Recv msg =>
      ((can.arbitration_id msg =? arb_id_request self)
       || (can.arbitration_id msg =? arb_id_response self))
      && (len (can.data msg) >? 0)
  end.

(** A pause of at most 0x7F milliseconds. *)
Definition short_sleep (a : action) : Prop :=
  match a with
  | Sleep st_min => st_min <= 0x7F
  | Send _ => True
  end.

(** A pause that comes from a clear-to-send received on the flow-control
    ID: its length is the separation time of that frame when this is at
    most 0x7F, and one millisecond when it is larger. *)
Definition pause_from (fc : Z) (events : list (option can.Message)) (a : action)
    : Prop :=
  match a with
  | Send _ => True
  | Sleep st =>
      exists msg block_size st_min,
        In (Some msg) events
        /\ can.arbitration_id msg = fc
        /\ decode_fc (can.data msg) = Ok (Some FC_FS_CTS, Some block_size, Some st_min)
        /\ ((st_min <= 0x7F /\ st = st_min) \/ (0x7F < st_min /\ st = 1))
  end.

(** The frames of a block with the pause between each two of them. *)
Fixpoint paced (st_min : Z) (msgs : list can.Message) : list action :=
  match msgs with
  | [] => []
  | msg :: msgs' =>
      match msgs' with
      | [] => [Send msg]
      | _ :: _ => Send msg :: Sleep st_min :: paced st_min msgs'
      end
  end.

(** What has been sent is an initial part of the frame list, and the two
    counters of the loop agree with it. *)
Definition tx_consistent (frames : list (list Z)) (a : Z) (b : tx_block) : Prop :=
  exists done todo,
    frames = done ++ todo
    /\ blk_index b = len done
    /\ blk_left b = len todo
    /\ sent_frames (blk_out b) = map (fun f => send_message f a false) done.

(** The messages that arrive before the deadline. *)
Fixpoint before_deadline (events : list bus_event) : list can.Message :=
  match events with
  | [] => []
  | Expired :: _ => []
  | RecvNone :: rest => before_deadline rest
  | Recv msg :: rest => msg :: before_deadline rest
  end.

(** The values [first], [first + 1], ... of a [range] with [count] items. *)
Definition values_from (first : Z) (count : nat) : list Z :=
  map (fun k => first + Z.of_nat k) (seq 0 count).

(** The frames of a byte bruteforce: [data] with position [k] set to each
    value of the range in turn, sent with the instance's arbitration ID. *)
Definition value_probes (a : Z) (data : list Z) (k : nat) (first : Z) (count : nat)
    : list can.Message :=
  map (fun v => can.mkMessage a (<[k := v]> data)
                  (a >? constants.ARBITRATION_ID_MAX) false false)
      (values_from first count).

(** [data] after the assignments [data[k] = v] for the positions [ks] and
    the values [vs], in order. *)
Fixpoint assign (ks : list nat) (vs : list Z) (data : list Z) : list Z :=
  match ks, vs with
  | k :: ks', v :: vs' => assign ks' vs' (<[k := v]> data)
  | _, _ => data
  end.

(** All lists of [n] values, the first position varying slowest. *)
Fixpoint tuples (values : list Z) (n : nat) : list (list Z) :=
  match n with
  | O => [[]]
  | S n' => flat_map (fun v => map (cons v) (tuples values n')) values
  end.

(** Two lists of one length that differ at most at the positions [ks]. *)
Definition agree_off (ks : list nat) (d1 d2 : list Z) : Prop :=
  length d1 = length d2 /\ forall p, ~ In p ks -> d1 !! p = d2 !! p.

(** The bytes a dump has given out. *)
Fixpoint dumped (out : list xcp.dump_output) : list Z :=
  match out with
  | [] => []
  | xcp.DumpData bytes :: out' => bytes ++ dumped out'
  | _ :: out' => dumped out'
  end.

(** Byte [k] of an address, counted from the least significant one. *)
Definition address_byte (start_address : Z) (k : Z) : Z :=
  (start_address / 256 ^ k) mod 256.

(** The sizes asked for by the Upload commands of a dump of [length]
    bytes: 7 at a time, the rest at the end. *)
Fixpoint upload_sizes (count : nat) (length : Z) : list Z :=
  match count with
  | O => []
  | S count' => Z.min 7 length :: upload_sizes count' (length - 7)
  end.

(** A positive reply to an Upload command that fills its frame: 0xFF and
    seven bytes of data. *)
Definition upload_reply (rcv_arb_id : Z) (msg : can.Message) : Prop :=
  can.arbitration_id msg = rcv_arb_id
  /\ exists payload, can.data msg = 0xFF :: payload /\ length payload = 7%nat.

(** The data bytes of the replies, in order. *)
Definition uploaded (replies : list can.Message) : list Z :=
  concat (map (fun msg => drop 1 (can.data msg)) replies).

(** The nibbles of a list of bytes, high nibble first. *)
Definition nibbles_of (bytes : list Z) : list Z :=
  flat_map (fun b => [Z.shiftr b 4; Z.land b 0xF]) bytes.

(** The nibbles a fuzzing round works on: where the bitmap is set, the
    next fuzzed nibble, elsewhere the nibble of the initial data. *)
Fixpoint fuzzed (bitmap : list bool) (initial_data fuzzed_nibbles : list Z)
    : list Z :=
  match bitmap, initial_data with
  | true :: bitmap', _ :: initial' =>
      match fuzzed_nibbles with
      | f :: fuzzed' => f :: fuzzed bitmap' initial' fuzzed'
      | [] => []
      end
  | false :: bitmap', x :: initial' => x :: fuzzed bitmap' initial' fuzzed_nibbles
  | _, _ => []
  end.

(** The bytes of a list of nibbles, two nibbles to the byte. *)
Fixpoint bytes_of (nibbles : list Z) : list Z :=
  match nibbles with
  | high_nibble :: low_nibble :: nibbles' =>
      (Z.shiftl high_nibble 4 + low_nibble) :: bytes_of nibbles'
  | _ => []
  end.

(** The number of positions a bitmap marks. *)
Definition marked (bitmap : list bool) : nat :=
  length (List.filter (fun b : bool => b) bitmap).

(** The frame [send_messages] sends for a message. *)
Definition frame_of {duration : Type} (msg : send.CanMessage duration) : can.Message :=
  can.mkMessage (send.arb_id msg) (send.data msg) (send.is_extended msg)
    (send.is_error msg) (send.is_remote msg).



End Wire.

(** * Properties *)

Example s1_single_frame :
  IsoTp.get_frames_from_message [0x10; 0x01] (Some 0) = Ok [[0x02; 0x10; 0x01; 0; 0; 0; 0; 0]].
Proof. reflexivity. Qed.

Example s2_two_frames :
  IsoTp.get_frames_from_message [1; 2; 3; 4; 5; 6; 7; 8; 9; 10] (Some 0)
  = Ok [[0x10; 0x0A; 1; 2; 3; 4; 5; 6]; [0x21; 7; 8; 9; 10; 0; 0; 0]].
Proof. reflexivity. Qed.

Example s2_two_frames_unpadded :
  IsoTp.get_frames_from_message [1; 2; 3; 4; 5; 6; 7; 8; 9; 10] None
  = Ok [[0x10; 0x0A; 1; 2; 3; 4; 5; 6]; [0x21; 7; 8; 9; 10]].
Proof. reflexivity. Qed.

(** ** Python list primitives *)

Section ListPrimitives.
Context {A : Type}.
Implicit Types l pre post : list A.

Lemma py_index_nonneg (n i : Z) : 0 <= i < n -> py_index n i = Some (Z.to_nat i).
Proof.
  intros H. unfold py_index.
  rewrite (proj2 (Z.leb_le _ _)), (proj2 (Z.ltb_lt _ _)) by lia.
  reflexivity.
Qed.

Lemma getitem_lookup l (i : Z) (x : A) :
  0 <= i -> l !! Z.to_nat i = Some x -> getitem l i = Ok x.
Proof.
  intros Hi Hx. unfold getitem.
  pose proof (lookup_lt_Some _ _ _ Hx) as Hlt.
  rewrite py_index_nonneg by (unfold len; lia).
  rewrite Hx. reflexivity.
Qed.

Lemma getitem_head (x : A) l : getitem (x :: l) 0 = Ok x.
Proof. apply getitem_lookup; [lia | reflexivity]. Qed.

Lemma setitem_middle pre post (x v : A) (i : Z) :
  i = len pre -> setitem (pre ++ x :: post) i v = Ok (pre ++ v :: post).
Proof.
  intros ->. unfold setitem, len.
  rewrite py_index_nonneg by (rewrite length_app; simpl; lia).
  rewrite Nat2Z.id.
  replace (length pre) with (length pre + 0)%nat at 1 by lia.
  rewrite insert_app_r. reflexivity.
Qed.

Lemma setitem_head (x v : A) l : setitem (x :: l) 0 v = Ok (v :: l).
Proof. apply (setitem_middle [] l x v 0). reflexivity. Qed.

Lemma setitem_second (x y v : A) l : setitem (x :: y :: l) 1 v = Ok (x :: v :: l).
Proof. apply (setitem_middle [x] l y v 1). reflexivity. Qed.

Lemma len_app l1 l2 : len (l1 ++ l2) = len l1 + len l2.
Proof. unfold len. rewrite length_app. lia. Qed.

Lemma len_nonneg l : 0 <= len l.
Proof. unfold len. lia. Qed.

Lemma take_drop_step l (i : nat) (x : A) (n : nat) :
  l !! i = Some x -> take (S n) (drop i l) = x :: take n (drop (S i) l).
Proof.
  intros Hx. rewrite (drop_S _ _ _ Hx). reflexivity.
Qed.

End ListPrimitives.

(** ** The encoder produces the wire format *)

Section Encoder.
Import IsoTp Wire.

Lemma copy_loop_spec (message : list Z) (off : Z) (n : nat) :
  forall (i : Z) (pre old post : list Z),
    length old = n -> off + i = len pre -> 0 <= i ->
    i + Z.of_nat n <= len message ->
    for_range i n (copy_body message off) (pre ++ old ++ post)
    = Ok (pre ++ take n (drop (Z.to_nat i) message) ++ post).
Proof.
  induction n as [|n IH]; intros i pre old post Hold Hoff Hi Hlen.
  - destruct old; [|discriminate]. simpl. reflexivity.
  - destruct old as [|x old]; [discriminate|]. simpl in Hold.
    destruct (lookup_lt_is_Some_2 message (Z.to_nat i)) as [v Hv].
    { unfold len in Hlen. lia. }
    cbn [for_range]. unfold copy_body at 1.
    rewrite (getitem_lookup _ _ _ Hi Hv). cbn [bind].
    change (pre ++ (x :: old) ++ post) with (pre ++ x :: (old ++ post)).
    rewrite (setitem_middle pre (old ++ post) x v) by exact Hoff. cbn [bind].
    replace (pre ++ v :: old ++ post) with ((pre ++ [v]) ++ old ++ post)
      by (rewrite <- app_assoc; reflexivity).
    rewrite IH.
    + rewrite (take_drop_step _ _ _ n Hv).
      replace (Z.to_nat (i + 1)) with (S (Z.to_nat i)) by lia.
      rewrite <- app_assoc. reflexivity.
    + lia.
    + rewrite len_app. unfold len at 2. simpl. lia.
    + lia.
    + lia.
Qed.

Lemma cf_fill_spec (message : list Z) (n : nat) :
  forall (i : Z) (pre old post : list Z) (left copied : Z),
    length old = n -> 1 + i = len pre -> 0 <= copied ->
    copied + Z.of_nat n <= len message ->
    for_range i n (cf_body message) (mkFill (pre ++ old ++ post) left copied)
    = Ok (mkFill (pre ++ take n (drop (Z.to_nat copied) message) ++ post)
                 (left - Z.of_nat n) (copied + Z.of_nat n)).
Proof.
  induction n as [|n IH]; intros i pre old post left copied Hold Hoff Hc Hlen.
  - destruct old; [|discriminate]. simpl. f_equal. f_equal; lia.
  - destruct old as [|x old]; [discriminate|]. simpl in Hold.
    destruct (lookup_lt_is_Some_2 message (Z.to_nat copied)) as [v Hv].
    { unfold len in Hlen. lia. }
    cbn [for_range]. unfold cf_body at 1. cbn [fill_copied fill_frame fill_left].
    rewrite (getitem_lookup _ _ _ Hc Hv). cbn [bind].
    change (pre ++ (x :: old) ++ post) with (pre ++ x :: (old ++ post)).
    rewrite (setitem_middle pre (old ++ post) x v) by exact Hoff. cbn [bind].
    replace (pre ++ v :: old ++ post) with ((pre ++ [v]) ++ old ++ post)
      by (rewrite <- app_assoc; reflexivity).
    rewrite IH.
    + rewrite (take_drop_step _ _ _ n Hv).
      replace (Z.to_nat (copied + 1)) with (S (Z.to_nat copied)) by lia.
      rewrite <- app_assoc. f_equal. f_equal; lia.
    + lia.
    + rewrite len_app. unfold len at 2. simpl. lia.
    + lia.
    + lia.
Qed.

Lemma cf_frame_blank (padding : option Z) (left : Z) :
  0 < left ->
  (if negb (padding_enabled_of padding) && (left <? 7)
   then py_repeat (padding_value_of padding) (left + 1)
   else py_repeat (padding_value_of padding) MAX_FRAME_LENGTH)
  = padding_value_of padding
      :: replicate (Z.to_nat (Z.min 7 left)) (padding_value_of padding)
      ++ pad_tail padding (Z.to_nat (Z.min 7 left)).
Proof.
  intros Hleft. unfold py_repeat, pad_tail, MAX_FRAME_LENGTH.
  destruct padding as [v|]; cbn [padding_enabled_of padding_value_of negb andb].
  - replace (Z.to_nat 8) with (S (Z.to_nat (Z.min 7 left) + (7 - Z.to_nat (Z.min 7 left))))
      by lia.
    cbn [replicate]. rewrite replicate_add. reflexivity.
  - rewrite app_nil_r. destruct (Z.ltb_spec left 7).
    + replace (Z.to_nat (left + 1)) with (S (Z.to_nat (Z.min 7 left))) by lia.
      reflexivity.
    + replace (Z.to_nat 8) with (S (Z.to_nat (Z.min 7 left))) by lia.
      reflexivity.
Qed.

Lemma take_min_length {A : Type} (l : list A) (n : nat) :
  take (Nat.min n (length l)) l = take n l.
Proof.
  destruct (Nat.le_ge_cases n (length l)).
  - rewrite Nat.min_l by assumption. reflexivity.
  - rewrite Nat.min_r by assumption. rewrite !take_ge by lia. reflexivity.
Qed.

Lemma cf_loop_spec (message : list Z) (padding : option Z) (fuel : nat) :
  forall sn copied left frame_list,
    0 <= copied -> left = len message - copied -> 0 <= left ->
    (Z.to_nat left <= fuel)%nat ->
    exists cfs,
      cf_loop fuel message (padding_enabled_of padding) (padding_value_of padding)
              sn copied left frame_list = Ok (frame_list ++ cfs)
      /\ cf_frames padding sn (drop (Z.to_nat copied) message) cfs.
Proof.
  induction fuel as [|fuel IH]; intros sn copied left frame_list Hc Hleft Hl Hfuel.
  - assert (left = 0) by lia. subst left.
    exists []. split.
    + simpl. replace (len message - copied >? 0) with false by (symmetry; lia).
      rewrite app_nil_r. reflexivity.
    + rewrite drop_ge by (unfold len in *; lia). constructor.
  - destruct (Z.eq_dec left 0) as [Hz|Hnz].
    + exists []. split.
      * cbn [cf_loop]. rewrite Hz. rewrite app_nil_r. reflexivity.
      * rewrite drop_ge by (unfold len in *; lia). constructor.
    + cbn [cf_loop].
      replace (left >? 0) with true by (symmetry; lia).
      rewrite cf_frame_blank by lia.
      rewrite setitem_head. cbn [bind].
      unfold for_in_range, MAX_CF_LENGTH. rewrite Z.sub_0_r.
      set (n := Z.to_nat (Z.min 7 left)).
      pose proof (cf_fill_spec message n 0
                    [Z.lor (Z.shiftl CF_FRAME_ID 4) ((sn + 1) mod 16)]
                    (replicate n (padding_value_of padding)) (pad_tail padding n)
                    left copied (length_replicate _ _) eq_refl Hc) as Hfill.
      cbn [app] in Hfill. rewrite Hfill by (subst n; lia). clear Hfill.
      cbn [bind fill_copied fill_left fill_frame].
      destruct (IH ((sn + 1) mod 16) (copied + Z.of_nat n) (left - Z.of_nat n)
                   (frame_list ++ [Z.lor (Z.shiftl CF_FRAME_ID 4) ((sn + 1) mod 16)
                      :: take n (drop (Z.to_nat copied) message) ++ pad_tail padding n]))
        as [cfs [Hrun Hcfs]]; [lia | subst n; lia | subst n; lia | subst n; lia | ].
      rewrite Hrun. eexists. split.
      * rewrite <- app_assoc. reflexivity.
      * set (payload := drop (Z.to_nat copied) message) in *.
        assert (Hlen : length payload = Z.to_nat left).
        { subst payload. rewrite length_drop. unfold len in *. lia. }
        assert (Hn : n = Nat.min 7 (length payload)) by (subst n; lia).
        assert (Htake : take n payload = take 7 payload).
        { rewrite Hn. apply take_min_length. }
        assert (Hdrop : drop (Z.to_nat (copied + Z.of_nat n)) message = drop 7 payload).
        { subst payload. rewrite drop_drop.
          destruct (Z.le_gt_cases 7 left).
          - f_equal. lia.
          - rewrite !drop_ge by (unfold len in *; lia). reflexivity. }
        rewrite Hdrop in Hcfs. rewrite Htake.
        replace n with (length (take 7 payload))
          by (rewrite length_take; lia).
        change (Z.shiftl CF_FRAME_ID 4) with 0x20.
        apply cf_next; [ | exact Hcfs ].
        intros Hnil. rewrite Hnil in Hlen. simpl in Hlen. lia.
Qed.

Lemma get_frames_unfold (message : list Z) (padding : option Z) :
  get_frames_from_message message padding
  = let padding_enabled := padding_enabled_of padding in
    let padding_value := padding_value_of padding in
    let message_length := len message in
    if message_length >? MAX_MESSAGE_LENGTH then Raise ValueError
    else if message_length <=? MAX_SF_LENGTH then
      frame <- setitem (if padding_enabled
                        then py_repeat padding_value MAX_FRAME_LENGTH
                        else py_repeat padding_value (message_length + 1)) 0
                 (Z.lor (Z.shiftl SF_FRAME_ID 4) message_length) ;;
      frame <- for_in_range 0 message_length (copy_body message 1) frame ;;
      Ok [frame]
    else
      frame <- setitem (py_repeat padding_value MAX_FRAME_LENGTH) 0
                 (Z.lor (Z.shiftl FF_FRAME_ID 4) (Z.shiftr message_length 8)) ;;
      frame <- setitem frame 1 (Z.land message_length 0xFF) ;;
      frame <- for_in_range 0 MAX_FF_LENGTH (copy_body message 2) frame ;;
      cf_loop (length message) message padding_enabled padding_value
              0 MAX_FF_LENGTH (message_length - MAX_FF_LENGTH) [frame].
Proof. destruct padding; reflexivity. Qed.

Lemma sf_frame_blank (padding : option Z) (n : Z) :
  0 <= n <= 7 ->
  (if padding_enabled_of padding
   then py_repeat (padding_value_of padding) MAX_FRAME_LENGTH
   else py_repeat (padding_value_of padding) (n + 1))
  = padding_value_of padding
      :: replicate (Z.to_nat n) (padding_value_of padding)
      ++ pad_tail padding (Z.to_nat n).
Proof.
  intros Hn. unfold py_repeat, pad_tail, MAX_FRAME_LENGTH.
  destruct padding as [v|]; cbn [padding_enabled_of padding_value_of].
  - replace (Z.to_nat 8) with (S (Z.to_nat n + (7 - Z.to_nat n))) by lia.
    cbn [replicate]. rewrite replicate_add. reflexivity.
  - rewrite app_nil_r.
    replace (Z.to_nat (n + 1)) with (S (Z.to_nat n)) by lia. reflexivity.
Qed.

(** The encoder accepts every message of at most 4095 bytes and lays it
    out as [frames_of] says. *)
Lemma get_frames_spec (message : list Z) (padding : option Z) :
  len message <= MAX_MESSAGE_LENGTH ->
  exists frames,
    get_frames_from_message message padding = Ok frames
    /\ frames_of padding message frames.
Proof.
  intros Hmax. rewrite get_frames_unfold. cbv zeta.
  pose proof (len_nonneg message) as Hnn.
  replace (len message >? MAX_MESSAGE_LENGTH) with false by (symmetry; lia).
  unfold MAX_SF_LENGTH. destruct (Z.leb_spec (len message) 7) as [Hsf|Hmf].
  - rewrite sf_frame_blank by lia. rewrite setitem_head. cbn [bind].
    unfold for_in_range. rewrite Z.sub_0_r.
    pose proof (copy_loop_spec message 1 (Z.to_nat (len message)) 0
                  [Z.lor (Z.shiftl SF_FRAME_ID 4) (len message)]
                  (replicate (Z.to_nat (len message)) (padding_value_of padding))
                  (pad_tail padding (Z.to_nat (len message)))
                  (length_replicate _ _) eq_refl (Z.le_refl 0)) as Hcopy.
    cbn [app] in Hcopy. rewrite Hcopy by lia. clear Hcopy. cbn [bind].
    eexists. split; [reflexivity|].
    change (Z.shiftl SF_FRAME_ID 4) with 0. rewrite Z.lor_0_l.
    change (Z.to_nat 0) with 0%nat. rewrite drop_0.
    unfold len at 2 3. rewrite Nat2Z.id. rewrite firstn_all.
    apply single_frame. exact Hsf.
  - unfold py_repeat, MAX_FRAME_LENGTH, MAX_FF_LENGTH.
    change (Z.to_nat 8) with 8%nat. cbn [replicate].
    rewrite setitem_head. cbn [bind].
    rewrite setitem_second. cbn [bind].
    unfold for_in_range. change (Z.to_nat (6 - 0)) with 6%nat.
    set (pv := padding_value_of padding).
    pose proof (copy_loop_spec message 2 6 0
                  [Z.lor (Z.shiftl FF_FRAME_ID 4) (Z.shiftr (len message) 8);
                   Z.land (len message) 255]
                  [pv; pv; pv; pv; pv; pv] [] eq_refl eq_refl (Z.le_refl 0)) as Hcopy.
    cbn [app] in Hcopy. rewrite Hcopy by lia. clear Hcopy. cbn [bind].
    change (Z.to_nat 0) with 0%nat. rewrite drop_0. rewrite app_nil_r.
    destruct (cf_loop_spec message padding (length message) 0 6 (len message - 6)
                [Z.lor (Z.shiftl FF_FRAME_ID 4) (Z.shiftr (len message) 8)
                   :: Z.land (len message) 255 :: take 6 message])
      as [cfs [Hrun Hcfs]]; [lia | reflexivity | lia | unfold len; lia | ].
    subst pv. rewrite Hrun. eexists. split; [reflexivity|].
    change (Z.to_nat 6) with 6%nat in Hcfs.
    change (Z.shiftl FF_FRAME_ID 4) with 0x10.
    apply first_and_consecutive; assumption.
Qed.

Lemma get_frames_too_long (message : list Z) (padding : option Z) :
  MAX_MESSAGE_LENGTH < len message ->
  get_frames_from_message message padding = Raise ValueError.
Proof.
  intros Hlong. rewrite get_frames_unfold. cbv zeta.
  replace (len message >? MAX_MESSAGE_LENGTH) with true by (symmetry; lia).
  reflexivity.
Qed.

End Encoder.

(** ** PCI bytes *)

Section PciBytes.

Lemma Z_below_forallb (P : Z -> bool) (n : nat) :
  forallb P (map Z.of_nat (seq 0 n)) = true ->
  forall z, 0 <= z < Z.of_nat n -> P z = true.
Proof.
  intros Hall z Hz. rewrite forallb_forall in Hall. apply Hall.
  apply in_map_iff. exists (Z.to_nat z). split; [lia|].
  apply in_seq. lia.
Qed.

Lemma cf_pci (sn : Z) :
  0 <= sn < 16 ->
  Z.land (Z.shiftr (Z.lor 0x20 sn) 4) 0xF = 2 /\ Z.land (Z.lor 0x20 sn) 0xF = sn.
Proof.
  intros Hsn.
  pose (check := fun s => (Z.land (Z.shiftr (Z.lor 0x20 s) 4) 0xF =? 2)
                          && (Z.land (Z.lor 0x20 s) 0xF =? s)).
  assert (H : check sn = true).
  { apply (Z_below_forallb check 16); [vm_compute; reflexivity | lia]. }
  unfold check in H. apply andb_true_iff in H. lia.
Qed.

Lemma sf_pci (n : Z) :
  0 <= n <= 7 -> Z.land (Z.shiftr n 4) 0xF = 0 /\ Z.land n 0xF = n.
Proof.
  intros Hn.
  pose (check := fun s => (Z.land (Z.shiftr s 4) 0xF =? 0) && (Z.land s 0xF =? s)).
  assert (H : check n = true).
  { apply (Z_below_forallb check 8); [vm_compute; reflexivity | lia]. }
  unfold check in H. apply andb_true_iff in H. lia.
Qed.

Lemma ff_pci (n : Z) :
  0 <= n <= 4095 ->
  Z.land (Z.shiftr (Z.lor 0x10 (Z.shiftr n 8)) 4) 0xF = 1
  /\ Z.lor (Z.shiftl (Z.land (Z.lor 0x10 (Z.shiftr n 8)) 0xF) 8) (Z.land n 0xFF) = n.
Proof.
  intros Hn.
  pose (check := fun s =>
          (Z.land (Z.shiftr (Z.lor 0x10 (Z.shiftr s 8)) 4) 0xF =? 1)
          && (Z.lor (Z.shiftl (Z.land (Z.lor 0x10 (Z.shiftr s 8)) 0xF) 8)
                    (Z.land s 0xFF) =? s)).
  assert (H : check n = true).
  { apply (Z_below_forallb check 4096); [vm_compute; reflexivity | lia]. }
  unfold check in H. apply andb_true_iff in H. lia.
Qed.

End PciBytes.

(** ** The receive loop reads the wire format back *)

Section Receiver.
Import IsoTp Wire.

Lemma len_cons {A : Type} (x : A) (l : list A) : len (x :: l) = 1 + len l.
Proof. unfold len. simpl length. lia. Qed.

Lemma indication_loop_step (self : IsoTp.t) (tp fo : bool) (st : rx_state)
    (sent : list can.Message) (a : Z) (b0 : Z) (frame : list Z)
    (rest : list bus_event) :
  a = arb_id_request self \/ a = arb_id_response self ->
  indication_loop self tp fo st sent (Recv (send_message (b0 :: frame) a false) :: rest)
  = match indication_frame tp fo st (fc_id self a) (b0 :: frame) with
    | Ok (Continue st' out) => indication_loop self tp fo st' (sent ++ out) rest
    | Ok (Break message out) =>
        (match message with Some m => Ok (Some m) | None => Raise TypeError end,
         sent ++ out)
    | Ok ReturnNone => (Ok None, sent)
    | Raise e => (Raise e, sent)
    | OutOfFuel => (OutOfFuel, sent)
    end.
Proof.
  intros Ha. cbn [indication_loop send_message can.arbitration_id can.data].
  unfold fc_id.
  replace (len (b0 :: frame) >? 0) with true
    by (rewrite len_cons; pose proof (len_nonneg frame); symmetry; lia).
  destruct (Z.eqb_spec a (arb_id_request self)) as [Hreq|Hreq]; [reflexivity|].
  destruct (Z.eqb_spec a (arb_id_response self)) as [Hresp|Hresp]; [reflexivity|].
  tauto.
Qed.

Lemma indication_frame_sf (fo : bool) (st : rx_state) (fc : Z)
    (message tail : list Z) :
  len message <= 7 ->
  indication_frame true fo st fc (len message :: message ++ tail)
  = Ok (Break (Some message) []).
Proof.
  intros Hlen. pose proof (len_nonneg message) as Hnn.
  destruct (sf_pci (len message)) as [Htype Hdl]; [lia|].
  unfold indication_frame. rewrite getitem_head. cbn [bind].
  rewrite Htype. change (0 =? SF_FRAME_ID) with true. cbv iota.
  unfold decode_sf.
  replace (len (len message :: message ++ tail) >=? SF_PCI_LENGTH) with true
    by (rewrite len_cons; pose proof (len_nonneg (message ++ tail));
        unfold SF_PCI_LENGTH; symmetry; lia).
  rewrite getitem_head. cbn [bind trim]. rewrite Hdl.
  unfold slice_from, slice_to. cbn [drop].
  replace (0 <=? len message) with true by (symmetry; lia).
  unfold len. rewrite Nat2Z.id, drop_0, take_app_length. reflexivity.
Qed.

Lemma indication_frame_ff (tp : bool) (st : rx_state) (fc : Z)
    (n : Z) (data : list Z) :
  0 <= n <= 4095 ->
  indication_frame tp false st fc
    (Z.lor 0x10 (Z.shiftr n 8) :: Z.land n 0xFF :: data)
  = Ok (Continue (mkRx 0 (Some n) (Some data))
                 [send_message (encode_fc FC_FS_CTS 0 0) fc false]).
Proof.
  intros Hn. destruct (ff_pci n Hn) as [Htype Hdl].
  unfold indication_frame. rewrite getitem_head. cbn [bind].
  rewrite Htype. change (1 =? SF_FRAME_ID) with false.
  change (1 =? FF_FRAME_ID) with true. cbv iota.
  unfold decode_ff.
  replace (len (Z.lor 16 (Z.shiftr n 8) :: Z.land n 255 :: data) >=? FF_PCI_LENGTH)
    with true
    by (rewrite !len_cons; pose proof (len_nonneg data);
        unfold FF_PCI_LENGTH; symmetry; lia).
  rewrite getitem_head.
  rewrite (getitem_lookup _ 1 (Z.land n 255)) by (reflexivity || lia).
  cbn [bind]. rewrite Hdl. reflexivity.
Qed.

Lemma indication_frame_cf (fo : bool) (sn n : Z) (acc : list Z) (fc : Z)
    (sn' : Z) (data : list Z) :
  0 <= sn' < 16 -> (sn + 1) mod 16 = sn' ->
  indication_frame true fo (mkRx sn (Some n) (Some acc)) fc (Z.lor 0x20 sn' :: data)
  = if len (acc ++ data) >=? n
    then Ok (Break (Some (slice_to (acc ++ data) n)) [])
    else Ok (Continue (mkRx sn' (Some n) (Some (acc ++ data))) []).
Proof.
  intros Hsn' Hnext. destruct (cf_pci sn' Hsn') as [Htype Hsn].
  unfold indication_frame. rewrite getitem_head. cbn [bind].
  rewrite Htype. change (2 =? SF_FRAME_ID) with false.
  change (2 =? FF_FRAME_ID) with false. change (2 =? CF_FRAME_ID) with true.
  cbv iota. unfold decode_cf.
  replace (len (Z.lor 32 sn' :: data) >=? CF_PCI_LENGTH) with true
    by (rewrite len_cons; pose proof (len_nonneg data);
        unfold CF_PCI_LENGTH; symmetry; lia).
  rewrite getitem_head. cbn [bind rx_sn rx_message rx_message_length].
  rewrite Hsn, Hnext, Z.eqb_refl. unfold slice_from. cbn [drop].
  rewrite drop_0. destruct (len (acc ++ data) >=? n); reflexivity.
Qed.

Lemma pad_tail_full (padding : option Z) : pad_tail padding 7 = [].
Proof. destruct padding; reflexivity. Qed.

(** Reassembly of the consecutive frames, from any state reached after
    the first frame. *)
Lemma indication_loop_cfs (self : IsoTp.t) (fo : bool) (a : Z) (padding : option Z) :
  a = arb_id_request self \/ a = arb_id_response self ->
  forall sn payload cfs,
    cf_frames padding sn payload cfs ->
    payload <> [] ->
    forall acc n sent rest,
      n = len acc + len payload ->
      indication_loop self true fo (mkRx sn (Some n) (Some acc)) sent
                      (deliver a cfs ++ rest)
      = (Ok (Some (acc ++ payload)), sent).
Proof.
  intros Ha sn payload cfs Hcfs.
  induction Hcfs as [sn | sn payload frames Hne Hrest IH];
    intros Hpayload acc n sent rest Hn; [congruence|].
  cbn [deliver map app]. rewrite indication_loop_step by exact Ha.
  rewrite (indication_frame_cf fo sn n acc (fc_id self a) ((sn + 1) mod 16))
    by (try apply Z.mod_pos_bound; lia || reflexivity).
  destruct (Nat.le_gt_cases (length payload) 7) as [Hshort|Hlong].
  - rewrite (take_ge payload 7) by exact Hshort.
    replace (len (acc ++ payload ++ pad_tail padding (length payload)) >=? n)
      with true
      by (rewrite !len_app;
          pose proof (len_nonneg (pad_tail padding (length payload)));
          symmetry; lia).
    rewrite app_nil_r. unfold slice_to.
    replace (0 <=? n) with true
      by (pose proof (len_nonneg acc); pose proof (len_nonneg payload);
          symmetry; lia).
    rewrite app_assoc. rewrite take_app_length'; [reflexivity|].
    rewrite Hn, <- len_app. unfold len. lia.
  - assert (Hchunk : length (take 7 payload) = 7%nat)
      by (rewrite length_take; lia).
    rewrite Hchunk, pad_tail_full, app_nil_r.
    assert (Hlen7 : len (take 7 payload) = 7) by (unfold len; lia).
    replace (len (acc ++ take 7 payload) >=? n) with false
      by (rewrite len_app, Hlen7; unfold len in *; symmetry; lia).
    rewrite app_nil_r.
    change (map (fun frame => Recv (send_message frame a false)) frames)
      with (deliver a frames).
    rewrite (IH); [ rewrite <- app_assoc, take_drop; reflexivity | | ].
    + intros Hnil. apply (f_equal (@length Z)) in Hnil.
      rewrite length_drop in Hnil. simpl in Hnil. lia.
    + rewrite len_app, Hlen7. unfold len in *. rewrite length_drop. lia.
Qed.

End Receiver.

(** ** Sequence numbers of the consecutive frames *)

Section SequenceNumbers.
Import IsoTp Wire.

Lemma sn_of_cf (sn : Z) (data : list Z) :
  0 <= sn < 16 -> sn_of (Z.lor 0x20 sn :: data) = Some sn.
Proof.
  intros Hsn. destruct (cf_pci sn Hsn) as [_ Hland].
  unfold sn_of, decode_cf.
  replace (len (Z.lor 32 sn :: data) >=? CF_PCI_LENGTH) with true
    by (rewrite len_cons; pose proof (len_nonneg data);
        unfold CF_PCI_LENGTH; symmetry; lia).
  rewrite getitem_head. cbn [bind]. rewrite Hland. reflexivity.
Qed.

Lemma frame_type_cf (sn : Z) (data : list Z) :
  0 <= sn < 16 -> frame_type (Z.lor 0x20 sn :: data) = Some CF_FRAME_ID.
Proof.
  intros Hsn. destruct (cf_pci sn Hsn) as [Htype _].
  unfold frame_type. rewrite getitem_head, Htype. reflexivity.
Qed.

Lemma cf_frames_sn (padding : option Z) (sn : Z) (payload : list Z)
    (cfs : list (list Z)) :
  cf_frames padding sn payload cfs ->
  map sn_of cfs
  = map (fun k => Some ((sn + 1 + Z.of_nat k) mod 16)) (seq 0 (length cfs)).
Proof.
  induction 1 as [sn | sn payload frames Hne Hrest IH]; [reflexivity|].
  cbn [map length seq]. f_equal.
  - rewrite sn_of_cf by (apply Z.mod_pos_bound; lia).
    f_equal. f_equal. lia.
  - rewrite IH, <- seq_shift, map_map. apply map_ext. intros k.
    f_equal. rewrite Nat2Z.inj_succ.
    rewrite <- (Z.add_assoc ((sn + 1) mod 16)), Zplus_mod_idemp_l.
    f_equal. lia.
Qed.

Lemma cf_frames_type (padding : option Z) (sn : Z) (payload : list Z)
    (cfs : list (list Z)) :
  cf_frames padding sn payload cfs ->
  Forall (fun cf => frame_type cf = Some CF_FRAME_ID) cfs.
Proof.
  induction 1 as [sn | sn payload frames Hne Hrest IH]; constructor.
  - apply frame_type_cf. apply Z.mod_pos_bound. lia.
  - exact IH.
Qed.

Lemma cf_frames_length (padding : option Z) (sn : Z) (payload : list Z)
    (cfs : list (list Z)) :
  cf_frames padding sn payload cfs ->
  Z.of_nat (length cfs) = (len payload + 6) / 7.
Proof.
  induction 1 as [sn | sn payload frames Hne Hrest IH]; [reflexivity|].
  cbn [length]. rewrite Nat2Z.inj_succ, IH. unfold len.
  rewrite length_drop.
  assert (0 < length payload)%nat by (destruct payload; [congruence | simpl; lia]).
  destruct (Nat.le_gt_cases (length payload) 7).
  - replace (length payload - 7)%nat with 0%nat by lia.
    change ((Z.of_nat 0 + 6) / 7) with 0.
    apply Z.div_unique with (Z.of_nat (length payload) - 1); lia.
  - replace (Z.of_nat (length payload) + 6)
      with ((Z.of_nat (length payload - 7) + 6) + 1 * 7) by lia.
    rewrite Z.div_add by lia. lia.
Qed.

End SequenceNumbers.

(** ** The transmit loop under a clear-to-send flow control *)

Section Transmit.
Import IsoTp Wire.

Lemma sent_frames_app (out1 out2 : list action) :
  sent_frames (out1 ++ out2) = sent_frames out1 ++ sent_frames out2.
Proof. unfold sent_frames. apply omap_app. Qed.

Lemma send_block_spec (a st_min : Z) (count : nat) :
  forall (pre rest : list (list Z)) (left : Z) (out : list action),
    (count <= length rest)%nat ->
    exists out',
      send_block (pre ++ rest) a st_min count (mkBlock (len pre) left out)
      = Ok (mkBlock (len pre + Z.of_nat count) (left - Z.of_nat count) out')
      /\ sent_frames out'
         = sent_frames out ++ map (fun f => send_message f a false) (take count rest).
Proof.
  induction count as [|count IH]; intros pre rest left out Hcount.
  - exists out. split.
    + cbn [send_block]. do 2 f_equal; lia.
    + rewrite take_0. cbn [map]. rewrite app_nil_r. reflexivity.
  - destruct rest as [|f rest]; [simpl in Hcount; lia|].
    cbn [send_block blk_index blk_left blk_out].
    rewrite (getitem_lookup (pre ++ f :: rest) (len pre) f);
      [ | apply len_nonneg
        | unfold len; rewrite Nat2Z.id; apply list_lookup_middle; reflexivity ].
    cbn [bind].
    set (out1 := if Z.of_nat count >? 0
                 then (out ++ [Send (send_message f a false)]) ++ [Sleep st_min]
                 else out ++ [Send (send_message f a false)]).
    assert (Hout1 : sent_frames out1 = sent_frames out ++ [send_message f a false]).
    { subst out1. destruct (Z.of_nat count >? 0);
        rewrite ?sent_frames_app; cbn; rewrite ?app_nil_r; reflexivity. }
    destruct (IH (pre ++ [f]) rest (left - 1) out1) as [out' [Hrun Hsent]].
    { simpl in Hcount. lia. }
    rewrite <- app_assoc in Hrun. cbn [app] in Hrun.
    rewrite len_app in Hrun. change (len [f]) with 1 in Hrun.
    rewrite Hrun. exists out'. split.
    + do 2 f_equal; lia.
    + rewrite Hsent, Hout1, <- app_assoc. reflexivity.
Qed.

Lemma decode_fc_cts :
  decode_fc (encode_fc FC_FS_CTS 0 0) = Ok (Some FC_FS_CTS, Some 0, Some 0).
Proof. reflexivity. Qed.

(** A sender that gets one clear-to-send with block size 0 sends the first
    frame and then every other frame, in order. *)
Lemma transmit_clear_to_send (ff : list Z) (cfs : list (list Z)) (a b : Z) :
  cfs <> [] ->
  exists out,
    transmit (ff :: cfs) a b [Some (send_message (encode_fc FC_FS_CTS 0 0) b false)]
    = (Ok tt, out, [])
    /\ sent_frames out = map (fun f => send_message f a false) (ff :: cfs).
Proof.
  intros Hcfs.
  assert (Hlen : 0 < len cfs)
    by (destruct cfs; [congruence | rewrite len_cons; pose proof (len_nonneg cfs); lia]).
  unfold transmit. rewrite len_cons.
  replace (1 + len cfs =? 0) with false by (symmetry; lia).
  replace (1 + len cfs =? 1) with false by (symmetry; lia).
  rewrite getitem_head.
  cbn [transmit_loop send_message can.arbitration_id can.data].
  rewrite Z.eqb_refl. cbn [negb]. rewrite decode_fc_cts.
  change (opt_eqb (Some FC_FS_CTS) FC_FS_WAIT) with false.
  change (opt_eqb (Some FC_FS_CTS) FC_FS_CTS) with true.
  cbv iota. cbn [blk_left].
  rewrite Z.eqb_refl, orb_true_r.
  change (0 >? 127) with false. cbv iota.
  replace (1 + len cfs - 1) with (len cfs) by lia.
  destruct (send_block_spec a 0 (length cfs) [ff] cfs (len cfs)
              [Send (send_message ff a false)] (Nat.le_refl _))
    as [out [Hrun Hsent]].
  cbn [app] in Hrun. change (len [ff]) with 1 in Hrun.
  change (0 + 1) with 1.
  unfold len at 1. rewrite Nat2Z.id. rewrite Hrun. cbn [blk_left blk_out].
  replace (len cfs - Z.of_nat (length cfs) >? 0) with false
    by (unfold len; symmetry; lia).
  exists out. split; [reflexivity|].
  rewrite Hsent. rewrite take_ge by lia. reflexivity.
Qed.

End Transmit.

(** * Main results *)

Section FrameLists.
Import IsoTp Wire.

Lemma cf_frames_nonempty (padding : option Z) (sn : Z) (payload : list Z)
    (cfs : list (list Z)) :
  cf_frames padding sn payload cfs -> payload <> [] -> cfs <> [].
Proof. destruct 1; congruence. Qed.

Lemma drop_nonempty {A : Type} (l : list A) (n : nat) :
  Z.of_nat n < len l -> drop n l <> [].
Proof.
  intros Hn Hnil. apply (f_equal (@length A)) in Hnil.
  rewrite length_drop in Hnil. unfold len in Hn. simpl in Hnil. lia.
Qed.

End FrameLists.

(** C1: for every payload of 1 to 4095 bytes and every padding choice, the
    frames of [get_frames_from_message], delivered in order on one of the two
    arbitration IDs of the channel, make [indication] return exactly the
    payload, whatever the padding; the flow control that [indication] sends
    is what makes [transmit] send exactly these frames. *)
Theorem isotp_round_trip (self : IsoTp.t) (a : Z) (message : list Z)
    (padding : option Z) :
  1 <= len message <= 4095 ->
  a = IsoTp.arb_id_request self \/ a = IsoTp.arb_id_response self ->
  exists frames fcs out,
    IsoTp.get_frames_from_message message padding = Ok frames
    /\ IsoTp.indication self true false (Wire.deliver a frames)
       = (Ok (Some message), fcs)
    /\ IsoTp.transmit frames a (Wire.fc_id self a) (map Some fcs) = (Ok tt, out, [])
    /\ Wire.sent_frames out = map (fun f => IsoTp.send_message f a false) frames.
Proof.
  intros Hlen Ha.
  destruct (get_frames_spec message padding) as [frames [Hrun Hfmt]];
    [unfold IsoTp.MAX_MESSAGE_LENGTH; lia|].
  exists frames. destruct Hfmt as [Hsf | cfs Hmf Hcfs].
  - exists [], [IsoTp.Send (IsoTp.send_message
                   (len message :: message ++ Wire.pad_tail padding (length message))
                   a false)].
    split; [exact Hrun|]. split; [|split].
    + unfold IsoTp.indication. cbn [Wire.deliver map].
      rewrite indication_loop_step by exact Ha.
      rewrite indication_frame_sf by exact Hsf. reflexivity.
    + reflexivity.
    + reflexivity.
  - assert (Hpayload : drop 6 message <> []) by (apply drop_nonempty; lia).
    destruct (transmit_clear_to_send
                (Z.lor 16 (Z.shiftr (len message) 8)
                   :: Z.land (len message) 255 :: take 6 message)
                cfs a (Wire.fc_id self a)
                (cf_frames_nonempty _ _ _ _ Hcfs Hpayload)) as [out [Htx Hsent]].
    exists [IsoTp.send_message (IsoTp.encode_fc IsoTp.FC_FS_CTS 0 0)
              (Wire.fc_id self a) false], out.
    split; [exact Hrun|]. split; [|split; [exact Htx | exact Hsent]].
    unfold IsoTp.indication. cbn [Wire.deliver map].
    rewrite indication_loop_step by exact Ha.
    rewrite indication_frame_ff by lia.
    change (map (fun frame => Recv (IsoTp.send_message frame a false)) cfs)
      with (Wire.deliver a cfs).
    rewrite <- (app_nil_r (Wire.deliver a cfs)).
    rewrite (indication_loop_cfs self false a padding Ha 0 (drop 6 message) cfs
               Hcfs Hpayload (take 6 message) (len message)).
    + rewrite take_drop. reflexivity.
    + rewrite <- len_app, take_drop. reflexivity.
Qed.

Lemma isotp_round_trip_witness :
  (1 <= len [1; 2; 3; 4; 5; 6; 7; 8; 9; 10] <= 4095
   /\ (0x7E0 = 0x7E0 \/ 0x7E0 = 0x7E8))
  /\ exists frames fcs out,
       IsoTp.get_frames_from_message [1; 2; 3; 4; 5; 6; 7; 8; 9; 10] (Some 0xAA)
       = Ok frames
       /\ IsoTp.indication
            (IsoTp.mkIsoTp IsoTp.DefaultBus 0x7E0 0x7E8 (IsoTp.PyInt 0xAA) true)
            true false (Wire.deliver 0x7E0 frames)
          = (Ok (Some [1; 2; 3; 4; 5; 6; 7; 8; 9; 10]), fcs)
       /\ IsoTp.transmit frames 0x7E0
            (Wire.fc_id (IsoTp.mkIsoTp IsoTp.DefaultBus 0x7E0 0x7E8 (IsoTp.PyInt 0xAA) true)
                        0x7E0)
            (map Some fcs) = (Ok tt, out, [])
       /\ Wire.sent_frames out
          = map (fun f => IsoTp.send_message f 0x7E0 false) frames.
Proof.
  assert (Hlen : 1 <= len [1; 2; 3; 4; 5; 6; 7; 8; 9; 10] <= 4095)
    by (unfold len; simpl; lia).
  assert (Hid : 0x7E0 = 0x7E0 \/ 0x7E0 = 0x7E8) by (left; reflexivity).
  split; [split; assumption|].
  exact (isotp_round_trip
           (IsoTp.mkIsoTp IsoTp.DefaultBus 0x7E0 0x7E8 (IsoTp.PyInt 0xAA) true)
           0x7E0 [1; 2; 3; 4; 5; 6; 7; 8; 9; 10] (Some 0xAA) Hlen Hid).
Defined.

(** C2 (amended): [get_frames_from_message] raises, and then a [ValueError],
    exactly when the message is longer than 4095 bytes; every message of at
    most 4095 bytes, the empty one included, gives a non-empty frame list. *)
Theorem get_frames_length_rejection (message : list Z) (padding : option Z) :
  ((exists e, IsoTp.get_frames_from_message message padding = Raise e)
   <-> 4095 < len message)
  /\ (4095 < len message ->
      IsoTp.get_frames_from_message message padding = Raise ValueError)
  /\ (len message <= 4095 ->
      exists frames,
        IsoTp.get_frames_from_message message padding = Ok frames
        /\ Wire.frames_of padding message frames /\ frames <> []).
Proof.
  assert (Hok : len message <= 4095 ->
                exists frames,
                  IsoTp.get_frames_from_message message padding = Ok frames
                  /\ Wire.frames_of padding message frames /\ frames <> []).
  { intros Hle. destruct (get_frames_spec message padding Hle) as [frames [Hrun Hfmt]].
    exists frames. repeat split; try assumption.
    destruct Hfmt; discriminate. }
  split; [split|split].
  - intros [e He]. destruct (Z.le_gt_cases (len message) 4095) as [Hle|Hgt]; [|lia].
    destruct (Hok Hle) as [frames [Hrun _]]. congruence.
  - intros Hgt. exists ValueError. apply get_frames_too_long. exact Hgt.
  - apply get_frames_too_long.
  - exact Hok.
Qed.

Lemma get_frames_length_rejection_witness :
  len (@nil Z) <= 4095
  /\ exists frames,
       IsoTp.get_frames_from_message [] None = Ok frames
       /\ Wire.frames_of None [] frames /\ frames <> [].
Proof.
  assert (Hle : len (@nil Z) <= 4095) by (unfold len; simpl; lia).
  split; [exact Hle|].
  exact (proj2 (proj2 (get_frames_length_rejection [] None)) Hle).
Defined.

(** C2, as stated, fails on the empty message: its length is 0 and the
    encoder returns one single frame with SF_DL = 0 instead of failing. *)
Lemma get_frames_accepts_empty_message :
  len (@nil Z) = 0
  /\ IsoTp.get_frames_from_message [] (Some 0x00) = Ok [[0; 0; 0; 0; 0; 0; 0; 0]]
  /\ IsoTp.get_frames_from_message [] None = Ok [[0]].
Proof. repeat split. Qed.

(** C6: for every message of 8 to 4095 bytes the frame list is a first
    frame followed by consecutive frames whose sequence numbers run
    1, 2, ..., 15, 0, 1, ...; a 120-byte payload gives 17 consecutive frames
    with the numbers 1, 2, ..., 15, 0, 1. *)
Theorem cf_sequence_numbers (message : list Z) (padding : option Z) :
  8 <= len message <= 4095 ->
  exists ff cfs,
    IsoTp.get_frames_from_message message padding = Ok (ff :: cfs)
    /\ Wire.frame_type ff = Some IsoTp.FF_FRAME_ID
    /\ Forall (fun cf => Wire.frame_type cf = Some IsoTp.CF_FRAME_ID) cfs
    /\ map Wire.sn_of cfs
       = map (fun k => Some ((Z.of_nat k + 1) mod 16)) (seq 0 (length cfs))
    /\ (len message = 120 ->
        length cfs = 17%nat
        /\ map Wire.sn_of cfs
           = map Some [1; 2; 3; 4; 5; 6; 7; 8; 9; 10; 11; 12; 13; 14; 15; 0; 1]).
Proof.
  intros Hlen.
  destruct (get_frames_spec message padding) as [frames [Hrun Hfmt]];
    [unfold IsoTp.MAX_MESSAGE_LENGTH; lia|].
  destruct Hfmt as [Hsf | cfs Hmf Hcfs]; [lia|].
  eexists _, cfs. split; [exact Hrun|].
  assert (Hsn : map Wire.sn_of cfs
                = map (fun k => Some ((Z.of_nat k + 1) mod 16)) (seq 0 (length cfs))).
  { rewrite (cf_frames_sn _ _ _ _ Hcfs). apply map_ext. intros k.
    f_equal. f_equal. lia. }
  split; [|split; [|split]].
  - unfold Wire.frame_type. rewrite getitem_head.
    destruct (ff_pci (len message)) as [Htype _]; [lia|].
    rewrite Htype. reflexivity.
  - exact (cf_frames_type _ _ _ _ Hcfs).
  - exact Hsn.
  - intros H120.
    assert (Hcount : length cfs = 17%nat).
    { pose proof (cf_frames_length _ _ _ _ Hcfs) as Hc.
      unfold len in Hc, H120. rewrite length_drop in Hc.
      replace (Z.of_nat (length message - 6)) with 114 in Hc by lia.
      change ((114 + 6) / 7) with 17 in Hc. lia. }
    split; [exact Hcount|]. rewrite Hsn, Hcount. reflexivity.
Qed.

Lemma cf_sequence_numbers_witness :
  8 <= len (replicate 120 0x5A) <= 4095
  /\ exists ff cfs,
       IsoTp.get_frames_from_message (replicate 120 0x5A) (Some 0x00) = Ok (ff :: cfs)
       /\ length cfs = 17%nat
       /\ map Wire.sn_of cfs
          = map Some [1; 2; 3; 4; 5; 6; 7; 8; 9; 10; 11; 12; 13; 14; 15; 0; 1].
Proof.
  assert (Hlen : 8 <= len (replicate 120 0x5A) <= 4095)
    by (unfold len; rewrite length_replicate; lia).
  split; [exact Hlen|].
  destruct (cf_sequence_numbers (replicate 120 0x5A) (Some 0x00) Hlen)
    as [ff [cfs [Hrun [_ [_ [_ H120]]]]]].
  exists ff, cfs. split; [exact Hrun|].
  apply H120. unfold len. rewrite length_replicate. reflexivity.
Defined.

(** ** Frames that arrive before any first frame *)

Section Idle.
Import IsoTp Wire.

Lemma indication_loop_recv (self : IsoTp.t) (tp fo : bool) (st : rx_state)
    (sent : list can.Message) (msg : can.Message) (b0 : Z) (frame : list Z)
    (rest : list bus_event) :
  can.data msg = b0 :: frame ->
  can.arbitration_id msg = arb_id_request self
  \/ can.arbitration_id msg = arb_id_response self ->
  indication_loop self tp fo st sent (Recv msg :: rest)
  = match indication_frame tp fo st (fc_id self (can.arbitration_id msg))
            (b0 :: frame) with
    | Ok (Continue st' out) => indication_loop self tp fo st' (sent ++ out) rest
    | Ok (Break message out) =>
        (match message with Some m => Ok (Some m) | None => Raise TypeError end,
         sent ++ out)
    | Ok ReturnNone => (Ok None, sent)
    | Raise e => (Raise e, sent)
    | OutOfFuel => (OutOfFuel, sent)
    end.
Proof.
  intros Hdata Hid. destruct msg as [a d e1 e2 e3]. cbn in Hdata, Hid. subst d.
  exact (indication_loop_step self tp fo st sent a b0 frame rest Hid).
Qed.

Lemma indication_frame_idle_cf (tp fo : bool) (fc b0 : Z) (frame : list Z) :
  Z.land (Z.shiftr b0 4) 0xF = CF_FRAME_ID ->
  Z.land b0 0xF <> 1 ->
  indication_frame tp fo rx_idle fc (b0 :: frame) = Ok (Continue rx_idle []).
Proof.
  intros Htype Hsn. unfold indication_frame. rewrite getitem_head. cbn [bind].
  rewrite Htype. change (CF_FRAME_ID =? SF_FRAME_ID) with false.
  change (CF_FRAME_ID =? FF_FRAME_ID) with false.
  change (CF_FRAME_ID =? CF_FRAME_ID) with true. cbv iota.
  unfold decode_cf.
  replace (len (b0 :: frame) >=? CF_PCI_LENGTH) with true
    by (rewrite len_cons; pose proof (len_nonneg frame);
        unfold CF_PCI_LENGTH; symmetry; lia).
  rewrite getitem_head. cbn [bind rx_idle rx_sn].
  change ((0 + 1) mod 16) with 1.
  rewrite (proj2 (Z.eqb_neq 1 (Z.land b0 15))) by congruence.
  reflexivity.
Qed.

Lemma indication_frame_other (tp fo : bool) (st : rx_state) (fc b0 : Z)
    (frame : list Z) :
  Z.land (Z.shiftr b0 4) 0xF <> SF_FRAME_ID ->
  Z.land (Z.shiftr b0 4) 0xF <> FF_FRAME_ID ->
  Z.land (Z.shiftr b0 4) 0xF <> CF_FRAME_ID ->
  indication_frame tp fo st fc (b0 :: frame) = Ok ReturnNone.
Proof.
  intros Hsf Hff Hcf. unfold indication_frame. rewrite getitem_head. cbn [bind].
  rewrite (proj2 (Z.eqb_neq _ _) Hsf), (proj2 (Z.eqb_neq _ _) Hff),
    (proj2 (Z.eqb_neq _ _) Hcf).
  reflexivity.
Qed.

End Idle.

(** C3 (amended): while nothing has been received yet, a consecutive frame
    with a matching arbitration ID whose sequence number is not 1 is
    ignored; a frame whose PCI type is none of SF, FF and CF ends the call
    with [None], and a flow control frame is such a frame. *)
Theorem idle_frame_handling (self : IsoTp.t) (trim_padding first_frame_only : bool)
    (msg : can.Message) (b0 : Z) (frame : list Z) :
  can.data msg = b0 :: frame ->
  can.arbitration_id msg = IsoTp.arb_id_request self
  \/ can.arbitration_id msg = IsoTp.arb_id_response self ->
  (Wire.frame_type (can.data msg) = Some IsoTp.CF_FRAME_ID ->
   Wire.sn_of (can.data msg) <> Some 1 ->
   Wire.ignored self trim_padding first_frame_only IsoTp.rx_idle msg)
  /\ (Wire.frame_type (can.data msg) <> Some IsoTp.SF_FRAME_ID ->
      Wire.frame_type (can.data msg) <> Some IsoTp.FF_FRAME_ID ->
      Wire.frame_type (can.data msg) <> Some IsoTp.CF_FRAME_ID ->
      forall sent rest,
        IsoTp.indication_loop self trim_padding first_frame_only IsoTp.rx_idle sent
                              (Recv msg :: rest) = (Ok None, sent))
  /\ (Wire.frame_type (can.data msg) = Some IsoTp.FC_FRAME_ID ->
      forall sent rest,
        IsoTp.indication_loop self trim_padding first_frame_only IsoTp.rx_idle sent
                              (Recv msg :: rest) = (Ok None, sent)).
Proof.
  intros Hdata Hid. rewrite Hdata.
  assert (Htype : Wire.frame_type (b0 :: frame) = Some (Z.land (Z.shiftr b0 4) 0xF)).
  { unfold Wire.frame_type. rewrite getitem_head. reflexivity. }
  assert (Hsn : Wire.sn_of (b0 :: frame) = Some (Z.land b0 0xF)).
  { unfold Wire.sn_of, IsoTp.decode_cf.
    replace (len (b0 :: frame) >=? IsoTp.CF_PCI_LENGTH) with true
      by (rewrite len_cons; pose proof (len_nonneg frame);
          unfold IsoTp.CF_PCI_LENGTH; symmetry; lia).
    rewrite getitem_head. reflexivity. }
  rewrite Htype, Hsn.
  assert (Hother : Some (Z.land (Z.shiftr b0 4) 0xF) <> Some IsoTp.SF_FRAME_ID ->
                   Some (Z.land (Z.shiftr b0 4) 0xF) <> Some IsoTp.FF_FRAME_ID ->
                   Some (Z.land (Z.shiftr b0 4) 0xF) <> Some IsoTp.CF_FRAME_ID ->
                   forall sent rest,
                     IsoTp.indication_loop self trim_padding first_frame_only
                       IsoTp.rx_idle sent (Recv msg :: rest) = (Ok None, sent)).
  { intros Hsf Hff Hcf sent rest.
    rewrite (indication_loop_recv _ _ _ _ _ _ _ _ _ Hdata Hid).
    rewrite indication_frame_other by congruence. reflexivity. }
  split; [|split].
  - intros Hcf Hnot1 sent rest.
    rewrite (indication_loop_recv _ _ _ _ _ _ _ _ _ Hdata Hid).
    rewrite indication_frame_idle_cf by congruence.
    rewrite app_nil_r. reflexivity.
  - exact Hother.
  - intros Hfc. apply Hother; rewrite Hfc; discriminate.
Qed.

Lemma idle_frame_handling_witness :
  (Wire.frame_type [0x22; 1; 2; 3; 4; 5; 6; 7] = Some IsoTp.CF_FRAME_ID
   /\ Wire.sn_of [0x22; 1; 2; 3; 4; 5; 6; 7] <> Some 1)
  /\ Wire.ignored (IsoTp.mkIsoTp IsoTp.DefaultBus 0x7E0 0x7E8 (IsoTp.PyInt 0) true)
       true false IsoTp.rx_idle
       (can.mkMessage 0x7E8 [0x22; 1; 2; 3; 4; 5; 6; 7] false false false).
Proof.
  assert (Htype : Wire.frame_type [0x22; 1; 2; 3; 4; 5; 6; 7] = Some IsoTp.CF_FRAME_ID)
    by reflexivity.
  assert (Hsn : Wire.sn_of [0x22; 1; 2; 3; 4; 5; 6; 7] <> Some 1)
    by (vm_compute; discriminate).
  split; [split; assumption|].
  exact (proj1 (idle_frame_handling
                  (IsoTp.mkIsoTp IsoTp.DefaultBus 0x7E0 0x7E8 (IsoTp.PyInt 0) true)
                  true false
                  (can.mkMessage 0x7E8 [0x22; 1; 2; 3; 4; 5; 6; 7] false false false)
                  0x22 [1; 2; 3; 4; 5; 6; 7] eq_refl (or_intror eq_refl))
               Htype Hsn).
Defined.

(** C3, as stated, fails: with nothing received yet, a flow control frame
    with a matching arbitration ID is not ignored but ends the call with
    [None], although a complete single frame follows it; and a consecutive
    frame with sequence number 1 ends the call with an empty message. *)
Lemma idle_flow_control_not_ignored :
  IsoTp.indication (IsoTp.mkIsoTp IsoTp.DefaultBus 0x7E0 0x7E8 (IsoTp.PyInt 0) true)
    true false
    [Recv (can.mkMessage 0x7E8 [0x30; 0; 0; 0; 0; 0; 0; 0] false false false);
     Recv (can.mkMessage 0x7E8 [0x02; 0x50; 0x01; 0; 0; 0; 0; 0] false false false)]
  = (Ok None, [])
  /\ IsoTp.indication (IsoTp.mkIsoTp IsoTp.DefaultBus 0x7E0 0x7E8 (IsoTp.PyInt 0) true)
       true false
       [Recv (can.mkMessage 0x7E8 [0x02; 0x50; 0x01; 0; 0; 0; 0; 0] false false false)]
     = (Ok (Some [0x50; 0x01]), [])
  /\ ~ Wire.ignored (IsoTp.mkIsoTp IsoTp.DefaultBus 0x7E0 0x7E8 (IsoTp.PyInt 0) true)
         true false IsoTp.rx_idle
         (can.mkMessage 0x7E8 [0x30; 0; 0; 0; 0; 0; 0; 0] false false false)
  /\ IsoTp.indication (IsoTp.mkIsoTp IsoTp.DefaultBus 0x7E0 0x7E8 (IsoTp.PyInt 0) true)
       true false
       [Recv (can.mkMessage 0x7E8 [0x21; 1; 2; 3; 4; 5; 6; 7] false false false);
        Recv (can.mkMessage 0x7E8 [0x02; 0x50; 0x01; 0; 0; 0; 0; 0] false false false)]
     = (Ok (Some []), []).
Proof.
  split; [reflexivity|]. split; [reflexivity|]. split; [|reflexivity].
  intros Hign.
  specialize (Hign []
    [Recv (can.mkMessage 0x7E8 [0x02; 0x50; 0x01; 0; 0; 0; 0; 0] false false false)]).
  vm_compute in Hign. discriminate Hign.
Qed.

(** ** Flow control with status overflow *)

Section Overflow.
Import IsoTp Wire.

Lemma flow_status_decode (msg : can.Message) (fs : Z) :
  flow_status msg = Some fs ->
  exists block_size st_min,
    decode_fc (can.data msg) = Ok (Some fs, block_size, st_min).
Proof.
  unfold flow_status. destruct (decode_fc (can.data msg)) as [[[o bs] st] | e | ];
    try discriminate.
  intros ->. eauto.
Qed.

Lemma transmit_loop_overflow (frames : list (list Z)) (a b : Z) (blk : tx_block)
    (fc : can.Message) (rest : list (option can.Message))
    (skipped : list can.Message) :
  Forall (passed_over b) skipped ->
  can.arbitration_id fc = b ->
  flow_status fc = Some FC_FS_OVFLW ->
  transmit_loop frames a b blk (map Some skipped ++ Some fc :: rest)
  = (Ok tt, blk_out blk, rest).
Proof.
  intros Hskipped Hid Hfs.
  induction Hskipped as [|m skipped Hm Hskipped IH]; cbn [map app transmit_loop].
  - rewrite Hid, Z.eqb_refl. cbn [negb].
    destruct (flow_status_decode fc _ Hfs) as [bs [st Hdec]]. rewrite Hdec.
    reflexivity.
  - destruct (Z.eqb_spec (can.arbitration_id m) b) as [Heq|Hne]; cbn [negb];
      [|exact IH].
    destruct Hm as [Hm|Hm]; [congruence|].
    destruct (flow_status_decode m _ Hm) as [bs [st Hdec]]. rewrite Hdec.
    change (opt_eqb (Some FC_FS_WAIT) FC_FS_WAIT) with true. cbv iota.
    exact IH.
Qed.

(** A receive timeout at the same point ends the loop in the same way. *)
Lemma transmit_loop_timeout (frames : list (list Z)) (a b : Z) (blk : tx_block)
    (rest : list (option can.Message)) (skipped : list can.Message) :
  Forall (passed_over b) skipped ->
  transmit_loop frames a b blk (map Some skipped ++ None :: rest)
  = (Ok tt, blk_out blk, rest).
Proof.
  intros Hskipped.
  induction Hskipped as [|m skipped Hm Hskipped IH]; cbn [map app transmit_loop];
    [reflexivity|].
  destruct (Z.eqb_spec (can.arbitration_id m) b) as [Heq|Hne]; cbn [negb];
    [|exact IH].
  destruct Hm as [Hm|Hm]; [congruence|].
  destruct (flow_status_decode m _ Hm) as [bs [st Hdec]]. rewrite Hdec.
  change (opt_eqb (Some FC_FS_WAIT) FC_FS_WAIT) with true. cbv iota.
  exact IH.
Qed.

End Overflow.

(** C5 (amended): in a multi-frame transmit, when the first flow control
    that the sender does not pass over (messages from other arbitration IDs
    and flow controls with status Wait are passed over) carries flow status
    2, [transmit] returns at once: the first frame is the only frame sent,
    no consecutive frame follows, and nothing more is read from the bus.
    What it returns is [None], as at every other exit: a receive timeout
    at the same point gives the same value, the same frames and the same
    unread bus. *)
Theorem transmit_overflow_aborts (ff cf : list Z) (cfs : list (list Z)) (a b : Z)
    (skipped : list can.Message) (fc : can.Message)
    (rest : list (option can.Message)) :
  Forall (Wire.passed_over b) skipped ->
  can.arbitration_id fc = b ->
  Wire.flow_status fc = Some IsoTp.FC_FS_OVFLW ->
  IsoTp.transmit (ff :: cf :: cfs) a b (map Some skipped ++ Some fc :: rest)
  = (Ok tt, [IsoTp.Send (IsoTp.send_message ff a false)], rest)
  /\ IsoTp.transmit (ff :: cf :: cfs) a b (map Some skipped ++ Some fc :: rest)
     = IsoTp.transmit (ff :: cf :: cfs) a b (map Some skipped ++ None :: rest).
Proof.
  intros Hskipped Hid Hfs. unfold IsoTp.transmit.
  rewrite !len_cons. pose proof (len_nonneg cfs) as Hnn.
  replace (1 + (1 + len cfs) =? 0) with false by (symmetry; lia).
  replace (1 + (1 + len cfs) =? 1) with false by (symmetry; lia).
  rewrite getitem_head.
  rewrite (transmit_loop_overflow _ a b _ fc rest skipped Hskipped Hid Hfs).
  rewrite (transmit_loop_timeout _ a b _ rest skipped Hskipped).
  split; reflexivity.
Qed.

Lemma transmit_overflow_aborts_witness :
  (Forall (Wire.passed_over 0x7E8)
     [can.mkMessage 0x123 [0x30; 0; 0] false false false;
      can.mkMessage 0x7E8 [0x31; 0; 0; 0; 0; 0; 0; 0] false false false]
   /\ can.arbitration_id (can.mkMessage 0x7E8 [0x32; 0; 0; 0; 0; 0; 0; 0] false false false)
      = 0x7E8
   /\ Wire.flow_status (can.mkMessage 0x7E8 [0x32; 0; 0; 0; 0; 0; 0; 0] false false false)
      = Some IsoTp.FC_FS_OVFLW)
  /\ IsoTp.transmit
       [[0x10; 0x0A; 1; 2; 3; 4; 5; 6]; [0x21; 7; 8; 9; 10; 0; 0; 0]] 0x7E0 0x7E8
       (map Some [can.mkMessage 0x123 [0x30; 0; 0] false false false;
                  can.mkMessage 0x7E8 [0x31; 0; 0; 0; 0; 0; 0; 0] false false false]
          ++ Some (can.mkMessage 0x7E8 [0x32; 0; 0; 0; 0; 0; 0; 0] false false false)
          :: [Some (can.mkMessage 0x7E8 [0x30; 0; 0; 0; 0; 0; 0; 0] false false false)])
     = (Ok tt,
        [IsoTp.Send (IsoTp.send_message [0x10; 0x0A; 1; 2; 3; 4; 5; 6] 0x7E0 false)],
        [Some (can.mkMessage 0x7E8 [0x30; 0; 0; 0; 0; 0; 0; 0] false false false)]).
Proof.
  assert (Hskipped :
    Forall (Wire.passed_over 0x7E8)
      [can.mkMessage 0x123 [0x30; 0; 0] false false false;
       can.mkMessage 0x7E8 [0x31; 0; 0; 0; 0; 0; 0; 0] false false false]).
  { constructor; [left; cbn; discriminate|].
    constructor; [right; reflexivity | constructor]. }
  split; [split; [exact Hskipped | split; reflexivity]|].
  exact (proj1 (transmit_overflow_aborts [0x10; 0x0A; 1; 2; 3; 4; 5; 6]
                  [0x21; 7; 8; 9; 10; 0; 0; 0] [] 0x7E0 0x7E8 _
                  (can.mkMessage 0x7E8 [0x32; 0; 0; 0; 0; 0; 0; 0] false false false)
                  [Some (can.mkMessage 0x7E8 [0x30; 0; 0; 0; 0; 0; 0; 0]
                           false false false)]
                  Hskipped eq_refl eq_refl)).
Defined.

(** C5, as stated, fails on the outcome: for a two-frame message the run
    that meets a flow control with status 2, the run that meets a receive
    timeout and the run that meets a flow control with the reserved status
    3 all return the same value, [None], after the same single frame; that
    value is also what a completed transmission returns.  No exit of
    [transmit] reports a peer overflow. *)
Lemma transmit_overflow_no_distinct_outcome :
  let frames := [[0x10; 0x0A; 1; 2; 3; 4; 5; 6]; [0x21; 7; 8; 9; 10; 0; 0; 0]] in
  let reply := fun data => [Some (can.mkMessage 0x7E8 data false false false)] in
  IsoTp.transmit frames 0x7E0 0x7E8 (reply [0x32; 0; 0; 0; 0; 0; 0; 0])
  = (Ok tt, [IsoTp.Send (IsoTp.send_message [0x10; 0x0A; 1; 2; 3; 4; 5; 6] 0x7E0 false)],
     [])
  /\ IsoTp.transmit frames 0x7E0 0x7E8 [None]
     = IsoTp.transmit frames 0x7E0 0x7E8 (reply [0x32; 0; 0; 0; 0; 0; 0; 0])
  /\ IsoTp.transmit frames 0x7E0 0x7E8 (reply [0x33; 0; 0; 0; 0; 0; 0; 0])
     = IsoTp.transmit frames 0x7E0 0x7E8 (reply [0x32; 0; 0; 0; 0; 0; 0; 0])
  /\ fst (fst (IsoTp.transmit frames 0x7E0 0x7E8 (reply [0x30; 0; 0; 0; 0; 0; 0; 0])))
     = fst (fst (IsoTp.transmit frames 0x7E0 0x7E8 (reply [0x32; 0; 0; 0; 0; 0; 0; 0]))).
Proof. cbv zeta. repeat split. Qed.

(** C10: the constructor settles the padding policy without touching the
    bus (it neither sends nor receives): [None] disables padding, a value
    that is not an [int] raises [TypeError], an [int] outside 0x00-0xFF
    raises [ValueError], and every [int] in 0x00-0xFF enables padding with
    that value. *)
Theorem init_validates_padding (arb_id_request arb_id_response : Z)
    (bus : option nat) (padding_value : IsoTp.pyval) :
  (padding_value = IsoTp.PyNone ->
   exists self,
     IsoTp.__init__ arb_id_request arb_id_response bus padding_value = Ok self
     /\ IsoTp.padding_enabled self = false)
  /\ (padding_value <> IsoTp.PyNone ->
      IsoTp.isinstance_int padding_value = false ->
      IsoTp.__init__ arb_id_request arb_id_response bus padding_value = Raise TypeError)
  /\ (IsoTp.isinstance_int padding_value = true ->
      ~ (0x00 <= IsoTp.int_value padding_value <= 0xFF) ->
      IsoTp.__init__ arb_id_request arb_id_response bus padding_value = Raise ValueError)
  /\ (IsoTp.isinstance_int padding_value = true ->
      0x00 <= IsoTp.int_value padding_value <= 0xFF ->
      exists self,
        IsoTp.__init__ arb_id_request arb_id_response bus padding_value = Ok self
        /\ IsoTp.padding_enabled self = true
        /\ IsoTp.padding_value self = padding_value).
Proof.
  split; [|split; [|split]].
  - intros ->. eexists. split; reflexivity.
  - intros Hnone Hint.
    destruct padding_value; try congruence; try discriminate Hint; reflexivity.
  - intros Hint Hrange. destruct padding_value as [|b|z|s|l]; try discriminate.
    + destruct b; cbn in Hrange; lia.
    + cbn in Hrange. cbn [IsoTp.__init__ IsoTp.isinstance_int negb IsoTp.int_value].
      destruct (Z.leb_spec 0 z), (Z.leb_spec z 255); try reflexivity; lia.
  - intros Hint Hrange. destruct padding_value as [|b|z|s|l]; try discriminate.
    + destruct b; eexists; repeat split.
    + cbn in Hrange. cbn [IsoTp.__init__ IsoTp.isinstance_int negb IsoTp.int_value].
      rewrite (proj2 (Z.leb_le 0 z)), (proj2 (Z.leb_le z 255)) by lia.
      eexists. repeat split.
Qed.

Lemma init_validates_padding_witness :
  (IsoTp.isinstance_int (IsoTp.PyInt 0xAA) = true
   /\ 0x00 <= IsoTp.int_value (IsoTp.PyInt 0xAA) <= 0xFF)
  /\ exists self,
       IsoTp.__init__ 0x7E0 0x7E8 None (IsoTp.PyInt 0xAA) = Ok self
       /\ IsoTp.padding_enabled self = true
       /\ IsoTp.padding_value self = IsoTp.PyInt 0xAA.
Proof.
  assert (Hint : IsoTp.isinstance_int (IsoTp.PyInt 0xAA) = true) by reflexivity.
  assert (Hrange : 0x00 <= IsoTp.int_value (IsoTp.PyInt 0xAA) <= 0xFF)
    by (cbn; lia).
  split; [split; assumption|].
  exact (proj2 (proj2 (proj2 (init_validates_padding 0x7E0 0x7E8 None
                                (IsoTp.PyInt 0xAA)))) Hint Hrange).
Defined.

(** C8: for a reply that starts with 0xFE the decoder does not surface any
    label: the error table is a set of tuples, which has no [get], so the
    lookup raises [AttributeError] for every code, listed or not; read as a
    dictionary, the same table maps 0x20 to ERR_CMD_UNKNOWN and a code that
    is not listed to UNKNOWN. *)
Theorem decode_xcp_error_raises (arb_id : Z) (rest : list Z) (e1 e2 e3 : bool) :
  xcp.decode_xcp_error (can.mkMessage arb_id (0xFE :: rest) e1 e2 e3)
  = Raise AttributeError
  /\ (exists get,
        xcp.get (xcp.PyDict xcp.error_table) = Ok get
        /\ get 0x20 ("UNKNOWN", "Unknown error")%string
           = ("ERR_CMD_UNKNOWN",
              "Unknown command or not implemented optional command.")%string
        /\ get 0x33 ("UNKNOWN", "Unknown error")%string
           = ("UNKNOWN", "Unknown error")%string).
Proof.
  split.
  - unfold xcp.decode_xcp_error. cbn [can.data]. rewrite getitem_head. cbn [bind].
    change (negb (254 =? 254)) with false. cbv iota. reflexivity.
  - eexists. split; [reflexivity|]. split; reflexivity.
Qed.

(** C4: for start address 0x1FFFB000 and a Connect reply whose byte 2 has
    bit 0 clear, the Set MTA command the dump sends is
    [F6 00 00 00 1F FF B0 00]: the address bytes leave in big-endian order,
    not in the reversed order [00 B0 FF 1F] that the claim states.  The
    reversed order is what a reply with bit 0 set gets. *)
Theorem set_mta_byte_order (send_arb_id rcv_arb_id b1 b2 : Z) (rest : list Z)
    (e1 e2 e3 : bool) :
  (Z.land b2 1 = 0 ->
   exists r can_wrap out,
     xcp.xcp_memory_dump_connect send_arb_id rcv_arb_id 0x1FFFB000
       (can.mkMessage rcv_arb_id (0xFF :: b1 :: b2 :: rest) e1 e2 e3)
     = Ok (r, can_wrap, out)
     /\ map can.data (CanActions.bus_sent can_wrap)
        = [[0xFF]; [0xF6; 0x00; 0x00; 0x00; 0x1F; 0xFF; 0xB0; 0x00]])
  /\ (Z.land b2 1 <> 0 ->
      exists r can_wrap out,
        xcp.xcp_memory_dump_connect send_arb_id rcv_arb_id 0x1FFFB000
          (can.mkMessage rcv_arb_id (0xFF :: b1 :: b2 :: rest) e1 e2 e3)
        = Ok (r, can_wrap, out)
        /\ map can.data (CanActions.bus_sent can_wrap)
           = [[0xFF]; [0xF6; 0x00; 0x00; 0x00; 0x00; 0xB0; 0xFF; 0x1F]]).
Proof.
  assert (Hrun :
    xcp.xcp_memory_dump_connect send_arb_id rcv_arb_id 0x1FFFB000
      (can.mkMessage rcv_arb_id (0xFF :: b1 :: b2 :: rest) e1 e2 e3)
    = xcp.handle_connect_reply rcv_arb_id [0x00; 0xB0; 0xFF; 0x1F]
        (CanActions.mkCanActions (Some send_arb_id) false
           (Some [xcp.handle_connect_reply_h])
           [can.mkMessage send_arb_id [255]
              (send_arb_id >? constants.ARBITRATION_ID_MAX) false false] [])
        (can.mkMessage rcv_arb_id (0xFF :: b1 :: b2 :: rest) e1 e2 e3))
    by reflexivity.
  rewrite Hrun. clear Hrun.
  unfold xcp.handle_connect_reply. cbn [can.arbitration_id can.data].
  rewrite Z.eqb_refl. cbn [negb]. rewrite getitem_head. cbn [bind].
  change (255 =? 254) with false. change (255 =? 255) with true. cbv iota.
  rewrite (getitem_lookup _ 2 b2) by (lia || reflexivity). cbn [bind].
  split; intros Hbit.
  - rewrite Hbit. change (negb (0 =? 0)) with false. cbv iota.
    do 3 eexists. split; reflexivity.
  - rewrite (proj2 (Z.eqb_neq _ _) Hbit). cbn [negb].
    do 3 eexists. split; reflexivity.
Qed.

Lemma set_mta_byte_order_witness :
  Z.land 0x00 1 = 0
  /\ exists r can_wrap out,
       xcp.xcp_memory_dump_connect 0x3E8 0x3E9 0x1FFFB000
         (can.mkMessage 0x3E9 [0xFF; 0x15; 0x00; 0x08; 0x08; 0x00; 0x01; 0x01]
            false false false)
       = Ok (r, can_wrap, out)
       /\ map can.data (CanActions.bus_sent can_wrap)
          = [[0xFF]; [0xF6; 0x00; 0x00; 0x00; 0x1F; 0xFF; 0xB0; 0x00]].
Proof.
  split; [reflexivity|].
  exact (proj1 (set_mta_byte_order 0x3E8 0x3E9 0x15 0x00
                  [0x08; 0x08; 0x00; 0x01; 0x01] false false false) eq_refl).
Defined.

(** ** The arbitration ID bruteforce *)

Section Bruteforce.
Import CanActions Wire.
Context {listener : Type} (callback : Z -> listener) (stop : Z -> bool).

Lemma probes_S (data : list Z) (first : Z) (count : nat) :
  probes data first (S count)
  = can.mkMessage first data
      (if first >? constants.ARBITRATION_ID_MAX then true else false) false false
    :: probes data (first + 1) count.
Proof.
  unfold probes. cbn [seq map]. rewrite <- seq_shift, map_map.
  cbv zeta. f_equal.
  - change (Z.of_nat 0) with 0. rewrite Z.add_0_r. reflexivity.
  - apply map_ext. intros k.
    replace (first + Z.of_nat (S k)) with (first + 1 + Z.of_nat k) by lia.
    reflexivity.
Qed.

Lemma probes_extended_ok (data : list Z) (first : Z) (count : nat) :
  Forall extended_ok (probes data first count).
Proof.
  unfold probes. apply Forall_forall. intros m Hm.
  apply list_elem_of_In, in_map_iff in Hm. destruct Hm as [k [<- _]].
  unfold extended_ok. cbn. intros Hgt.
  destruct (Z.gtb_spec (first + Z.of_nat k) constants.ARBITRATION_ID_MAX);
    [reflexivity | lia].
Qed.

(** Whatever way the loop ends, it has sent probes for an initial part of
    its ID range and has not called [callback_end]. *)
Lemma bruteforce_loop_sent (data : list Z) (count : nat) :
  forall (first : Z) (self self' : CanActions.t listener) (returned : bool),
    bruteforce_loop callback stop count first data self = Ok (self', returned) ->
    end_calls self' = end_calls self
    /\ exists k, (k <= count)%nat
                 /\ bus_sent self' = bus_sent self ++ probes data first k.
Proof.
  induction count as [|count IH]; intros first self self' returned Hrun.
  - cbn in Hrun. injection Hrun as <- <-. split; [reflexivity|].
    exists 0%nat. split; [lia|]. cbn. rewrite app_nil_r. reflexivity.
  - cbn [bruteforce_loop] in Hrun. unfold with_listeners in Hrun at 1.
    destruct (notifier self) as [ls|]; [|discriminate Hrun].
    cbn [bind] in Hrun. cbv zeta in Hrun.
    match type of Hrun with
    | context [negb (bruteforce_running ?s)] =>
        destruct (negb (bruteforce_running s)) eqn:Hstop
    end.
    + destruct (stop first); cbn in Hrun; injection Hrun as <- <-;
        (split; [reflexivity|]); exists 1%nat; (split; [lia|]);
        rewrite probes_S; reflexivity.
    + destruct (stop first); [discriminate Hstop|].
      apply IH in Hrun. cbn [end_calls bus_sent bus_send] in Hrun.
      destruct Hrun as [Hend [k [Hk Hsent]]]. split; [exact Hend|].
      exists (S k). split; [lia|].
      rewrite Hsent, probes_S, <- app_assoc. reflexivity.
Qed.

(** With no stop request the loop goes through the whole range. *)
Lemma bruteforce_loop_complete (data : list Z) (count : nat) :
  forall (first : Z) (self : CanActions.t listener) (ls : list listener),
    notifier self = Some ls ->
    bruteforce_running self = true ->
    (forall id, first <= id < first + Z.of_nat count -> stop id = false) ->
    exists self',
      bruteforce_loop callback stop count first data self = Ok (self', false)
      /\ (exists ls', notifier self' = Some ls')
      /\ bus_sent self' = bus_sent self ++ probes data first count
      /\ end_calls self' = end_calls self.
Proof.
  induction count as [|count IH]; intros first self ls Hnot Hrunning Hstop.
  - exists self. cbn. rewrite app_nil_r. eauto.
  - cbn [bruteforce_loop]. unfold with_listeners at 1. rewrite Hnot.
    cbn [bind]. cbv zeta. rewrite (Hstop first) by lia.
    cbn [bruteforce_running bus_send]. rewrite Hrunning. cbn [negb].
    edestruct (IH (first + 1)) as [self' [Hrun [Hls [Hsent Hend]]]];
      [ | | | exists self'; split; [exact Hrun|] ].
    + reflexivity.
    + reflexivity.
    + intros id Hid. apply Hstop. lia.
    + split; [exact Hls|]. split; [|exact Hend].
      rewrite Hsent. cbn [bus_sent bus_send].
      rewrite probes_S, <- app_assoc. reflexivity.
Qed.

(** The first stop request ends the loop after the probe of its iteration,
    with the listeners cleared. *)
Lemma bruteforce_loop_stopped (data : list Z) (count : nat) :
  forall (first : Z) (self : CanActions.t listener) (ls : list listener) (k : nat),
    notifier self = Some ls ->
    bruteforce_running self = true ->
    (k < count)%nat ->
    (forall id, first <= id < first + Z.of_nat k -> stop id = false) ->
    stop (first + Z.of_nat k) = true ->
    exists self',
      bruteforce_loop callback stop count first data self = Ok (self', true)
      /\ notifier self' = Some []
      /\ bruteforce_running self' = false
      /\ bus_sent self' = bus_sent self ++ probes data first (S k)
      /\ end_calls self' = end_calls self.
Proof.
  induction count as [|count IH]; intros first self ls k Hnot Hrunning Hk Hbefore Hat;
    [lia|].
  cbn [bruteforce_loop]. unfold with_listeners at 1. rewrite Hnot.
  cbn [bind]. cbv zeta. destruct k as [|k].
  - change (Z.of_nat 0) with 0 in Hat. rewrite Z.add_0_r in Hat. rewrite Hat.
    unfold bruteforce_stop, set_running, bus_send, clear_listeners, with_listeners.
    cbn [bruteforce_running negb notifier bind arb_id bus_sent end_calls].
    eexists. split; [reflexivity|].
    cbn [bruteforce_running notifier bus_sent end_calls].
    rewrite probes_S. repeat split.
  - rewrite (Hbefore first) by lia.
    cbn [bruteforce_running bus_send]. rewrite Hrunning. cbn [negb].
    edestruct (IH (first + 1)) with (k := k)
      as [self' [Hrun [Hls [Hflag [Hsent Hend]]]]];
      [ | | | | | exists self'; split; [exact Hrun|] ].
    + reflexivity.
    + reflexivity.
    + lia.
    + intros id Hid. apply Hbefore. lia.
    + replace (first + 1 + Z.of_nat k) with (first + Z.of_nat (S k)) by lia.
      exact Hat.
    + split; [exact Hls|]. split; [exact Hflag|]. split; [|exact Hend].
      rewrite Hsent. cbn [bus_sent bus_send].
      rewrite (probes_S data first (S k)), <- app_assoc. reflexivity.
Qed.

End Bruteforce.

(** C9 (amended): when [bruteforce_arbitration_id] goes through its whole ID
    range and [callback_end] was given, the listeners are cleared and
    [callback_end] is called once, with the completion message; when the
    calling module clears the flag during the iteration of some ID, the loop
    ends after that iteration with the listeners cleared, no further frame
    is sent, and [callback_end] is not called. *)
Theorem bruteforce_termination {listener : Type} (callback : Z -> listener)
    (stop : Z -> bool) (self : CanActions.t listener) (ls : list listener)
    (data : list Z) (min_id max_id : Z) :
  CanActions.notifier self = Some ls ->
  min_id <= max_id ->
  ((forall id, min_id <= id <= max_id -> stop id = false) ->
   exists self',
     CanActions.bruteforce_arbitration_id callback stop self data
       (Some min_id) (Some max_id) true = Ok self'
     /\ CanActions.notifier self' = Some []
     /\ CanActions.end_calls self'
        = CanActions.end_calls self ++ [CanActions.RangeCompleted min_id max_id]
     /\ CanActions.bus_sent self'
        = CanActions.bus_sent self
            ++ Wire.probes data min_id (Z.to_nat (max_id + 1 - min_id)))
  /\ (forall (k : Z) (callback_end : bool),
        min_id <= k <= max_id ->
        (forall id, min_id <= id < k -> stop id = false) ->
        stop k = true ->
        exists self',
          CanActions.bruteforce_arbitration_id callback stop self data
            (Some min_id) (Some max_id) callback_end = Ok self'
          /\ CanActions.notifier self' = Some []
          /\ CanActions.bruteforce_running self' = false
          /\ CanActions.end_calls self' = CanActions.end_calls self
          /\ CanActions.bus_sent self'
             = CanActions.bus_sent self
                 ++ Wire.probes data min_id (Z.to_nat (k + 1 - min_id))).
Proof.
  intros Hnot Hrange. split.
  - intros Hstop. unfold CanActions.bruteforce_arbitration_id.
    replace (min_id >? max_id) with false by (symmetry; lia).
    destruct (bruteforce_loop_complete callback stop data
                (Z.to_nat (max_id + 1 - min_id)) min_id
                (CanActions.set_running self true) ls Hnot eq_refl)
      as [s1 [Hrun [[ls1 Hls1] [Hsent Hend]]]].
    { intros id Hid. apply Hstop. lia. }
    rewrite Hrun. cbn [bind]. cbv iota beta.
    unfold CanActions.clear_listeners, CanActions.with_listeners. rewrite Hls1.
    cbn [bind]. eexists. split; [reflexivity|].
    cbn [CanActions.call_end CanActions.notifier CanActions.end_calls
           CanActions.bus_sent].
    rewrite Hsent, Hend. repeat split.
  - intros k callback_end Hk Hbefore Hat.
    unfold CanActions.bruteforce_arbitration_id.
    replace (min_id >? max_id) with false by (symmetry; lia).
    destruct (bruteforce_loop_stopped callback stop data
                (Z.to_nat (max_id + 1 - min_id)) min_id
                (CanActions.set_running self true) ls (Z.to_nat (k - min_id))
                Hnot eq_refl)
      as [s1 [Hrun [Hls1 [Hflag [Hsent Hend]]]]].
    { lia. }
    { intros id Hid. apply Hbefore. lia. }
    { replace (min_id + Z.of_nat (Z.to_nat (k - min_id))) with k by lia. exact Hat. }
    rewrite Hrun. cbn [bind]. cbv iota beta.
    exists s1. split; [reflexivity|].
    split; [exact Hls1|]. split; [exact Hflag|]. split; [exact Hend|].
    rewrite Hsent. cbn [CanActions.set_running CanActions.bus_sent].
    do 2 f_equal. lia.
Qed.

Lemma bruteforce_termination_witness :
  (CanActions.notifier (CanActions.__init__ (listener := Z) None true) = Some []
   /\ 0x7E0 <= 0x7E8
   /\ 0x7E0 <= 0x7E2 <= 0x7E8
   /\ (forall id, 0x7E0 <= id < 0x7E2 -> (id =? 0x7E2) = false)
   /\ (0x7E2 =? 0x7E2) = true)
  /\ exists self',
       CanActions.bruteforce_arbitration_id (fun id => id) (fun id => id =? 0x7E2)
         (CanActions.__init__ None true) [0xFF] (Some 0x7E0) (Some 0x7E8) true = Ok self'
       /\ CanActions.notifier self' = Some []
       /\ CanActions.bruteforce_running self' = false
       /\ CanActions.end_calls self' = []
       /\ CanActions.bus_sent self' = [] ++ Wire.probes [0xFF] 0x7E0 3.
Proof.
  assert (Hnot : CanActions.notifier (CanActions.__init__ (listener := Z) None true) = Some [])
    by reflexivity.
  assert (Hrange : 0x7E0 <= 0x7E8) by lia.
  assert (Hk : 0x7E0 <= 0x7E2 <= 0x7E8) by lia.
  assert (Hbefore : forall id, 0x7E0 <= id < 0x7E2 -> (id =? 0x7E2) = false)
    by (intros id Hid; apply Z.eqb_neq; lia).
  assert (Hat : (0x7E2 =? 0x7E2) = true) by reflexivity.
  split; [repeat split; assumption || lia|].
  exact (proj2 (bruteforce_termination (fun id => id) (fun id => id =? 0x7E2)
                  (CanActions.__init__ None true) [] [0xFF] 0x7E0 0x7E8 Hnot Hrange)
               0x7E2 true Hk Hbefore Hat).
Defined.

(** C9, as stated, fails on a stop: with [callback_end] given and the flag
    cleared during the first iteration, the call ends with the listeners
    cleared and one frame sent, and [callback_end] has not been called. *)
Lemma bruteforce_stop_skips_callback_end :
  exists self',
    CanActions.bruteforce_arbitration_id (fun id => id) (fun _ => true)
      (CanActions.__init__ None true) [0xFF] (Some 0x7E0) (Some 0x7E8) true = Ok self'
    /\ CanActions.notifier self' = Some []
    /\ map can.arbitration_id (CanActions.bus_sent self') = [0x7E0]
    /\ CanActions.end_calls self' = [].
Proof. eexists. split; [reflexivity|]. repeat split. Qed.

(** C7 (amended): a frame sent by [IsoTp.send_message], by
    [CanActions.send] when [is_extended] is left unspecified or is [True],
    or by [bruteforce_arbitration_id] carries the extended flag whenever its
    arbitration ID exceeds 0x7FF; [CanActions.send] with an explicit
    [is_extended] uses the caller's value. *)
Theorem extended_flag_on_emitted_frames :
  (forall (data : list Z) (arbitration_id : Z) (force_extended : bool),
      Wire.extended_ok (IsoTp.send_message data arbitration_id force_extended))
  /\ (forall (listener : Type) (self self' : CanActions.t listener) (data : list Z)
             (arb_id : option Z) (is_extended : option bool) (is_error is_remote : bool),
         is_extended <> Some false ->
         Forall Wire.extended_ok (CanActions.bus_sent self) ->
         CanActions.send self data arb_id is_extended is_error is_remote = Ok self' ->
         Forall Wire.extended_ok (CanActions.bus_sent self'))
  /\ (forall (listener : Type) (self self' : CanActions.t listener) (data : list Z)
             (arb_id : option Z) (is_extended : bool) (is_error is_remote : bool),
         CanActions.send self data arb_id (Some is_extended) is_error is_remote
         = Ok self' ->
         exists msg,
           CanActions.bus_sent self' = CanActions.bus_sent self ++ [msg]
           /\ can.is_extended_id msg = is_extended)
  /\ (forall (listener : Type) (callback : Z -> listener) (stop : Z -> bool)
             (self self' : CanActions.t listener) (data : list Z)
             (min_id max_id : option Z) (callback_end : bool),
         Forall Wire.extended_ok (CanActions.bus_sent self) ->
         CanActions.bruteforce_arbitration_id callback stop self data
           min_id max_id callback_end = Ok self' ->
         Forall Wire.extended_ok (CanActions.bus_sent self')).
Proof.
  split; [|split; [|split]].
  - intros data arbitration_id force_extended. unfold Wire.extended_ok. cbn.
    intros Hgt.
    destruct (Z.gtb_spec arbitration_id constants.ARBITRATION_ID_MAX);
      [apply orb_true_r | lia].
  - intros listener self self' data arb_id is_extended is_error is_remote
           Hext Hsent Hrun.
    unfold CanActions.send in Hrun.
    destruct (len data >? 8); [discriminate Hrun|].
    assert (Hone : forall a,
               Wire.extended_ok
                 (can.mkMessage a data
                    match is_extended with
                    | Some e => e
                    | None => a >? constants.ARBITRATION_ID_MAX
                    end is_error is_remote)).
    { intros a. unfold Wire.extended_ok. cbn. intros Hgt.
      destruct is_extended as [[|]|]; [reflexivity | congruence |].
      destruct (Z.gtb_spec a constants.ARBITRATION_ID_MAX); [reflexivity | lia]. }
    destruct arb_id as [a|]; [|unfold CanActions.self_arb_id in Hrun;
                                destruct (CanActions.arb_id self) as [a|];
                                [|discriminate Hrun]];
      cbn in Hrun; injection Hrun as <-; cbn [CanActions.bus_sent];
      (apply Forall_app; split; [exact Hsent | constructor; [apply Hone | constructor]]).
  - intros listener self self' data arb_id is_extended is_error is_remote Hrun.
    unfold CanActions.send in Hrun.
    destruct (len data >? 8); [discriminate Hrun|].
    destruct arb_id as [a|]; [|unfold CanActions.self_arb_id in Hrun;
                                destruct (CanActions.arb_id self) as [a|];
                                [|discriminate Hrun]];
      cbn in Hrun; injection Hrun as <-; cbn [CanActions.bus_sent];
      eexists; split; reflexivity.
  - intros listener callback stop self self' data min_id max_id callback_end
           Hsent Hrun.
    unfold CanActions.bruteforce_arbitration_id in Hrun.
    match type of Hrun with
    | context [if ?c then _ else _] => destruct c
    end.
    + destruct callback_end; injection Hrun as <-; exact Hsent.
    + match type of Hrun with
      | context [CanActions.bruteforce_loop ?cb ?st ?n ?first ?d ?s] =>
          destruct (CanActions.bruteforce_loop cb st n first d s)
            as [[s1 returned]| |] eqn:Hloop; try discriminate Hrun;
          apply bruteforce_loop_sent in Hloop;
          destruct Hloop as [_ [k [_ Hs1]]];
          assert (Hs1ok : Forall Wire.extended_ok (CanActions.bus_sent s1))
            by (rewrite Hs1; apply Forall_app; split;
                [exact Hsent | apply probes_extended_ok])
      end.
      cbn [bind] in Hrun. cbv iota beta in Hrun.
      destruct returned; [injection Hrun as <-; exact Hs1ok|].
      destruct callback_end; [|injection Hrun as <-; exact Hs1ok].
      unfold CanActions.clear_listeners, CanActions.with_listeners in Hrun.
      destruct (CanActions.notifier s1); [|discriminate Hrun].
      cbn in Hrun. injection Hrun as <-. exact Hs1ok.
Qed.

Lemma extended_flag_on_emitted_frames_witness :
  (@None bool <> Some false
   /\ Forall Wire.extended_ok (CanActions.bus_sent (CanActions.__init__ (listener := Z) None true))
   /\ CanActions.send (CanActions.__init__ (listener := Z) None true) [0x01; 0x02]
        (Some 0x800) None false false
      = Ok (CanActions.mkCanActions None false (Some [])
              [can.mkMessage 0x800 [0x01; 0x02] true false false] []))
  /\ Forall Wire.extended_ok [can.mkMessage 0x800 [0x01; 0x02] true false false].
Proof.
  assert (Hext : @None bool <> Some false) by discriminate.
  assert (Hsent : Forall Wire.extended_ok
                    (CanActions.bus_sent (CanActions.__init__ (listener := Z) None true)))
    by constructor.
  assert (Hrun : CanActions.send (CanActions.__init__ (listener := Z) None true) [0x01; 0x02]
                   (Some 0x800) None false false
                 = Ok (CanActions.mkCanActions None false (Some [])
                         [can.mkMessage 0x800 [0x01; 0x02] true false false] []))
    by reflexivity.
  split; [repeat split; assumption|].
  exact (proj1 (proj2 extended_flag_on_emitted_frames) Z _ _ _ _ _ _ _
               Hext Hsent Hrun).
Defined.

(** C7, as stated, fails for [CanActions.send] with [is_extended=False]: the
    frame for arbitration ID 0x800 leaves without the extended flag. *)
Lemma send_explicit_standard_flag :
  exists self',
    CanActions.send (CanActions.__init__ (listener := Z) None true) [0x01; 0x02]
      (Some 0x800) (Some false) false false = Ok self'
    /\ CanActions.bus_sent self'
       = [can.mkMessage 0x800 [0x01; 0x02] false false false]
    /\ ~ Forall Wire.extended_ok (CanActions.bus_sent self').
Proof.
  eexists. split; [reflexivity|]. split; [reflexivity|].
  intros Hall. inversion Hall as [|m l Hm _]. subst.
  unfold Wire.extended_ok in Hm. cbn in Hm.
  assert (H : false = true) by (apply Hm; reflexivity).
  discriminate H.
Qed.

(** * Further properties of the ISO-TP engine *)

Section FrameShape.
Import IsoTp Wire.

Lemma pad_tail_length (padding : option Z) (used : nat) :
  (used <= 7)%nat ->
  length (pad_tail padding used)
  = match padding with Some _ => (7 - used)%nat | None => 0%nat end.
Proof. intros _. destruct padding; [apply length_replicate | reflexivity]. Qed.

Lemma cf_frames_lengths (padding : option Z) (sn : Z) (payload : list Z)
    (cfs : list (list Z)) :
  cf_frames padding sn payload cfs ->
  Forall (fun f => 2 <= len f <= 8 /\ (padding <> None -> len f = 8)) cfs.
Proof.
  induction 1 as [sn | sn payload frames Hne Hrest IH]; constructor; [|exact IH].
  assert (Hpos : (0 < length payload)%nat)
    by (destruct payload; [congruence | simpl; lia]).
  unfold len. cbn [length]. rewrite length_app, pad_tail_length, length_take
    by (rewrite length_take; lia).
  destruct padding; split; try congruence; intros; lia.
Qed.

End FrameShape.

(** X1: every frame of [get_frames_from_message] fits a CAN frame: it has
    1 to 8 bytes, and exactly 8 bytes when padding is enabled. *)
Theorem frames_fit_can (message : list Z) (padding : option Z) :
  len message <= 4095 ->
  exists frames,
    IsoTp.get_frames_from_message message padding = Ok frames
    /\ Forall (fun f => 1 <= len f <= 8) frames
    /\ (padding <> None -> Forall (fun f => len f = 8) frames).
Proof.
  intros Hlen. destruct (get_frames_spec message padding Hlen) as [frames [Hrun Hfmt]].
  exists frames. split; [exact Hrun|].
  pose proof (len_nonneg message) as Hnn.
  destruct Hfmt as [Hsf | cfs Hmf Hcfs].
  - assert (Hl : len (len message :: message ++ Wire.pad_tail padding (length message))
                 = 1 + len message
                   + match padding with Some _ => 7 - len message | None => 0 end).
    { rewrite len_cons, len_app. unfold len in *.
      rewrite pad_tail_length by lia. destruct padding; lia. }
    split.
    + constructor; [|constructor]. rewrite Hl. destruct padding; lia.
    + intros Hpad. constructor; [|constructor]. rewrite Hl.
      destruct padding; [lia | congruence].
  - assert (Hff : len (Z.lor 16 (Z.shiftr (len message) 8)
                         :: Z.land (len message) 255 :: take 6 message) = 8).
    { rewrite !len_cons. unfold len in *. rewrite length_take. lia. }
    pose proof (cf_frames_lengths _ _ _ _ Hcfs) as Hall.
    split.
    + constructor; [rewrite Hff; lia|].
      eapply Forall_impl; [exact Hall|]. cbn. intros f [Hf _]. lia.
    + intros Hpad. constructor; [exact Hff|].
      eapply Forall_impl; [exact Hall|]. cbn. intros f [_ Hf]. auto.
Qed.

Lemma frames_fit_can_witness :
  (len [1; 2; 3; 4; 5; 6; 7; 8; 9] <= 4095 /\ Some 0xCC <> None)
  /\ exists frames,
       IsoTp.get_frames_from_message [1; 2; 3; 4; 5; 6; 7; 8; 9] (Some 0xCC) = Ok frames
       /\ Forall (fun f => len f = 8) frames.
Proof.
  assert (Hlen : len [1; 2; 3; 4; 5; 6; 7; 8; 9] <= 4095) by (unfold len; simpl; lia).
  assert (Hpad : Some 0xCC <> @None Z) by discriminate.
  split; [split; assumption|].
  destruct (frames_fit_can [1; 2; 3; 4; 5; 6; 7; 8; 9] (Some 0xCC) Hlen)
    as [frames [Hrun [_ Hall]]].
  exists frames. split; [exact Hrun | exact (Hall Hpad)].
Defined.

(** X2: a message of at most 7 bytes gives one frame; a longer one gives a
    first frame and [len / 7] consecutive frames, so 8 bytes give FF + one
    CF and 4095 bytes give FF + 585 CFs. *)
Theorem frame_count (message : list Z) (padding : option Z) :
  len message <= 4095 ->
  exists frames,
    IsoTp.get_frames_from_message message padding = Ok frames
    /\ len frames = if len message <=? 7 then 1 else 1 + len message / 7.
Proof.
  intros Hlen. destruct (get_frames_spec message padding Hlen) as [frames [Hrun Hfmt]].
  exists frames. split; [exact Hrun|].
  destruct Hfmt as [Hsf | cfs Hmf Hcfs].
  - rewrite (proj2 (Z.leb_le _ _) Hsf). reflexivity.
  - rewrite (proj2 (Z.leb_gt _ _) Hmf). rewrite len_cons. f_equal.
    unfold len at 1. rewrite (cf_frames_length _ _ _ _ Hcfs).
    unfold len. rewrite length_drop. f_equal. unfold len in Hmf. lia.
Qed.

Lemma frame_count_witness :
  len [1; 2; 3; 4; 5; 6; 7; 8] <= 4095
  /\ exists frames,
       IsoTp.get_frames_from_message [1; 2; 3; 4; 5; 6; 7; 8] None = Ok frames
       /\ len frames = 2.
Proof.
  assert (Hlen : len [1; 2; 3; 4; 5; 6; 7; 8] <= 4095) by (unfold len; simpl; lia).
  split; [exact Hlen|].
  exact (frame_count [1; 2; 3; 4; 5; 6; 7; 8] None Hlen).
Defined.

Section Decoders.
Import IsoTp Wire.

Lemma fc_pci (fs : Z) :
  0 <= fs <= 15 ->
  Z.land (Z.shiftr (Z.lor 0x30 fs) 4) 0xF = 3 /\ Z.land (Z.lor 0x30 fs) 0xF = fs.
Proof.
  intros Hfs.
  pose (check := fun s => (Z.land (Z.shiftr (Z.lor 0x30 s) 4) 0xF =? 3)
                          && (Z.land (Z.lor 0x30 s) 0xF =? s)).
  assert (H : check fs = true).
  { apply (Z_below_forallb check 16); [vm_compute; reflexivity | lia]. }
  unfold check in H. apply andb_true_iff in H. lia.
Qed.

Lemma len_ge_cons3 {A : Type} (a b c : A) (l : list A) (n : Z) :
  n <= 3 -> (len (a :: b :: c :: l) >=? n) = true.
Proof.
  intros Hn. rewrite !len_cons. pose proof (len_nonneg l).
  apply Z.geb_le. lia.
Qed.

Lemma decode_sf_fields (frame : list Z) :
  decode_sf frame
  = Ok match frame with
       | b0 :: data => (Some (Z.land b0 0xF), Some data)
       | [] => (None, None)
       end.
Proof.
  destruct frame as [|b0 data]; [reflexivity|].
  unfold decode_sf.
  replace (len (b0 :: data) >=? SF_PCI_LENGTH) with true
    by (rewrite len_cons; pose proof (len_nonneg data);
        unfold SF_PCI_LENGTH; symmetry; apply Z.geb_le; lia).
  rewrite getitem_head. reflexivity.
Qed.

Lemma decode_ff_fields (frame : list Z) :
  decode_ff frame
  = Ok match frame with
       | b0 :: b1 :: data => (Some (Z.lor (Z.shiftl (Z.land b0 0xF) 8) b1), Some data)
       | _ => (None, None)
       end.
Proof.
  destruct frame as [|b0 [|b1 data]]; [reflexivity | reflexivity |].
  unfold decode_ff.
  replace (len (b0 :: b1 :: data) >=? FF_PCI_LENGTH) with true
    by (rewrite !len_cons; pose proof (len_nonneg data);
        unfold FF_PCI_LENGTH; symmetry; apply Z.geb_le; lia).
  rewrite getitem_head.
  rewrite (getitem_lookup _ 1 b1) by (lia || reflexivity). reflexivity.
Qed.

Lemma decode_cf_fields (frame : list Z) :
  decode_cf frame
  = Ok match frame with
       | b0 :: data => (Some (Z.land b0 0xF), Some data)
       | [] => (None, None)
       end.
Proof.
  destruct frame as [|b0 data]; [reflexivity|].
  unfold decode_cf.
  replace (len (b0 :: data) >=? CF_PCI_LENGTH) with true
    by (rewrite len_cons; pose proof (len_nonneg data);
        unfold CF_PCI_LENGTH; symmetry; apply Z.geb_le; lia).
  rewrite getitem_head. reflexivity.
Qed.

Lemma decode_fc_fields (frame : list Z) :
  decode_fc frame
  = Ok match frame with
       | b0 :: b1 :: b2 :: _ => (Some (Z.land b0 0xF), Some b1, Some b2)
       | _ => (None, None, None)
       end.
Proof.
  destruct frame as [|b0 [|b1 [|b2 rest]]]; [reflexivity | reflexivity | reflexivity |].
  unfold decode_fc. rewrite len_ge_cons3 by (unfold FC_PCI_LENGTH; lia).
  rewrite getitem_head.
  rewrite (getitem_lookup _ 1 b1) by (lia || reflexivity).
  rewrite (getitem_lookup _ 2 b2) by (lia || reflexivity). reflexivity.
Qed.

End Decoders.

(** X3: a flow control frame built by [encode_fc] with a flow status of
    0 to 15 has 8 bytes, has PCI type 3 and decodes to the same flow
    status, block size and separation time. *)
Theorem encode_decode_fc (flow_status block_size st_min : Z) :
  0 <= flow_status <= 15 ->
  len (IsoTp.encode_fc flow_status block_size st_min) = 8
  /\ Wire.frame_type (IsoTp.encode_fc flow_status block_size st_min)
     = Some IsoTp.FC_FRAME_ID
  /\ IsoTp.decode_fc (IsoTp.encode_fc flow_status block_size st_min)
     = Ok (Some flow_status, Some block_size, Some st_min).
Proof.
  intros Hfs. destruct (fc_pci flow_status Hfs) as [Htype Hland].
  unfold IsoTp.encode_fc. change (Z.shiftl IsoTp.FC_FRAME_ID 4) with 0x30.
  split; [reflexivity|]. split.
  - unfold Wire.frame_type. rewrite getitem_head, Htype. reflexivity.
  - unfold IsoTp.decode_fc. rewrite len_ge_cons3 by (unfold IsoTp.FC_PCI_LENGTH; lia).
    rewrite getitem_head. cbn [bind].
    rewrite (getitem_lookup _ 1 block_size) by (lia || reflexivity). cbn [bind].
    rewrite (getitem_lookup _ 2 st_min) by (lia || reflexivity). cbn [bind].
    rewrite Hland. reflexivity.
Qed.

Lemma encode_decode_fc_witness :
  0 <= 2 <= 15
  /\ IsoTp.decode_fc (IsoTp.encode_fc 2 0 0) = Ok (Some 2, Some 0, Some 0).
Proof.
  assert (Hfs : 0 <= 2 <= 15) by lia.
  split; [exact Hfs|].
  exact (proj2 (proj2 (encode_decode_fc 2 0 0 Hfs))).
Defined.

(** X4: the four frame decoders never raise.  On a frame shorter than the
    PCI (1, 2, 1 and 3 bytes) they return [None]s, and only then; on any
    other frame they return the decoded fields: [decode_sf] and
    [decode_cf] the low nibble of byte 0 and the bytes after it,
    [decode_ff] the 12-bit length made of that nibble and byte 1 and the
    bytes after them, [decode_fc] the low nibble of byte 0, byte 1 and
    byte 2. *)
Theorem decoders_never_raise (frame : list Z) :
  (IsoTp.decode_sf frame
   = Ok match frame with
        | b0 :: data => (Some (Z.land b0 0xF), Some data)
        | [] => (None, None)
        end
   /\ (IsoTp.decode_sf frame = Ok (None, None) <-> len frame < IsoTp.SF_PCI_LENGTH))
  /\ (IsoTp.decode_ff frame
      = Ok match frame with
           | b0 :: b1 :: data =>
               (Some (Z.lor (Z.shiftl (Z.land b0 0xF) 8) b1), Some data)
           | _ => (None, None)
           end
      /\ (IsoTp.decode_ff frame = Ok (None, None) <-> len frame < IsoTp.FF_PCI_LENGTH))
  /\ (IsoTp.decode_cf frame
      = Ok match frame with
           | b0 :: data => (Some (Z.land b0 0xF), Some data)
           | [] => (None, None)
           end
      /\ (IsoTp.decode_cf frame = Ok (None, None) <-> len frame < IsoTp.CF_PCI_LENGTH))
  /\ (IsoTp.decode_fc frame
      = Ok match frame with
           | b0 :: b1 :: b2 :: _ => (Some (Z.land b0 0xF), Some b1, Some b2)
           | _ => (None, None, None)
           end
      /\ (IsoTp.decode_fc frame = Ok (None, None, None)
          <-> len frame < IsoTp.FC_PCI_LENGTH)).
Proof.
  rewrite decode_sf_fields, decode_ff_fields, decode_cf_fields, decode_fc_fields.
  unfold IsoTp.SF_PCI_LENGTH, IsoTp.FF_PCI_LENGTH, IsoTp.CF_PCI_LENGTH,
    IsoTp.FC_PCI_LENGTH.
  destruct frame as [|b0 [|b1 [|b2 rest]]];
    rewrite ?len_cons; try pose proof (len_nonneg rest);
    change (len (@nil Z)) with 0;
    repeat split; intros; try reflexivity; try discriminate; try lia.
Qed.

Section TransmitInvariant.
Import IsoTp Wire.

Lemma tx_consistent_prefix (frames : list (list Z)) (a : Z) (b : tx_block) :
  tx_consistent frames a b ->
  exists k, sent_frames (blk_out b)
            = map (fun f => send_message f a false) (take k frames).
Proof.
  intros [done [todo [Hframes [_ [_ Hsent]]]]]. exists (length done).
  rewrite Hsent, Hframes, take_app_length. reflexivity.
Qed.

Lemma send_block_consistent (frames : list (list Z)) (a st_min : Z) (count : nat)
    (b : tx_block) :
  tx_consistent frames a b ->
  Z.of_nat count <= blk_left b ->
  exists b',
    send_block frames a st_min count b = Ok b'
    /\ tx_consistent frames a b'.
Proof.
  intros [done [todo [Hframes [Hidx [Hleft Hsent]]]]] Hcount.
  destruct b as [idx left out].
  cbn [blk_index blk_left blk_out] in Hidx, Hleft, Hsent, Hcount. subst idx left.
  destruct (send_block_spec a st_min count done todo (len todo) out)
    as [out' [Hrun Hsent']]; [unfold len in Hcount; lia|].
  rewrite Hframes, Hrun. eexists. split; [reflexivity|].
  exists (done ++ take count todo), (drop count todo).
  cbn [blk_index blk_left blk_out].
  assert (Hlen : length (take count todo) = count)
    by (rewrite length_take; unfold len in Hcount; lia).
  repeat split.
  - rewrite <- app_assoc, take_drop. reflexivity.
  - rewrite len_app. unfold len at 3. rewrite Hlen. reflexivity.
  - unfold len. rewrite length_drop. unfold len in Hcount. lia.
  - rewrite Hsent', Hsent, map_app. reflexivity.
Qed.

Lemma transmit_loop_consistent (frames : list (list Z)) (a fc : Z)
    (events : list (option can.Message)) :
  forall b,
    tx_consistent frames a b ->
    exists out rest k,
      transmit_loop frames a fc b events = (Ok tt, out, rest)
      /\ sent_frames out = map (fun f => send_message f a false) (take k frames).
Proof.
  induction events as [|ev events IH]; intros b Hb.
  - destruct (tx_consistent_prefix _ _ _ Hb) as [k Hk].
    exists (blk_out b), [], k. split; [reflexivity | exact Hk].
  - destruct (tx_consistent_prefix _ _ _ Hb) as [k Hk].
    assert (Hstop : forall rest : list (option can.Message),
               exists out rest' k,
                 (@Ok unit tt, blk_out b, rest) = (Ok tt, out, rest')
                 /\ sent_frames out
                    = map (fun f => send_message f a false) (take k frames))
      by (intros rest; exists (blk_out b), rest, k; split; [reflexivity | exact Hk]).
    destruct ev as [msg|]; cbn [transmit_loop]; [|apply Hstop].
    destruct (negb (can.arbitration_id msg =? fc)); [apply IH; exact Hb|].
    assert (Hdec : exists fs bs st, decode_fc (can.data msg) = Ok (fs, bs, st))
      by (rewrite decode_fc_fields;
          destruct (can.data msg) as [|? [|? [|? ?]]]; eauto).
    destruct Hdec as [fs [bs [st Hdec]]].
    rewrite Hdec.
    destruct (opt_eqb fs FC_FS_WAIT); [apply IH; exact Hb|].
    destruct (opt_eqb fs FC_FS_CTS) eqn:Hcts;
      [|destruct (opt_eqb fs FC_FS_OVFLW); apply Hstop].
    assert (Hshape : (exists bs' st', bs = Some bs' /\ st = Some st')).
    { unfold decode_fc in Hdec. destruct (len (can.data msg) >=? FC_PCI_LENGTH).
      - destruct (getitem (can.data msg) 0); cbn [bind] in Hdec; try discriminate.
        destruct (getitem (can.data msg) 1); cbn [bind] in Hdec; try discriminate.
        destruct (getitem (can.data msg) 2); cbn [bind] in Hdec; try discriminate.
        injection Hdec as _ <- <-. eauto.
      - injection Hdec as <- _ _. discriminate Hcts. }
    destruct Hshape as [bs' [st' [-> ->]]].
    set (in_block := if (blk_left b <? bs') || (bs' =? 0) then blk_left b else bs').
    assert (Hin : in_block <= blk_left b \/ in_block <= 0).
    { subst in_block. destruct (Z.ltb_spec (blk_left b) bs'); cbn [orb]; [lia|].
      destruct (Z.eqb_spec bs' 0); lia. }
    assert (Hleft : 0 <= blk_left b).
    { destruct Hb as [done [todo [_ [_ [-> _]]]]]. apply len_nonneg. }
    destruct (send_block_consistent frames a (if st' >? 127 then 1 else st')
                (Z.to_nat in_block) b Hb) as [b' [Hrun Hb']]; [lia|].
    rewrite Hrun.
    destruct (blk_left b' >? 0); [apply IH; exact Hb'|].
    destruct (tx_consistent_prefix _ _ _ Hb') as [k' Hk'].
    exists (blk_out b'), events, k'. split; [reflexivity | exact Hk'].
Qed.

End TransmitInvariant.

(** X5: whatever arrives on the bus, [transmit] does not raise, and the
    frames it has sent when it returns are an initial part of the frame
    list, in order and on the given arbitration ID. *)
Theorem transmit_sends_prefix (frames : list (list Z)) (a fc : Z)
    (events : list (option can.Message)) :
  exists out rest k,
    IsoTp.transmit frames a fc events = (Ok tt, out, rest)
    /\ Wire.sent_frames out
       = map (fun f => IsoTp.send_message f a false) (take k frames).
Proof.
  unfold IsoTp.transmit. destruct frames as [|ff [|cf cfs]].
  - exists [], events, 0%nat. split; reflexivity.
  - exists [IsoTp.Send (IsoTp.send_message ff a false)], events, 1%nat.
    split; reflexivity.
  - rewrite !len_cons. pose proof (len_nonneg cfs) as Hnn.
    replace (1 + (1 + len cfs) =? 0) with false by (symmetry; lia).
    replace (1 + (1 + len cfs) =? 1) with false by (symmetry; lia).
    rewrite getitem_head.
    apply transmit_loop_consistent.
    exists [ff], (cf :: cfs). repeat split.
    cbn [IsoTp.blk_left]. rewrite len_cons. lia.
Qed.

Section TransmitPauses.
Import IsoTp Wire.

Lemma send_block_sleeps (frames : list (list Z)) (a st_min : Z) (count : nat) :
  st_min <= 0x7F ->
  forall b b',
    Forall short_sleep (blk_out b) ->
    send_block frames a st_min count b = Ok b' ->
    Forall short_sleep (blk_out b').
Proof.
  intros Hst. induction count as [|count IH]; intros b b' Hb Hrun.
  - cbn in Hrun. injection Hrun as <-. exact Hb.
  - cbn [send_block] in Hrun.
    destruct (getitem frames (blk_index b)) as [frame| |]; try discriminate Hrun.
    cbn [bind] in Hrun. apply IH in Hrun; [exact Hrun|].
    cbn [blk_out]. destruct (Z.of_nat count >? 0);
      repeat (apply Forall_app; split); try exact Hb;
      repeat constructor; exact Hst.
Qed.

Lemma transmit_loop_sleeps (frames : list (list Z)) (a fc : Z)
    (events : list (option can.Message)) :
  forall b r out rest,
    Forall short_sleep (blk_out b) ->
    transmit_loop frames a fc b events = (r, out, rest) ->
    Forall short_sleep out.
Proof.
  induction events as [|ev events IH]; intros b r out rest Hb Hrun.
  - cbn in Hrun. injection Hrun as _ <- _. exact Hb.
  - destruct ev as [msg|]; cbn [transmit_loop] in Hrun;
      [|injection Hrun as _ <- _; exact Hb].
    destruct (negb (can.arbitration_id msg =? fc)); [exact (IH _ _ _ _ Hb Hrun)|].
    destruct (decode_fc (can.data msg)) as [[[fs bs] st]| |];
      try (injection Hrun as _ <- _; exact Hb).
    destruct (opt_eqb fs FC_FS_WAIT); [exact (IH _ _ _ _ Hb Hrun)|].
    destruct (opt_eqb fs FC_FS_CTS);
      [|destruct (opt_eqb fs FC_FS_OVFLW); injection Hrun as _ <- _; exact Hb].
    destruct bs as [bs|], st as [st|]; try (injection Hrun as _ <- _; exact Hb).
    match type of Hrun with
    | context [send_block ?f ?x ?s ?n ?blk] =>
        destruct (send_block f x s n blk) as [b'| |] eqn:Hblock;
          try (injection Hrun as _ <- _; exact Hb);
        assert (Hb' : Forall short_sleep (blk_out b'))
          by (eapply (send_block_sleeps f x s n); [|exact Hb|exact Hblock];
              destruct (Z.gtb_spec st 127); lia)
    end.
    destruct (blk_left b' >? 0); [exact (IH _ _ _ _ Hb' Hrun)|].
    injection Hrun as _ <- _. exact Hb'.
Qed.

Lemma take_len {A : Type} (l : list A) : take (Z.to_nat (len l)) l = l.
Proof. unfold len. rewrite Nat2Z.id. apply firstn_all. Qed.

(** One clear-to-send: the block it opens is sent, and the loop goes on
    only if frames are left. *)
Lemma transmit_loop_cts (done todo : list (list Z)) (a fc : Z) (msg : can.Message)
    (bs st : Z) (out : list action) (events : list (option can.Message)) :
  can.arbitration_id msg = fc ->
  decode_fc (can.data msg) = Ok (Some FC_FS_CTS, Some bs, Some st) ->
  exists out',
    sent_frames out'
    = sent_frames out
        ++ map (fun f => send_message f a false)
               (take (Z.to_nat (if (len todo <? bs) || (bs =? 0) then len todo else bs))
                     todo)
    /\ transmit_loop (done ++ todo) a fc (mkBlock (len done) (len todo) out)
                     (Some msg :: events)
       = if len todo
            - Z.of_nat (Z.to_nat (if (len todo <? bs) || (bs =? 0) then len todo else bs))
            >? 0
         then transmit_loop (done ++ todo) a fc
                (mkBlock (len done
                          + Z.of_nat (Z.to_nat (if (len todo <? bs) || (bs =? 0)
                                                then len todo else bs)))
                         (len todo
                          - Z.of_nat (Z.to_nat (if (len todo <? bs) || (bs =? 0)
                                                then len todo else bs)))
                         out') events
         else (Ok tt, out', events).
Proof.
  intros Hid Hdec. cbn [transmit_loop]. rewrite Hid, Z.eqb_refl. cbn [negb].
  rewrite Hdec. change (opt_eqb (Some FC_FS_CTS) FC_FS_WAIT) with false.
  change (opt_eqb (Some FC_FS_CTS) FC_FS_CTS) with true. cbv iota.
  cbn [blk_left].
  set (n := Z.to_nat (if (len todo <? bs) || (bs =? 0) then len todo else bs)).
  assert (Hn : (n <= length todo)%nat).
  { subst n. pose proof (len_nonneg todo).
    destruct (Z.ltb_spec (len todo) bs); cbn [orb]; [unfold len; lia|].
    destruct (Z.eqb_spec bs 0); unfold len in *; lia. }
  destruct (send_block_spec a (if st >? 127 then 1 else st) n done todo (len todo) out Hn)
    as [out' [Hrun Hsent]].
  exists out'. split; [exact Hsent|]. rewrite Hrun. reflexivity.
Qed.

(** A block only pauses for the separation time it was given. *)
Lemma send_block_pauses (P : action -> Prop) (frames : list (list Z)) (a st_min : Z)
    (count : nat) :
  P (Sleep st_min) ->
  (forall msg, P (Send msg)) ->
  forall b b',
    Forall P (blk_out b) ->
    send_block frames a st_min count b = Ok b' ->
    Forall P (blk_out b').
Proof.
  intros Hsleep Hsend. induction count as [|count IH]; intros b b' Hb Hrun.
  - cbn in Hrun. injection Hrun as <-. exact Hb.
  - cbn [send_block] in Hrun.
    destruct (getitem frames (blk_index b)) as [frame| |]; try discriminate Hrun.
    cbn [bind] in Hrun. apply IH in Hrun; [exact Hrun|].
    cbn [blk_out]. destruct (Z.of_nat count >? 0);
      repeat (apply Forall_app; split); try exact Hb;
      repeat constructor; auto.
Qed.

(** Every pause of the loop comes from a clear-to-send it has received. *)
Lemma transmit_loop_pauses (frames : list (list Z)) (a fc : Z)
    (all events : list (option can.Message)) :
  (forall ev, In ev events -> In ev all) ->
  forall b r out rest,
    Forall (pause_from fc all) (blk_out b) ->
    transmit_loop frames a fc b events = (r, out, rest) ->
    Forall (pause_from fc all) out.
Proof.
  induction events as [|ev events IH]; intros Hsub b r out rest Hb Hrun.
  - cbn in Hrun. injection Hrun as _ <- _. exact Hb.
  - assert (Hsub' : forall e, In e events -> In e all)
      by (intros e He; apply Hsub; right; exact He).
    specialize (IH Hsub').
    destruct ev as [msg|]; cbn [transmit_loop] in Hrun;
      [|injection Hrun as _ <- _; exact Hb].
    destruct (Z.eqb_spec (can.arbitration_id msg) fc) as [Hid | Hid];
      cbn [negb] in Hrun; [|exact (IH _ _ _ _ Hb Hrun)].
    destruct (decode_fc (can.data msg)) as [[[fs bs] st]| |] eqn:Hdec;
      try (injection Hrun as _ <- _; exact Hb).
    destruct (opt_eqb fs FC_FS_WAIT); [exact (IH _ _ _ _ Hb Hrun)|].
    destruct (opt_eqb fs FC_FS_CTS) eqn:Hcts;
      [|destruct (opt_eqb fs FC_FS_OVFLW); injection Hrun as _ <- _; exact Hb].
    destruct bs as [bs|], st as [st|]; try (injection Hrun as _ <- _; exact Hb).
    assert (Hfs : fs = Some FC_FS_CTS).
    { destruct fs as [fs|]; [|discriminate Hcts]. cbn in Hcts.
      apply Z.eqb_eq in Hcts. congruence. }
    subst fs.
    match type of Hrun with
    | context [send_block ?f ?x ?s ?n ?blk] =>
        destruct (send_block f x s n blk) as [b'| |] eqn:Hblock;
          try (injection Hrun as _ <- _; exact Hb);
        assert (Hb' : Forall (pause_from fc all) (blk_out b'))
    end.
    { eapply send_block_pauses; [| |exact Hb|exact Hblock].
      - cbn [pause_from]. exists msg, bs, st.
        split; [apply Hsub; left; reflexivity|]. split; [exact Hid|].
        split; [exact Hdec|].
        destruct (Z.gtb_spec st 127); [right | left]; lia.
      - intros m. exact I. }
    destruct (blk_left b' >? 0); [exact (IH _ _ _ _ Hb' Hrun)|].
    injection Hrun as _ <- _. exact Hb'.
Qed.

(** A block is sent frame by frame, with the pause between each two
    frames and none after the last. *)
Lemma send_block_paced (a st_min : Z) (rest : list (list Z)) :
  forall (pre : list (list Z)) (left : Z) (out : list action),
    send_block (pre ++ rest) a st_min (length rest) (mkBlock (len pre) left out)
    = Ok (mkBlock (len pre + len rest) (left - len rest)
            (out ++ paced st_min (map (fun f => send_message f a false) rest))).
Proof.
  induction rest as [|f rest IH]; intros pre left out.
  - cbn [length send_block map paced]. change (len (@nil (list Z))) with 0.
    rewrite app_nil_r. do 2 f_equal; lia.
  - cbn [length send_block blk_index blk_left blk_out].
    rewrite (getitem_lookup (pre ++ f :: rest) (len pre) f);
      [ | apply len_nonneg
        | unfold len; rewrite Nat2Z.id; apply list_lookup_middle; reflexivity ].
    cbn [bind].
    replace (pre ++ f :: rest) with ((pre ++ [f]) ++ rest)
      by (rewrite <- app_assoc; reflexivity).
    replace (len pre + 1) with (len (pre ++ [f]))
      by (rewrite len_app; reflexivity).
    rewrite IH. rewrite len_app, !len_cons. change (len (@nil (list Z))) with 0.
    f_equal. f_equal; [lia | lia |].
    destruct rest as [|g rest].
    + cbn [length map paced]. change (Z.of_nat 0 >? 0) with false. cbv iota.
      rewrite app_nil_r. reflexivity.
    + replace (Z.of_nat (length (g :: rest)) >? 0) with true
        by (symmetry; apply Z.gtb_lt; cbn [length]; lia).
      cbn [map paced]. rewrite <- !app_assoc. reflexivity.
Qed.

End TransmitPauses.

(** X6: [transmit] never pauses longer than 0x7F milliseconds between two
    frames, whatever separation time the flow controls ask for: every
    pause it makes is the separation time of a clear-to-send it has
    received on the flow-control ID when that value is at most 0x7F, and
    one millisecond when that value is above 0x7F.  After a clear-to-send
    with block size 0 it sends all consecutive frames with exactly that
    pause between each two of them and none after the last. *)
Theorem transmit_pauses_bounded (frames : list (list Z)) (a fc : Z)
    (events : list (option can.Message)) :
  Forall Wire.short_sleep (snd (fst (IsoTp.transmit frames a fc events)))
  /\ Forall (Wire.pause_from fc events)
       (snd (fst (IsoTp.transmit frames a fc events)))
  /\ (forall (ff : list Z) (cfs : list (list Z)) (msg : can.Message) (st_min : Z)
             (rest : list (option can.Message)),
         frames = ff :: cfs ->
         cfs <> [] ->
         events = Some msg :: rest ->
         can.arbitration_id msg = fc ->
         IsoTp.decode_fc (can.data msg)
         = Ok (Some IsoTp.FC_FS_CTS, Some 0, Some st_min) ->
         IsoTp.transmit frames a fc events
         = (Ok tt,
            IsoTp.Send (IsoTp.send_message ff a false)
              :: Wire.paced (if st_min >? 0x7F then 1 else st_min)
                   (map (fun f => IsoTp.send_message f a false) cfs),
            rest)).
Proof.
  split; [|split].
  - destruct (IsoTp.transmit frames a fc events) as [[r out] rest] eqn:Hrun.
    cbn [fst snd]. unfold IsoTp.transmit in Hrun.
    destruct (len frames =? 0); [injection Hrun as _ <- _; constructor|].
    destruct (len frames =? 1).
    + destruct (getitem frames 0); injection Hrun as _ <- _; repeat constructor.
    + destruct (getitem frames 0); try (injection Hrun as _ <- _; constructor).
      eapply transmit_loop_sleeps; [|exact Hrun]. repeat constructor.
  - destruct (IsoTp.transmit frames a fc events) as [[r out] rest] eqn:Hrun.
    cbn [fst snd]. unfold IsoTp.transmit in Hrun.
    destruct (len frames =? 0); [injection Hrun as _ <- _; constructor|].
    destruct (len frames =? 1).
    + destruct (getitem frames 0); injection Hrun as _ <- _; repeat constructor.
    + destruct (getitem frames 0); try (injection Hrun as _ <- _; constructor).
      eapply (transmit_loop_pauses _ _ _ events events); [auto| |exact Hrun].
      repeat constructor.
  - intros ff cfs msg st_min rest -> Hne -> Hid Hdec.
    destruct cfs as [|cf cfs]; [congruence|].
    unfold IsoTp.transmit. rewrite !len_cons. pose proof (len_nonneg cfs) as Hnn.
    replace (1 + (1 + len cfs) =? 0) with false by (symmetry; lia).
    replace (1 + (1 + len cfs) =? 1) with false by (symmetry; lia).
    rewrite getitem_head. cbv zeta. cbn [IsoTp.transmit_loop].
    rewrite Hid, Z.eqb_refl. cbn [negb]. rewrite Hdec.
    change (IsoTp.opt_eqb (Some IsoTp.FC_FS_CTS) IsoTp.FC_FS_WAIT) with false.
    change (IsoTp.opt_eqb (Some IsoTp.FC_FS_CTS) IsoTp.FC_FS_CTS) with true.
    cbv iota. cbn [IsoTp.blk_left]. change (0 =? 0) with true.
    rewrite orb_true_r.
    replace (Z.to_nat (1 + (1 + len cfs) - 1)) with (length (cf :: cfs))
      by (unfold len; cbn [length]; lia).
    pose proof (send_block_paced a (if st_min >? 127 then 1 else st_min)
                  (cf :: cfs) [ff] (1 + (1 + len cfs) - 1)
                  [IsoTp.Send (IsoTp.send_message ff a false)]) as Hblock.
    change ([ff] ++ cf :: cfs) with (ff :: cf :: cfs) in Hblock.
    change (len [ff]) with 1 in Hblock. change (0 + 1) with 1.
    rewrite Hblock. cbn [IsoTp.blk_left IsoTp.blk_out].
    replace (1 + (1 + len cfs) - 1 - len (cf :: cfs) >? 0) with false
      by (rewrite len_cons; symmetry; lia).
    reflexivity.
Qed.

Lemma transmit_pauses_bounded_witness :
  ([[0x10; 0x14; 1; 2; 3; 4; 5; 6]; [0x21; 7; 8; 9; 10; 11; 12; 13];
    [0x22; 14; 15; 16; 17; 18; 19; 20]]
   = [0x10; 0x14; 1; 2; 3; 4; 5; 6]
     :: [[0x21; 7; 8; 9; 10; 11; 12; 13]; [0x22; 14; 15; 16; 17; 18; 19; 20]]
   /\ [[0x21; 7; 8; 9; 10; 11; 12; 13]; [0x22; 14; 15; 16; 17; 18; 19; 20]] <> []
   /\ [Some (can.mkMessage 0x7E8 [0x30; 0; 0xF1] false false false)]
      = [Some (can.mkMessage 0x7E8 [0x30; 0; 0xF1] false false false)]
   /\ can.arbitration_id (can.mkMessage 0x7E8 [0x30; 0; 0xF1] false false false) = 0x7E8
   /\ IsoTp.decode_fc (can.data (can.mkMessage 0x7E8 [0x30; 0; 0xF1] false false false))
      = Ok (Some IsoTp.FC_FS_CTS, Some 0, Some 0xF1))
  /\ IsoTp.transmit
       [[0x10; 0x14; 1; 2; 3; 4; 5; 6]; [0x21; 7; 8; 9; 10; 11; 12; 13];
        [0x22; 14; 15; 16; 17; 18; 19; 20]]
       0x7E0 0x7E8 [Some (can.mkMessage 0x7E8 [0x30; 0; 0xF1] false false false)]
     = (Ok tt,
        [IsoTp.Send (IsoTp.send_message [0x10; 0x14; 1; 2; 3; 4; 5; 6] 0x7E0 false);
         IsoTp.Send (IsoTp.send_message [0x21; 7; 8; 9; 10; 11; 12; 13] 0x7E0 false);
         IsoTp.Sleep 1;
         IsoTp.Send (IsoTp.send_message [0x22; 14; 15; 16; 17; 18; 19; 20] 0x7E0 false)],
        []).
Proof.
  assert (Hframes :
    [[0x10; 0x14; 1; 2; 3; 4; 5; 6]; [0x21; 7; 8; 9; 10; 11; 12; 13];
     [0x22; 14; 15; 16; 17; 18; 19; 20]]
    = [0x10; 0x14; 1; 2; 3; 4; 5; 6]
      :: [[0x21; 7; 8; 9; 10; 11; 12; 13]; [0x22; 14; 15; 16; 17; 18; 19; 20]])
    by reflexivity.
  assert (Hne : [[0x21; 7; 8; 9; 10; 11; 12; 13]; [0x22; 14; 15; 16; 17; 18; 19; 20]]
                <> []) by discriminate.
  assert (Hevents : [Some (can.mkMessage 0x7E8 [0x30; 0; 0xF1] false false false)]
                    = [Some (can.mkMessage 0x7E8 [0x30; 0; 0xF1] false false false)])
    by reflexivity.
  assert (Hid : can.arbitration_id (can.mkMessage 0x7E8 [0x30; 0; 0xF1] false false false)
                = 0x7E8) by reflexivity.
  assert (Hdec : IsoTp.decode_fc
                   (can.data (can.mkMessage 0x7E8 [0x30; 0; 0xF1] false false false))
                 = Ok (Some IsoTp.FC_FS_CTS, Some 0, Some 0xF1)) by reflexivity.
  split; [repeat split; assumption|].
  exact (proj2 (proj2 (transmit_pauses_bounded _ 0x7E0 0x7E8 _))
               _ _ _ 0xF1 [] Hframes Hne Hevents Hid Hdec).
Defined.

(** X7: a clear-to-send with a block size below the number of frames left
    makes [transmit] send exactly that many consecutive frames and wait for
    the next flow control; a further clear-to-send with block size 0, or
    with a block size that covers what is left, makes it send the rest. *)
Theorem transmit_block_size (ff : list Z) (cfs : list (list Z)) (a fc : Z)
    (msg1 msg2 : can.Message) (bs1 st1 bs2 st2 : Z) :
  0 < bs1 < len cfs ->
  can.arbitration_id msg1 = fc ->
  IsoTp.decode_fc (can.data msg1) = Ok (Some IsoTp.FC_FS_CTS, Some bs1, Some st1) ->
  can.arbitration_id msg2 = fc ->
  IsoTp.decode_fc (can.data msg2) = Ok (Some IsoTp.FC_FS_CTS, Some bs2, Some st2) ->
  bs2 = 0 \/ len cfs - bs1 <= bs2 ->
  (exists out,
     IsoTp.transmit (ff :: cfs) a fc [Some msg1] = (Ok tt, out, [])
     /\ Wire.sent_frames out
        = map (fun f => IsoTp.send_message f a false) (ff :: take (Z.to_nat bs1) cfs))
  /\ (exists out,
        IsoTp.transmit (ff :: cfs) a fc [Some msg1; Some msg2] = (Ok tt, out, [])
        /\ Wire.sent_frames out
           = map (fun f => IsoTp.send_message f a false) (ff :: cfs)).
Proof.
  intros Hbs1 Hid1 Hdec1 Hid2 Hdec2 Hbs2.
  assert (Hstart : forall events,
             IsoTp.transmit (ff :: cfs) a fc events
             = IsoTp.transmit_loop ([ff] ++ cfs) a fc
                 (IsoTp.mkBlock (len [ff]) (len cfs)
                    [IsoTp.Send (IsoTp.send_message ff a false)]) events).
  { intros events. unfold IsoTp.transmit. rewrite len_cons.
    replace (1 + len cfs =? 0) with false by (symmetry; lia).
    replace (1 + len cfs =? 1) with false by (symmetry; lia).
    rewrite getitem_head. replace (1 + len cfs - 1) with (len cfs) by lia.
    reflexivity. }
  assert (Hn1 : (if (len cfs <? bs1) || (bs1 =? 0) then len cfs else bs1) = bs1).
  { destruct (Z.ltb_spec (len cfs) bs1); [lia|].
    destruct (Z.eqb_spec bs1 0); [lia|]. reflexivity. }
  assert (Hleft : (len cfs - Z.of_nat (Z.to_nat bs1) >? 0) = true)
    by (apply Z.gtb_lt; lia).
  split.
  - rewrite Hstart.
    destruct (transmit_loop_cts [ff] cfs a fc msg1 bs1 st1
                [IsoTp.Send (IsoTp.send_message ff a false)] [] Hid1 Hdec1)
      as [out [Hsent Hrun]].
    rewrite Hn1 in Hsent, Hrun. rewrite Hleft in Hrun.
    exists out. split; [exact Hrun | exact Hsent].
  - rewrite Hstart.
    destruct (transmit_loop_cts [ff] cfs a fc msg1 bs1 st1
                [IsoTp.Send (IsoTp.send_message ff a false)] [Some msg2] Hid1 Hdec1)
      as [out1 [Hsent1 Hrun1]].
    rewrite Hn1 in Hsent1, Hrun1. rewrite Hleft in Hrun1. rewrite Hrun1.
    assert (Hsplit : [ff] ++ cfs
                     = ([ff] ++ take (Z.to_nat bs1) cfs) ++ drop (Z.to_nat bs1) cfs)
      by (rewrite <- app_assoc, take_drop; reflexivity).
    assert (Hdone : len [ff] + Z.of_nat (Z.to_nat bs1)
                    = len ([ff] ++ take (Z.to_nat bs1) cfs)).
    { rewrite len_app. unfold len. rewrite length_take. unfold len in Hbs1. lia. }
    assert (Htodo : len cfs - Z.of_nat (Z.to_nat bs1) = len (drop (Z.to_nat bs1) cfs)).
    { unfold len. rewrite length_drop. unfold len in Hbs1. lia. }
    rewrite Hsplit, Hdone, Htodo.
    destruct (transmit_loop_cts ([ff] ++ take (Z.to_nat bs1) cfs)
                (drop (Z.to_nat bs1) cfs) a fc msg2 bs2 st2 out1 [] Hid2 Hdec2)
      as [out2 [Hsent2 Hrun2]].
    rewrite Hrun2.
    assert (Hn2 : (if (len (drop (Z.to_nat bs1) cfs) <? bs2) || (bs2 =? 0)
                   then len (drop (Z.to_nat bs1) cfs) else bs2)
                  = len (drop (Z.to_nat bs1) cfs)).
    { rewrite <- Htodo. destruct Hbs2 as [-> | Hcover].
      - rewrite Z.eqb_refl, orb_true_r. reflexivity.
      - destruct (Z.ltb_spec (len cfs - Z.of_nat (Z.to_nat bs1)) bs2); cbn [orb];
          [reflexivity|].
        destruct (Z.eqb_spec bs2 0); [reflexivity | lia]. }
    rewrite Hn2 in Hsent2 |- *.
    replace (len (drop (Z.to_nat bs1) cfs)
             - Z.of_nat (Z.to_nat (len (drop (Z.to_nat bs1) cfs))) >? 0)
      with false by (unfold len; rewrite Nat2Z.id, Z.sub_diag; reflexivity).
    exists out2. split; [reflexivity|].
    rewrite Hsent2, Hsent1, take_len.
    rewrite <- app_assoc, <- map_app, take_drop. reflexivity.
Qed.

Lemma transmit_block_size_witness :
  (0 < 1 < len [[0x21; 7; 8; 9; 10; 11; 12; 13]; [0x22; 14; 15; 16; 17; 18; 19; 20]]
   /\ can.arbitration_id (can.mkMessage 0x7E8 [0x30; 1; 0x85] false false false) = 0x7E8
   /\ IsoTp.decode_fc (can.data (can.mkMessage 0x7E8 [0x30; 1; 0x85] false false false))
      = Ok (Some IsoTp.FC_FS_CTS, Some 1, Some 0x85)
   /\ can.arbitration_id (can.mkMessage 0x7E8 [0x30; 0; 0] false false false) = 0x7E8
   /\ IsoTp.decode_fc (can.data (can.mkMessage 0x7E8 [0x30; 0; 0] false false false))
      = Ok (Some IsoTp.FC_FS_CTS, Some 0, Some 0)
   /\ (0 = 0
       \/ len [[0x21; 7; 8; 9; 10; 11; 12; 13]; [0x22; 14; 15; 16; 17; 18; 19; 20]] - 1
          <= 0))
  /\ exists out,
       IsoTp.transmit
         [[0x10; 20; 1; 2; 3; 4; 5; 6]; [0x21; 7; 8; 9; 10; 11; 12; 13];
          [0x22; 14; 15; 16; 17; 18; 19; 20]] 0x7E0 0x7E8
         [Some (can.mkMessage 0x7E8 [0x30; 1; 0x85] false false false)]
       = (Ok tt, out, [])
       /\ Wire.sent_frames out
          = map (fun f => IsoTp.send_message f 0x7E0 false)
                [[0x10; 20; 1; 2; 3; 4; 5; 6]; [0x21; 7; 8; 9; 10; 11; 12; 13]].
Proof.
  assert (H1 : 0 < 1 < len [[0x21; 7; 8; 9; 10; 11; 12; 13];
                            [0x22; 14; 15; 16; 17; 18; 19; 20]])
    by (unfold len; simpl; lia).
  assert (H6 : 0 = 0
               \/ len [[0x21; 7; 8; 9; 10; 11; 12; 13];
                       [0x22; 14; 15; 16; 17; 18; 19; 20]] - 1 <= 0)
    by (left; reflexivity).
  split; [repeat split; (exact (proj1 H1) || exact (proj2 H1) || exact H6)|].
  exact (proj1 (transmit_block_size [0x10; 20; 1; 2; 3; 4; 5; 6]
                  [[0x21; 7; 8; 9; 10; 11; 12; 13]; [0x22; 14; 15; 16; 17; 18; 19; 20]]
                  0x7E0 0x7E8
                  (can.mkMessage 0x7E8 [0x30; 1; 0x85] false false false)
                  (can.mkMessage 0x7E8 [0x30; 0; 0] false false false)
                  1 0x85 0 0 H1 eq_refl eq_refl eq_refl eq_refl H6)).
Defined.

Section ReceiveLoop.
Import IsoTp Wire.

Lemma indication_frame_ff_only (tp : bool) (st : rx_state) (fc : Z)
    (n : Z) (data : list Z) :
  0 <= n <= 4095 ->
  indication_frame tp true st fc
    (Z.lor 0x10 (Z.shiftr n 8) :: Z.land n 0xFF :: data)
  = Ok (Break (Some data) [send_message (encode_fc FC_FS_OVFLW 0 0) fc false]).
Proof.
  intros Hn. destruct (ff_pci n Hn) as [Htype Hdl].
  unfold indication_frame. rewrite getitem_head. cbn [bind].
  rewrite Htype. change (1 =? SF_FRAME_ID) with false.
  change (1 =? FF_FRAME_ID) with true. cbv iota.
  unfold decode_ff.
  replace (len (Z.lor 16 (Z.shiftr n 8) :: Z.land n 255 :: data) >=? FF_PCI_LENGTH)
    with true
    by (rewrite !len_cons; pose proof (len_nonneg data);
        unfold FF_PCI_LENGTH; symmetry; lia).
  rewrite getitem_head.
  rewrite (getitem_lookup _ 1 (Z.land n 255)) by (reflexivity || lia).
  reflexivity.
Qed.

(** A consecutive frame that does not carry the next sequence number
    leaves the state as it is. *)
Lemma indication_frame_cf_skip (tp fo : bool) (st : rx_state) (fc b0 : Z)
    (frame : list Z) :
  Z.land (Z.shiftr b0 4) 0xF = CF_FRAME_ID ->
  Z.land b0 0xF <> (rx_sn st + 1) mod 16 ->
  indication_frame tp fo st fc (b0 :: frame) = Ok (Continue st []).
Proof.
  intros Htype Hsn. unfold indication_frame. rewrite getitem_head. cbn [bind].
  rewrite Htype. change (CF_FRAME_ID =? SF_FRAME_ID) with false.
  change (CF_FRAME_ID =? FF_FRAME_ID) with false.
  change (CF_FRAME_ID =? CF_FRAME_ID) with true. cbv iota.
  unfold decode_cf.
  replace (len (b0 :: frame) >=? CF_PCI_LENGTH) with true
    by (rewrite len_cons; pose proof (len_nonneg frame);
        unfold CF_PCI_LENGTH; symmetry; lia).
  rewrite getitem_head. cbn [bind].
  rewrite (proj2 (Z.eqb_neq ((rx_sn st + 1) mod 16) (Z.land b0 15))) by congruence.
  reflexivity.
Qed.

(** A consecutive frame that carries the next sequence number and does not
    complete the message is appended, whatever [trim_padding] is. *)
Lemma indication_frame_cf_more (tp fo : bool) (sn n : Z) (acc : list Z) (fc : Z)
    (sn' : Z) (data : list Z) :
  0 <= sn' < 16 -> (sn + 1) mod 16 = sn' ->
  len (acc ++ data) < n ->
  indication_frame tp fo (mkRx sn (Some n) (Some acc)) fc (Z.lor 0x20 sn' :: data)
  = Ok (Continue (mkRx sn' (Some n) (Some (acc ++ data))) []).
Proof.
  intros Hsn' Hnext Hlen. destruct (cf_pci sn' Hsn') as [Htype Hsn].
  unfold indication_frame. rewrite getitem_head. cbn [bind].
  rewrite Htype. change (2 =? SF_FRAME_ID) with false.
  change (2 =? FF_FRAME_ID) with false. change (2 =? CF_FRAME_ID) with true.
  cbv iota. unfold decode_cf.
  replace (len (Z.lor 32 sn' :: data) >=? CF_PCI_LENGTH) with true
    by (rewrite len_cons; pose proof (len_nonneg data);
        unfold CF_PCI_LENGTH; symmetry; lia).
  rewrite getitem_head. cbn [bind rx_sn rx_message rx_message_length].
  rewrite Hsn, Hnext, Z.eqb_refl. unfold slice_from. cbn [drop].
  rewrite drop_0.
  replace (len (acc ++ data) >=? n) with false by (symmetry; lia).
  reflexivity.
Qed.

(** A proper initial part of the consecutive frames leaves the loop
    waiting, and then the deadline ends it. *)
Lemma indication_loop_cfs_truncated (self : IsoTp.t) (tp fo : bool) (a : Z)
    (padding : option Z) :
  a = arb_id_request self \/ a = arb_id_response self ->
  forall sn payload cfs,
    cf_frames padding sn payload cfs ->
    forall (k : nat) acc n sent,
      (k < length cfs)%nat ->
      n = len acc + len payload ->
      indication_loop self tp fo (mkRx sn (Some n) (Some acc)) sent
                      (deliver a (take k cfs))
      = (Ok None, sent).
Proof.
  intros Ha sn payload cfs Hcfs.
  induction Hcfs as [sn | sn payload frames Hne Hrest IH];
    intros k acc n sent Hk Hn; [simpl in Hk; lia|].
  destruct k as [|k]; [reflexivity|].
  cbn [take deliver map]. cbn [length] in Hk.
  destruct frames as [|f frames]; [simpl in Hk; lia|].
  assert (Hlong : (7 < length payload)%nat).
  { inversion Hrest as [|? ? ? Hne' _]; subst.
    destruct (Nat.le_gt_cases (length payload) 7) as [Hle|Hgt]; [|exact Hgt].
    exfalso. apply Hne'. apply drop_ge. exact Hle. }
  rewrite indication_loop_step by exact Ha.
  assert (Hchunk : length (take 7 payload) = 7%nat) by (rewrite length_take; lia).
  rewrite Hchunk, pad_tail_full, app_nil_r.
  rewrite (indication_frame_cf_more tp fo sn n acc (fc_id self a) ((sn + 1) mod 16));
    [ | apply Z.mod_pos_bound; lia | reflexivity
      | rewrite len_app; unfold len in *; rewrite Hchunk; lia ].
  rewrite app_nil_r.
  change (map (fun frame => Recv (send_message frame a false)) (take k (f :: frames)))
    with (deliver a (take k (f :: frames))).
  apply IH; [lia|].
  rewrite len_app. unfold len in *. rewrite Hchunk, length_drop. lia.
Qed.

(** Removing what the loop does not act on changes nothing. *)
Lemma indication_loop_filter (self : IsoTp.t) (tp fo : bool)
    (events : list bus_event) :
  forall st sent,
    indication_loop self tp fo st sent events
    = indication_loop self tp fo st sent (List.filter (relevant self) events).
Proof.
  induction events as [|ev events IH]; intros st sent; [reflexivity|].
  destruct ev as [| |msg]; cbn [List.filter relevant].
  - reflexivity.
  - cbn [indication_loop]. apply IH.
  - cbn [indication_loop].
    destruct (can.arbitration_id msg =? arb_id_request self) eqn:Hreq;
      [|destruct (can.arbitration_id msg =? arb_id_response self) eqn:Hresp];
      cbn [orb andb]; try apply IH;
      (destruct (len (can.data msg) >? 0) eqn:Hlen; [|apply IH]);
      cbn [indication_loop]; rewrite Hreq, ?Hresp, Hlen;
      (destruct (indication_frame tp fo st _ (can.data msg)) as [[st' out|m out|]| |];
       [apply IH | reflexivity | reflexivity | reflexivity | reflexivity]).
Qed.

End ReceiveLoop.

(** X8: with [first_frame_only], the first frame of a multi-frame message
    makes [indication] return its six payload bytes and send exactly one
    frame: the flow control [32 00 00 00 00 00 00 00] (status Overflow),
    on the other arbitration ID of the channel (the response ID for a
    frame that came on the request ID, and the request ID otherwise).
    Received by the sender, this flow control makes [transmit] stop after
    the first frame, whatever follows on the bus. *)
Theorem first_frame_only_round (self : IsoTp.t) (trim_padding : bool) (a : Z)
    (message : list Z) (padding : option Z) :
  8 <= len message <= 4095 ->
  a = IsoTp.arb_id_request self \/ a = IsoTp.arb_id_response self ->
  let overflow :=
    IsoTp.send_message [0x32; 0; 0; 0; 0; 0; 0; 0]
      (if a =? IsoTp.arb_id_request self
       then IsoTp.arb_id_response self else IsoTp.arb_id_request self)
      false in
  exists ff cfs,
    IsoTp.get_frames_from_message message padding = Ok (ff :: cfs)
    /\ IsoTp.indication self trim_padding true (Wire.deliver a (ff :: cfs))
       = (Ok (Some (take 6 message)), [overflow])
    /\ (forall rest : list (option can.Message),
           IsoTp.transmit (ff :: cfs) a (can.arbitration_id overflow)
             (Some overflow :: rest)
           = (Ok tt, [IsoTp.Send (IsoTp.send_message ff a false)], rest)).
Proof.
  intros Hlen Ha. cbv zeta.
  destruct (get_frames_spec message padding) as [frames [Hrun Hfmt]];
    [unfold IsoTp.MAX_MESSAGE_LENGTH; lia|].
  destruct Hfmt as [Hsf | cfs Hmf Hcfs]; [lia|].
  assert (Hpayload : drop 6 message <> []) by (apply drop_nonempty; lia).
  pose proof (cf_frames_nonempty _ _ _ _ Hcfs Hpayload) as Hne.
  destruct cfs as [|cf cfs]; [congruence|].
  eexists _, (cf :: cfs). split; [exact Hrun|]. split.
  - unfold IsoTp.indication. cbn [Wire.deliver map].
    rewrite indication_loop_step by exact Ha.
    rewrite indication_frame_ff_only by lia. reflexivity.
  - intros rest. unfold IsoTp.transmit. rewrite !len_cons.
    pose proof (len_nonneg cfs) as Hnn.
    replace (1 + (1 + len cfs) =? 0) with false by (symmetry; lia).
    replace (1 + (1 + len cfs) =? 1) with false by (symmetry; lia).
    rewrite getitem_head.
    match goal with
    | |- IsoTp.transmit_loop ?frames _ ?b ?blk (Some ?fc :: _) = _ =>
        exact (transmit_loop_overflow frames a b blk fc rest []
                 (List.Forall_nil _) eq_refl eq_refl)
    end.
Qed.

Lemma first_frame_only_round_witness :
  (8 <= len [1; 2; 3; 4; 5; 6; 7; 8; 9; 10] <= 4095
   /\ (0x7E8 = 0x7E0 \/ 0x7E8 = 0x7E8))
  /\ exists ff cfs,
       IsoTp.get_frames_from_message [1; 2; 3; 4; 5; 6; 7; 8; 9; 10] (Some 0) = Ok (ff :: cfs)
       /\ IsoTp.indication
            (IsoTp.mkIsoTp IsoTp.DefaultBus 0x7E0 0x7E8 (IsoTp.PyInt 0) true)
            true true (Wire.deliver 0x7E8 (ff :: cfs))
          = (Ok (Some [1; 2; 3; 4; 5; 6]),
             [can.mkMessage 0x7E0 [0x32; 0; 0; 0; 0; 0; 0; 0] false false false])
       /\ (forall rest : list (option can.Message),
              IsoTp.transmit (ff :: cfs) 0x7E8 0x7E0
                (Some (can.mkMessage 0x7E0 [0x32; 0; 0; 0; 0; 0; 0; 0] false false false)
                 :: rest)
              = (Ok tt, [IsoTp.Send (IsoTp.send_message ff 0x7E8 false)], rest)).
Proof.
  assert (Hlen : 8 <= len [1; 2; 3; 4; 5; 6; 7; 8; 9; 10] <= 4095)
    by (unfold len; simpl; lia).
  assert (Hid : 0x7E8 = 0x7E0 \/ 0x7E8 = 0x7E8) by (right; reflexivity).
  split; [split; assumption|].
  exact (first_frame_only_round
           (IsoTp.mkIsoTp IsoTp.DefaultBus 0x7E0 0x7E8 (IsoTp.PyInt 0) true)
           true 0x7E8 [1; 2; 3; 4; 5; 6; 7; 8; 9; 10] (Some 0) Hlen Hid).
Defined.

(** X9: messages from other arbitration IDs, messages without data and
    empty receives do not influence [indication]: its result and the frames
    it sends are those for the stream without them. *)
Theorem indication_ignores_noise (self : IsoTp.t) (trim_padding first_frame_only : bool)
    (events : list bus_event) :
  IsoTp.indication self trim_padding first_frame_only events
  = IsoTp.indication self trim_padding first_frame_only
      (List.filter (Wire.relevant self) events).
Proof. unfold IsoTp.indication. apply indication_loop_filter. Qed.

(** X10: [indication] never returns a part of a message: when only a
    proper initial part of the frames of a message arrives before the
    deadline, the result is [None]. *)
Theorem indication_truncated (self : IsoTp.t) (trim_padding : bool) (a : Z)
    (message : list Z) (padding : option Z) :
  len message <= 4095 ->
  a = IsoTp.arb_id_request self \/ a = IsoTp.arb_id_response self ->
  exists frames,
    IsoTp.get_frames_from_message message padding = Ok frames
    /\ forall k, (k < length frames)%nat ->
         fst (IsoTp.indication self trim_padding false (Wire.deliver a (take k frames)))
         = Ok None.
Proof.
  intros Hlen Ha.
  destruct (get_frames_spec message padding Hlen) as [frames [Hrun Hfmt]].
  exists frames. split; [exact Hrun|]. intros k Hk.
  destruct Hfmt as [Hsf | cfs Hmf Hcfs].
  - destruct k as [|k]; [reflexivity | simpl in Hk; lia].
  - destruct k as [|k]; [reflexivity|].
    unfold IsoTp.indication. cbn [take Wire.deliver map].
    rewrite indication_loop_step by exact Ha.
    pose proof (len_nonneg message) as Hnn.
    rewrite indication_frame_ff by lia.
    change (map (fun frame => Recv (IsoTp.send_message frame a false)) (take k cfs))
      with (Wire.deliver a (take k cfs)).
    rewrite (indication_loop_cfs_truncated self trim_padding false a padding Ha
               0 (drop 6 message) cfs Hcfs k (take 6 message) (len message)).
    + reflexivity.
    + simpl in Hk. lia.
    + rewrite <- len_app, take_drop. reflexivity.
Qed.

Lemma indication_truncated_witness :
  (len [1; 2; 3; 4; 5; 6; 7; 8; 9; 10; 11; 12; 13; 14] <= 4095
   /\ (0x7E8 = 0x7E0 \/ 0x7E8 = 0x7E8))
  /\ exists frames,
       IsoTp.get_frames_from_message [1; 2; 3; 4; 5; 6; 7; 8; 9; 10; 11; 12; 13; 14] None
       = Ok frames
       /\ fst (IsoTp.indication
                 (IsoTp.mkIsoTp IsoTp.DefaultBus 0x7E0 0x7E8 IsoTp.PyNone false)
                 true false (Wire.deliver 0x7E8 (take 2 frames)))
          = Ok None.
Proof.
  assert (Hlen : len [1; 2; 3; 4; 5; 6; 7; 8; 9; 10; 11; 12; 13; 14] <= 4095)
    by (unfold len; simpl; lia).
  assert (Hid : 0x7E8 = 0x7E0 \/ 0x7E8 = 0x7E8) by (right; reflexivity).
  split; [split; assumption|].
  destruct (indication_truncated
              (IsoTp.mkIsoTp IsoTp.DefaultBus 0x7E0 0x7E8 IsoTp.PyNone false)
              true 0x7E8 [1; 2; 3; 4; 5; 6; 7; 8; 9; 10; 11; 12; 13; 14] None Hlen Hid)
    as [frames [Hrun Hnone]].
  exists frames. split; [exact Hrun|]. apply Hnone.
  assert (Hframes : IsoTp.get_frames_from_message
                      [1; 2; 3; 4; 5; 6; 7; 8; 9; 10; 11; 12; 13; 14] None
                    = Ok [[0x10; 14; 1; 2; 3; 4; 5; 6]; [0x21; 7; 8; 9; 10; 11; 12; 13];
                          [0x22; 14]]) by reflexivity.
  rewrite Hframes in Hrun. injection Hrun as <-. simpl. lia.
Defined.

(** X11: in every state of the receive loop, a consecutive frame with a
    matching arbitration ID that does not carry the next sequence number is
    ignored: it neither ends the call nor changes what has been
    reassembled. *)
Theorem out_of_sequence_cf_ignored (self : IsoTp.t)
    (trim_padding first_frame_only : bool) (st : IsoTp.rx_state)
    (msg : can.Message) (b0 : Z) (frame : list Z) :
  can.data msg = b0 :: frame ->
  can.arbitration_id msg = IsoTp.arb_id_request self
  \/ can.arbitration_id msg = IsoTp.arb_id_response self ->
  Wire.frame_type (can.data msg) = Some IsoTp.CF_FRAME_ID ->
  Wire.sn_of (can.data msg) <> Some ((IsoTp.rx_sn st + 1) mod 16) ->
  Wire.ignored self trim_padding first_frame_only st msg.
Proof.
  intros Hdata Hid Htype Hsn sent rest. rewrite Hdata in Htype, Hsn.
  assert (Htype' : Z.land (Z.shiftr b0 4) 0xF = IsoTp.CF_FRAME_ID).
  { unfold Wire.frame_type in Htype. rewrite getitem_head in Htype. congruence. }
  assert (Hsn' : Z.land b0 0xF <> (IsoTp.rx_sn st + 1) mod 16).
  { intros Heq. apply Hsn. unfold Wire.sn_of, IsoTp.decode_cf.
    replace (len (b0 :: frame) >=? IsoTp.CF_PCI_LENGTH) with true
      by (rewrite len_cons; pose proof (len_nonneg frame);
          unfold IsoTp.CF_PCI_LENGTH; symmetry; lia).
    rewrite getitem_head. cbn [bind]. rewrite Heq. reflexivity. }
  rewrite (indication_loop_recv _ _ _ _ _ _ _ _ _ Hdata Hid).
  rewrite (indication_frame_cf_skip _ _ _ _ _ _ Htype' Hsn').
  rewrite app_nil_r. reflexivity.
Qed.

Lemma out_of_sequence_cf_ignored_witness :
  (can.data (can.mkMessage 0x7E8 [0x23; 1; 2; 3; 4; 5; 6; 7] false false false)
   = 0x23 :: [1; 2; 3; 4; 5; 6; 7]
   /\ (0x7E8 = 0x7E0 \/ 0x7E8 = 0x7E8)
   /\ Wire.frame_type [0x23; 1; 2; 3; 4; 5; 6; 7] = Some IsoTp.CF_FRAME_ID
   /\ Wire.sn_of [0x23; 1; 2; 3; 4; 5; 6; 7] <> Some ((1 + 1) mod 16))
  /\ Wire.ignored (IsoTp.mkIsoTp IsoTp.DefaultBus 0x7E0 0x7E8 (IsoTp.PyInt 0) true)
       true false (IsoTp.mkRx 1 (Some 20) (Some [1; 2; 3; 4; 5; 6; 7; 8; 9; 10; 11; 12; 13]))
       (can.mkMessage 0x7E8 [0x23; 1; 2; 3; 4; 5; 6; 7] false false false).
Proof.
  assert (Hid : 0x7E8 = 0x7E0 \/ 0x7E8 = 0x7E8) by (right; reflexivity).
  assert (Hsn : Wire.sn_of [0x23; 1; 2; 3; 4; 5; 6; 7] <> Some ((1 + 1) mod 16))
    by (vm_compute; discriminate).
  split; [repeat split; (reflexivity || exact Hid || exact Hsn)|].
  exact (out_of_sequence_cf_ignored
           (IsoTp.mkIsoTp IsoTp.DefaultBus 0x7E0 0x7E8 (IsoTp.PyInt 0) true)
           true false
           (IsoTp.mkRx 1 (Some 20) (Some [1; 2; 3; 4; 5; 6; 7; 8; 9; 10; 11; 12; 13]))
           (can.mkMessage 0x7E8 [0x23; 1; 2; 3; 4; 5; 6; 7] false false false)
           0x23 [1; 2; 3; 4; 5; 6; 7] eq_refl Hid eq_refl Hsn).
Defined.

(** X12: [send_request] and [send_response] raise [ValueError] for a
    message of more than 4095 bytes without sending anything; a message of
    at most 7 bytes leaves as one single frame, on the request ID or the
    response ID, without a read from the bus. *)
Theorem send_request_single_or_rejected (self : IsoTp.t) (message : list Z)
    (events : list (option can.Message)) :
  (4095 < len message ->
   IsoTp.send_request self message events = (Raise ValueError, [], events)
   /\ IsoTp.send_response self message events = (Raise ValueError, [], events))
  /\ (len message <= 7 ->
      exists frame,
        frame = len message :: message
                  ++ Wire.pad_tail (IsoTp.padding_arg (IsoTp.padding_value self))
                                   (length message)
        /\ IsoTp.send_request self message events
           = (Ok tt,
              [IsoTp.Send (IsoTp.send_message frame (IsoTp.arb_id_request self) false)],
              events)
        /\ IsoTp.send_response self message events
           = (Ok tt,
              [IsoTp.Send (IsoTp.send_message frame (IsoTp.arb_id_response self) false)],
              events)).
Proof.
  split.
  - intros Hlong. unfold IsoTp.send_request, IsoTp.send_response.
    rewrite get_frames_too_long by exact Hlong. split; reflexivity.
  - intros Hshort. unfold IsoTp.send_request, IsoTp.send_response.
    destruct (get_frames_spec message (IsoTp.padding_arg (IsoTp.padding_value self)))
      as [frames [Hrun Hfmt]]; [unfold IsoTp.MAX_MESSAGE_LENGTH; lia|].
    destruct Hfmt as [Hsf | cfs Hmf Hcfs]; [|lia].
    rewrite Hrun. eexists. split; [reflexivity|]. split; reflexivity.
Qed.

Lemma send_request_single_or_rejected_witness :
  len [0x10; 0x01] <= 7
  /\ exists frame,
       frame = [0x02; 0x10; 0x01; 0; 0; 0; 0; 0]
       /\ IsoTp.send_request
            (IsoTp.mkIsoTp IsoTp.DefaultBus 0x7E0 0x7E8 (IsoTp.PyInt 0) true)
            [0x10; 0x01] []
          = (Ok tt, [IsoTp.Send (IsoTp.send_message frame 0x7E0 false)], []).
Proof.
  assert (Hlen : len [0x10; 0x01] <= 7) by (unfold len; simpl; lia).
  split; [exact Hlen|].
  destruct (proj2 (send_request_single_or_rejected
                     (IsoTp.mkIsoTp IsoTp.DefaultBus 0x7E0 0x7E8 (IsoTp.PyInt 0) true)
                     [0x10; 0x01] []) Hlen) as [frame [Hframe [Hreq _]]].
  exists frame. split; [exact Hframe | exact Hreq].
Defined.

(** * Further properties of the CAN actions *)

Section Blacklist.
Import CanActions Wire.

Lemma auto_blacklist_loop_spec (classifier_function : can.Message -> bool)
    (events : list bus_event) :
  forall (blacklist : gset Z) (x : Z),
    x ∈ auto_blacklist_loop classifier_function blacklist events
    <-> (x ∈ blacklist
         \/ exists msg, In msg (before_deadline events)
                        /\ classifier_function msg = true
                        /\ can.arbitration_id msg = x).
Proof.
  induction events as [|ev events IH]; intros blacklist x.
  - cbn. split; [auto|]. intros [H | [msg [[] _]]]. exact H.
  - destruct ev as [| |msg]; cbn [auto_blacklist_loop before_deadline].
    + split; [auto|]. intros [H | [msg [[] _]]]. exact H.
    + apply IH.
    + destruct (classifier_function msg) eqn:Hc; rewrite IH; split.
      * intros [Hin | [m [Hm [Hcm Hid]]]].
        -- apply elem_of_union in Hin. destruct Hin as [Hin | Hin]; [|auto].
           apply elem_of_singleton in Hin. right. exists msg.
           split; [left; reflexivity|]. split; [exact Hc | symmetry; exact Hin].
        -- right. exists m. split; [right; exact Hm|]. auto.
      * intros [Hin | [m [[-> | Hm] [Hcm Hid]]]].
        -- left. apply elem_of_union. auto.
        -- left. apply elem_of_union. left. apply elem_of_singleton.
           symmetry. exact Hid.
        -- right. exists m. auto.
      * intros [Hin | [m [Hm [Hcm Hid]]]]; [auto|].
        right. exists m. split; [right; exact Hm|]. auto.
      * intros [Hin | [m [[-> | Hm] [Hcm Hid]]]]; [auto | congruence |].
        right. exists m. auto.
Qed.

End Blacklist.

(** X13: [auto_blacklist] returns exactly the arbitration IDs of the
    messages that arrive before the deadline and that the classifier
    accepts; receive timeouts and anything after the deadline add
    nothing. *)
Theorem auto_blacklist_members (classifier_function : can.Message -> bool)
    (events : list bus_event) (x : Z) :
  x ∈ CanActions.auto_blacklist classifier_function events
  <-> exists msg, In msg (Wire.before_deadline events)
                  /\ classifier_function msg = true
                  /\ can.arbitration_id msg = x.
Proof.
  unfold CanActions.auto_blacklist. rewrite auto_blacklist_loop_spec.
  split; [|auto]. intros [H | H]; [|exact H].
  apply elem_of_empty in H. destruct H.
Qed.

Section BruteforceListeners.
Import CanActions Wire.
Context {listener : Type} (callback : Z -> listener) (stop : Z -> bool).

(** After a run through the whole range the listener of the last ID is the
    one installed, and the flag is still set. *)
Lemma bruteforce_loop_last (data : list Z) (count : nat) :
  forall (first : Z) (self : CanActions.t listener) (ls : list listener),
    notifier self = Some ls ->
    bruteforce_running self = true ->
    (forall id, first <= id < first + Z.of_nat (S count) -> stop id = false) ->
    exists self',
      bruteforce_loop callback stop (S count) first data self = Ok (self', false)
      /\ notifier self' = Some [callback (first + Z.of_nat count)]
      /\ bruteforce_running self' = true
      /\ bus_sent self' = bus_sent self ++ probes data first (S count)
      /\ end_calls self' = end_calls self.
Proof.
  induction count as [|count IH]; intros first self ls Hnot Hrunning Hstop.
  - cbn [bruteforce_loop]. unfold with_listeners at 1. rewrite Hnot.
    cbn [bind]. cbv zeta. rewrite (Hstop first) by lia.
    cbn [bruteforce_running bus_send]. rewrite Hrunning. cbn [negb].
    eexists. split; [reflexivity|].
    cbn [notifier bruteforce_running bus_sent end_calls].
    change (Z.of_nat 0) with 0. rewrite Z.add_0_r, probes_S.
    repeat split.
  - remember (S count) as n eqn:Hn.
    cbn [bruteforce_loop]. unfold with_listeners at 1. rewrite Hnot.
    cbn [bind]. cbv zeta. rewrite (Hstop first) by lia.
    cbn [bruteforce_running bus_send]. rewrite Hrunning. cbn [negb].
    subst n.
    edestruct (IH (first + 1)) as [self' [Hrun [Hls [Hflag [Hsent Hend]]]]];
      [ | | | exists self'; split; [exact Hrun|] ].
    + reflexivity.
    + reflexivity.
    + intros id Hid. apply Hstop. lia.
    + split; [rewrite Hls; do 3 f_equal; lia|]. split; [exact Hflag|].
      split; [|exact Hend].
      rewrite Hsent. cbn [bus_sent bus_send].
      rewrite (probes_S data first (S count)), <- app_assoc. reflexivity.
Qed.

(** The IDs of the probes of a range lie in the range. *)
Lemma probes_ids (data : list Z) (first : Z) (count : nat) (m : can.Message) :
  In m (probes data first count) ->
  first <= can.arbitration_id m < first + Z.of_nat count
  /\ can.is_extended_id m = (can.arbitration_id m >? constants.ARBITRATION_ID_MAX)
  /\ can.data m = data.
Proof.
  unfold probes. intros Hm. apply in_map_iff in Hm.
  destruct Hm as [k [<- Hk]]. apply in_seq in Hk. cbn.
  split; [lia|]. split; [|reflexivity].
  destruct (first + Z.of_nat k >? constants.ARBITRATION_ID_MAX); reflexivity.
Qed.

End BruteforceListeners.

(** X14: when [bruteforce_arbitration_id] goes through its whole ID range
    and no [callback_end] was given, every ID of the range has been probed,
    the listener made for the last ID stays installed and
    [bruteforce_running] stays set. *)
Theorem bruteforce_without_callback_end {listener : Type} (callback : Z -> listener)
    (stop : Z -> bool) (self : CanActions.t listener) (ls : list listener)
    (data : list Z) (min_id max_id : Z) :
  CanActions.notifier self = Some ls ->
  min_id <= max_id ->
  (forall id, min_id <= id <= max_id -> stop id = false) ->
  exists self',
    CanActions.bruteforce_arbitration_id callback stop self data
      (Some min_id) (Some max_id) false = Ok self'
    /\ CanActions.notifier self' = Some [callback max_id]
    /\ CanActions.bruteforce_running self' = true
    /\ CanActions.end_calls self' = CanActions.end_calls self
    /\ CanActions.bus_sent self'
       = CanActions.bus_sent self
           ++ Wire.probes data min_id (Z.to_nat (max_id + 1 - min_id)).
Proof.
  intros Hnot Hrange Hstop. unfold CanActions.bruteforce_arbitration_id.
  replace (min_id >? max_id) with false by (symmetry; lia).
  replace (Z.to_nat (max_id + 1 - min_id)) with (S (Z.to_nat (max_id - min_id)))
    by lia.
  destruct (bruteforce_loop_last callback stop data (Z.to_nat (max_id - min_id))
              min_id (CanActions.set_running self true) ls Hnot eq_refl)
    as [s1 [Hrun [Hls1 [Hflag [Hsent Hend]]]]].
  { intros id Hid. apply Hstop. lia. }
  rewrite Hrun. cbn [bind]. cbv iota beta.
  exists s1. split; [reflexivity|].
  split; [rewrite Hls1; do 3 f_equal; lia|].
  split; [exact Hflag|]. split; [exact Hend|]. exact Hsent.
Qed.

Lemma bruteforce_without_callback_end_witness :
  (CanActions.notifier (CanActions.__init__ (listener := Z) None true) = Some []
   /\ 0x7E0 <= 0x7E2
   /\ (forall id, 0x7E0 <= id <= 0x7E2 -> (fun _ : Z => false) id = false))
  /\ exists self',
       CanActions.bruteforce_arbitration_id (fun id => id) (fun _ => false)
         (CanActions.__init__ None true) [0xFF] (Some 0x7E0) (Some 0x7E2) false = Ok self'
       /\ CanActions.notifier self' = Some [0x7E2]
       /\ CanActions.bruteforce_running self' = true
       /\ CanActions.end_calls self' = []
       /\ CanActions.bus_sent self' = [] ++ Wire.probes [0xFF] 0x7E0 3.
Proof.
  assert (Hnot : CanActions.notifier (CanActions.__init__ (listener := Z) None true) = Some [])
    by reflexivity.
  assert (Hrange : 0x7E0 <= 0x7E2) by lia.
  assert (Hstop : forall id, 0x7E0 <= id <= 0x7E2 -> (fun _ : Z => false) id = false)
    by reflexivity.
  split; [repeat split; assumption || lia|].
  exact (bruteforce_without_callback_end (fun id => id) (fun _ => false)
           (CanActions.__init__ None true) [] [0xFF] 0x7E0 0x7E2 Hnot Hrange Hstop).
Defined.

(** X15: with [max_id] left out, [bruteforce_arbitration_id] never mixes
    frame formats: however the scan ends, the frames it has sent carry IDs
    from [min_id] (0 when left out) on, all of them standard when the start
    is at most 0x7FF (none exceeds 0x7FF), all of them extended when the
    start is above 0x7FF (none exceeds 0x1FFFFFFF). *)
Theorem bruteforce_default_range {listener : Type} (callback : Z -> listener)
    (stop : Z -> bool) (self self' : CanActions.t listener) (data : list Z)
    (min_id : option Z) (callback_end : bool) :
  CanActions.bruteforce_arbitration_id callback stop self data min_id None
    callback_end = Ok self' ->
  exists sent,
    CanActions.bus_sent self' = CanActions.bus_sent self ++ sent
    /\ let first := match min_id with
                    | None => constants.ARBITRATION_ID_MIN
                    | Some m => m
                    end in
       Forall (fun m =>
                 first <= can.arbitration_id m
                 /\ can.data m = data
                 /\ can.is_extended_id m = (first >? constants.ARBITRATION_ID_MAX)
                 /\ can.arbitration_id m
                    <= (if first >? constants.ARBITRATION_ID_MAX
                        then constants.ARBITRATION_ID_MAX_EXTENDED
                        else constants.ARBITRATION_ID_MAX))
              sent.
Proof.
  intros Hrun. unfold CanActions.bruteforce_arbitration_id in Hrun.
  cbv zeta.
  set (first := match min_id with
                | None => constants.ARBITRATION_ID_MIN
                | Some m => m
                end) in *.
  set (last := if first <=? constants.ARBITRATION_ID_MAX
               then constants.ARBITRATION_ID_MAX
               else constants.ARBITRATION_ID_MAX_EXTENDED) in *.
  destruct (first >? last) eqn:Hinv.
  - exists []. rewrite app_nil_r.
    split; [destruct callback_end; injection Hrun as <-; reflexivity|].
    constructor.
  - destruct (CanActions.bruteforce_loop callback stop
                (Z.to_nat (last + 1 - first)) first data
                (CanActions.set_running self true))
      as [[s1 returned]| |] eqn:Hloop; try discriminate Hrun.
    apply bruteforce_loop_sent in Hloop.
    destruct Hloop as [_ [k [Hk Hs1]]].
    cbn [CanActions.set_running CanActions.bus_sent] in Hs1.
    cbn [bind] in Hrun. cbv iota beta in Hrun.
    assert (Hsent : CanActions.bus_sent self' = CanActions.bus_sent s1).
    { destruct returned; [injection Hrun as <-; reflexivity|].
      destruct callback_end; [|injection Hrun as <-; reflexivity].
      unfold CanActions.clear_listeners, CanActions.with_listeners in Hrun.
      destruct (CanActions.notifier s1); [|discriminate Hrun].
      cbn in Hrun. injection Hrun as <-. reflexivity. }
    exists (Wire.probes data first k). split; [congruence|].
    apply List.Forall_forall. intros m Hm.
    apply probes_ids in Hm. destruct Hm as [Hid [Hext Hdata]].
    split; [lia|]. split; [exact Hdata|].
    rewrite Hext. subst last. unfold constants.ARBITRATION_ID_MAX,
      constants.ARBITRATION_ID_MAX_EXTENDED in *.
    destruct (Z.leb_spec first 2047).
    + replace (first >? 2047) with false by (symmetry; lia).
      split; lia.
    + replace (first >? 2047) with true by (symmetry; lia).
      split; lia.
Qed.

Lemma bruteforce_default_range_witness :
  CanActions.bruteforce_arbitration_id (fun id : Z => id) (fun id => id =? 0x7FE)
    (CanActions.__init__ None true) [0xFF] (Some 0x7FD) None true
  = Ok (CanActions.mkCanActions None false (Some [])
          (Wire.probes [0xFF] 0x7FD 2) [])
  /\ exists sent,
       Wire.probes [0xFF] 0x7FD 2 = [] ++ sent
       /\ Forall (fun m =>
                    0x7FD <= can.arbitration_id m
                    /\ can.data m = [0xFF]
                    /\ can.is_extended_id m = false
                    /\ can.arbitration_id m <= 0x7FF)
                 sent.
Proof.
  assert (Hrun : CanActions.bruteforce_arbitration_id (fun id : Z => id)
                   (fun id => id =? 0x7FE)
                   (CanActions.__init__ None true) [0xFF] (Some 0x7FD) None true
                 = Ok (CanActions.mkCanActions None false (Some [])
                         (Wire.probes [0xFF] 0x7FD 2) []))
    by reflexivity.
  split; [exact Hrun|].
  exact (bruteforce_default_range (fun id : Z => id) (fun id => id =? 0x7FE)
           _ _ [0xFF] (Some 0x7FD) true Hrun).
Defined.

(** ** The byte bruteforce *)

Section BruteforceData.
Import CanActions Wire.
Context {listener : Type} (callback : Z -> listener) (stop : Z -> bool).

Lemma values_from_S (first : Z) (count : nat) :
  values_from first (S count) = first :: values_from (first + 1) count.
Proof.
  unfold values_from. cbn [seq map]. rewrite <- seq_shift, map_map.
  f_equal.
  - change (Z.of_nat 0) with 0. lia.
  - apply map_ext. intros k. lia.
Qed.

Lemma value_probes_S (a : Z) (data : list Z) (k : nat) (first : Z) (count : nat) :
  value_probes a data k first (S count)
  = can.mkMessage a (<[k := first]> data)
      (a >? constants.ARBITRATION_ID_MAX) false false
    :: value_probes a data k (first + 1) count.
Proof. unfold value_probes. rewrite values_from_S. reflexivity. Qed.

Lemma value_probes_insert (a : Z) (data : list Z) (k : nat) (v first : Z)
    (count : nat) :
  value_probes a (<[k := v]> data) k first count = value_probes a data k first count.
Proof.
  unfold value_probes. apply map_ext. intros w.
  rewrite list_insert_insert_eq. reflexivity.
Qed.

Lemma len_insert (data : list Z) (k : nat) (v : Z) : len (<[k := v]> data) = len data.
Proof. unfold len. rewrite length_insert. reflexivity. Qed.

(** With no stop request the loop goes through all the values; the caller's
    [data] ends with the last value at the index. *)
Lemma bruteforce_data_loop_complete (bruteforce_index : Z) (k : nat) (a : Z)
    (count : nat) :
  forall (value : Z) (data : list Z) (self : CanActions.t listener)
         (ls : list listener),
    notifier self = Some ls ->
    bruteforce_running self = true ->
    arb_id self = Some a ->
    py_index (len data) bruteforce_index = Some k ->
    len data <= 8 ->
    (forall v, value <= v < value + Z.of_nat (S count) -> stop v = false) ->
    exists self',
      bruteforce_data_loop callback stop (S count) value data bruteforce_index self
      = Ok (self', <[k := value + Z.of_nat count]> data, false)
      /\ notifier self' = Some [callback (value + Z.of_nat count)]
      /\ bruteforce_running self' = true
      /\ bus_sent self' = bus_sent self ++ value_probes a data k value (S count).
Proof.
  induction count as [|count IH];
    intros value data self ls Hnot Hrunning Harb Hidx Hlen Hstop.
  - cbn [bruteforce_data_loop]. unfold with_listeners at 1. rewrite Hnot.
    cbn [bind]. unfold setitem. rewrite Hidx. cbn [bind].
    unfold send. rewrite len_insert.
    replace (len data >? 8) with false by (symmetry; lia).
    unfold self_arb_id. cbn [arb_id]. rewrite Harb. cbn [bind]. cbv zeta.
    rewrite (Hstop value) by lia.
    cbn [bruteforce_running bus_send]. rewrite Hrunning. cbn [negb].
    change (Z.of_nat 0) with 0. rewrite Z.add_0_r.
    eexists. split; [reflexivity|]. split; [reflexivity|].
    split; [reflexivity|]. rewrite value_probes_S. reflexivity.
  - remember (S count) as n eqn:Hn.
    cbn [bruteforce_data_loop]. unfold with_listeners at 1. rewrite Hnot.
    cbn [bind]. unfold setitem at 1. rewrite Hidx. cbn [bind].
    unfold send at 1. rewrite len_insert.
    replace (len data >? 8) with false by (symmetry; lia).
    unfold self_arb_id. cbn [arb_id]. rewrite Harb. cbn [bind]. cbv zeta.
    rewrite (Hstop value) by lia.
    cbn [bruteforce_running bus_send]. rewrite Hrunning. cbn [negb].
    subst n.
    match goal with
    | |- context [bruteforce_data_loop _ _ _ _ _ _ ?s] =>
        destruct (IH (value + 1) (<[k := value]> data) s [callback value])
          as [self' [Hrun [Hls [Hflag Hsent]]]];
          [ | | | | | | exists self'; split; [|split; [|split]] ]
    end.
    + reflexivity.
    + reflexivity.
    + reflexivity.
    + rewrite len_insert. exact Hidx.
    + rewrite len_insert. exact Hlen.
    + intros v Hv. apply Hstop. lia.
    + rewrite Hrun. rewrite list_insert_insert_eq.
      replace (value + 1 + Z.of_nat count) with (value + Z.of_nat (S count)) by lia.
      reflexivity.
    + rewrite Hls. do 3 f_equal. lia.
    + exact Hflag.
    + rewrite Hsent. cbn [bus_sent bus_send]. rewrite value_probes_insert.
      rewrite (value_probes_S a data k value (S count)), <- app_assoc.
      reflexivity.
Qed.

(** The first stop request ends the loop after the frame of its value, with
    the listeners cleared. *)
Lemma bruteforce_data_loop_stopped (bruteforce_index : Z) (k : nat) (a : Z)
    (count : nat) :
  forall (value : Z) (data : list Z) (self : CanActions.t listener)
         (ls : list listener) (j : nat),
    notifier self = Some ls ->
    bruteforce_running self = true ->
    arb_id self = Some a ->
    py_index (len data) bruteforce_index = Some k ->
    len data <= 8 ->
    (j < count)%nat ->
    (forall v, value <= v < value + Z.of_nat j -> stop v = false) ->
    stop (value + Z.of_nat j) = true ->
    exists self',
      bruteforce_data_loop callback stop count value data bruteforce_index self
      = Ok (self', <[k := value + Z.of_nat j]> data, true)
      /\ notifier self' = Some []
      /\ bruteforce_running self' = false
      /\ bus_sent self' = bus_sent self ++ value_probes a data k value (S j).
Proof.
  induction count as [|count IH];
    intros value data self ls j Hnot Hrunning Harb Hidx Hlen Hj Hbefore Hat; [lia|].
  cbn [bruteforce_data_loop]. unfold with_listeners at 1. rewrite Hnot.
  cbn [bind]. unfold setitem at 1. rewrite Hidx. cbn [bind].
  unfold send at 1. rewrite len_insert.
  replace (len data >? 8) with false by (symmetry; lia).
  unfold self_arb_id. cbn [arb_id]. rewrite Harb. cbn [bind]. cbv zeta.
  destruct j as [|j].
  - change (Z.of_nat 0) with 0 in *. rewrite Z.add_0_r in *. rewrite Hat.
    unfold bruteforce_stop, set_running, bus_send, with_listeners.
    cbn [bruteforce_running negb notifier bind arb_id bus_sent end_calls].
    eexists. split; [reflexivity|].
    cbn [bruteforce_running notifier bus_sent end_calls].
    rewrite value_probes_S. repeat split.
  - rewrite (Hbefore value) by lia.
    cbn [bruteforce_running bus_send]. rewrite Hrunning. cbn [negb].
    match goal with
    | |- context [bruteforce_data_loop _ _ _ _ _ _ ?s] =>
        destruct (IH (value + 1) (<[k := value]> data) s [callback value] j)
          as [self' [Hrun [Hls [Hflag Hsent]]]];
          [ | | | | | | | | exists self'; split; [|split; [|split]] ]
    end.
    + reflexivity.
    + reflexivity.
    + reflexivity.
    + rewrite len_insert. exact Hidx.
    + rewrite len_insert. exact Hlen.
    + lia.
    + intros v Hv. apply Hbefore. lia.
    + replace (value + 1 + Z.of_nat j) with (value + Z.of_nat (S j)) by lia.
      exact Hat.
    + rewrite Hrun. rewrite list_insert_insert_eq.
      replace (value + 1 + Z.of_nat j) with (value + Z.of_nat (S j)) by lia.
      reflexivity.
    + exact Hls.
    + exact Hflag.
    + rewrite Hsent. cbn [bus_sent bus_send]. rewrite value_probes_insert.
      rewrite (value_probes_S a data k value (S j)), <- app_assoc.
      reflexivity.
Qed.

End BruteforceData.

(** X16: [bruteforce_data] with a valid index, at most 8 data bytes and an
    instance arbitration ID sends, for each value of the range in turn, one
    frame whose data is [data] with that value at the index.  Run through,
    it leaves the last value in the caller's [data] and calls
    [callback_end] (clearing the listeners) when one was given, otherwise
    the listener of the last value stays installed; stopped during the
    iteration of some value, it ends after that iteration with the
    listeners cleared and [callback_end] not called. *)
Theorem bruteforce_data_run {listener : Type} (callback : Z -> listener)
    (stop : Z -> bool) (self : CanActions.t listener) (ls : list listener)
    (data : list Z) (bruteforce_index : Z) (k : nat) (a : Z)
    (min_value max_value : Z) :
  CanActions.notifier self = Some ls ->
  CanActions.arb_id self = Some a ->
  py_index (len data) bruteforce_index = Some k ->
  len data <= 8 ->
  min_value <= max_value ->
  ((forall v, min_value <= v <= max_value -> stop v = false) ->
   forall callback_end : bool,
   exists self',
     CanActions.bruteforce_data callback stop self data bruteforce_index
       min_value max_value callback_end
     = Ok (self', <[k := max_value]> data, callback_end)
     /\ CanActions.notifier self'
        = Some (if callback_end then [] else [callback max_value])
     /\ CanActions.bus_sent self'
        = CanActions.bus_sent self
            ++ Wire.value_probes a data k min_value
                 (Z.to_nat (max_value + 1 - min_value)))
  /\ (forall (j : Z) (callback_end : bool),
        min_value <= j <= max_value ->
        (forall v, min_value <= v < j -> stop v = false) ->
        stop j = true ->
        exists self',
          CanActions.bruteforce_data callback stop self data bruteforce_index
            min_value max_value callback_end
          = Ok (self', <[k := j]> data, false)
          /\ CanActions.notifier self' = Some []
          /\ CanActions.bruteforce_running self' = false
          /\ CanActions.bus_sent self'
             = CanActions.bus_sent self
                 ++ Wire.value_probes a data k min_value
                      (Z.to_nat (j + 1 - min_value))).
Proof.
  intros Hnot Harb Hidx Hlen Hrange. split.
  - intros Hstop callback_end. unfold CanActions.bruteforce_data.
    replace (Z.to_nat (max_value + 1 - min_value))
      with (S (Z.to_nat (max_value - min_value))) by lia.
    destruct (bruteforce_data_loop_complete callback stop bruteforce_index k a
                (Z.to_nat (max_value - min_value)) min_value data
                (CanActions.set_running self true) ls Hnot eq_refl Harb Hidx Hlen)
      as [s1 [Hrun [Hls1 [Hflag Hsent]]]].
    { intros v Hv. apply Hstop. lia. }
    rewrite Hrun. cbn [bind]. cbv iota beta.
    replace (min_value + Z.of_nat (Z.to_nat (max_value - min_value)))
      with max_value in * by lia.
    destruct callback_end.
    + unfold CanActions.with_listeners. rewrite Hls1. cbn [bind].
      eexists. split; [reflexivity|]. split; [reflexivity|]. exact Hsent.
    + exists s1. split; [reflexivity|]. split; [exact Hls1|]. exact Hsent.
  - intros j callback_end Hj Hbefore Hat. unfold CanActions.bruteforce_data.
    destruct (bruteforce_data_loop_stopped callback stop bruteforce_index k a
                (Z.to_nat (max_value + 1 - min_value)) min_value data
                (CanActions.set_running self true) ls (Z.to_nat (j - min_value))
                Hnot eq_refl Harb Hidx Hlen)
      as [s1 [Hrun [Hls1 [Hflag Hsent]]]].
    { lia. }
    { intros v Hv. apply Hbefore. lia. }
    { replace (min_value + Z.of_nat (Z.to_nat (j - min_value))) with j by lia.
      exact Hat. }
    rewrite Hrun. cbn [bind]. cbv iota beta.
    replace (min_value + Z.of_nat (Z.to_nat (j - min_value))) with j by lia.
    exists s1. split; [reflexivity|]. split; [exact Hls1|].
    split; [exact Hflag|]. rewrite Hsent.
    cbn [CanActions.set_running CanActions.bus_sent]. do 2 f_equal. lia.
Qed.

Lemma bruteforce_data_run_witness :
  (CanActions.notifier (CanActions.__init__ (listener := Z) (Some 0x7DF) true) = Some []
   /\ CanActions.arb_id (CanActions.__init__ (listener := Z) (Some 0x7DF) true)
      = Some 0x7DF
   /\ py_index (len [0x02; 0x10; 0x00]) (-1) = Some 2%nat
   /\ len [0x02; 0x10; 0x00] <= 8
   /\ 0x01 <= 0x03
   /\ 0x01 <= 0x02 <= 0x03
   /\ (forall v, 0x01 <= v < 0x02 -> (v =? 0x02) = false)
   /\ (0x02 =? 0x02) = true)
  /\ exists self',
       CanActions.bruteforce_data (fun v => v) (fun v => v =? 0x02)
         (CanActions.__init__ (Some 0x7DF) true) [0x02; 0x10; 0x00] (-1)
         0x01 0x03 true
       = Ok (self', <[2%nat := 0x02]> [0x02; 0x10; 0x00], false)
       /\ CanActions.notifier self' = Some []
       /\ CanActions.bruteforce_running self' = false
       /\ CanActions.bus_sent self'
          = [] ++ Wire.value_probes 0x7DF [0x02; 0x10; 0x00] 2 0x01
                    (Z.to_nat (0x02 + 1 - 0x01)).
Proof.
  assert (Hnot : CanActions.notifier
                   (CanActions.__init__ (listener := Z) (Some 0x7DF) true) = Some [])
    by reflexivity.
  assert (Harb : CanActions.arb_id
                   (CanActions.__init__ (listener := Z) (Some 0x7DF) true) = Some 0x7DF)
    by reflexivity.
  assert (Hidx : py_index (len [0x02; 0x10; 0x00]) (-1) = Some 2%nat) by reflexivity.
  assert (Hlen : len [0x02; 0x10; 0x00] <= 8) by (vm_compute; discriminate).
  assert (Hrange : 0x01 <= 0x03) by lia.
  assert (Hj : 0x01 <= 0x02 <= 0x03) by lia.
  assert (Hbefore : forall v, 0x01 <= v < 0x02 -> (v =? 0x02) = false)
    by (intros v Hv; apply Z.eqb_neq; lia).
  assert (Hat : (0x02 =? 0x02) = true) by reflexivity.
  split; [repeat split; assumption || lia|].
  exact (proj2 (bruteforce_data_run (fun v => v) (fun v => v =? 0x02)
                  (CanActions.__init__ (Some 0x7DF) true) [] [0x02; 0x10; 0x00]
                  (-1) 2 0x7DF 0x01 0x03 Hnot Harb Hidx Hlen Hrange)
               0x02 true Hj Hbefore Hat).
Defined.

(** X17: the errors of [bruteforce_data] over a non-empty range all come up
    in the first iteration, in this order: [AttributeError] when the
    notifier is disabled, [IndexError] when the index is outside [data],
    [IndexError] when [data] has more than 8 bytes, [ValueError] when the
    instance has no arbitration ID. *)
Theorem bruteforce_data_errors {listener : Type} (callback : Z -> listener)
    (stop : Z -> bool) (self : CanActions.t listener) (data : list Z)
    (bruteforce_index : Z) (min_value max_value : Z) (callback_end : bool) :
  min_value <= max_value ->
  (CanActions.notifier self = None ->
   CanActions.bruteforce_data callback stop self data bruteforce_index
     min_value max_value callback_end = Raise AttributeError)
  /\ (CanActions.notifier self <> None ->
      py_index (len data) bruteforce_index = None ->
      CanActions.bruteforce_data callback stop self data bruteforce_index
        min_value max_value callback_end = Raise IndexError)
  /\ (CanActions.notifier self <> None ->
      py_index (len data) bruteforce_index <> None ->
      8 < len data ->
      CanActions.bruteforce_data callback stop self data bruteforce_index
        min_value max_value callback_end = Raise IndexError)
  /\ (CanActions.notifier self <> None ->
      py_index (len data) bruteforce_index <> None ->
      len data <= 8 ->
      CanActions.arb_id self = None ->
      CanActions.bruteforce_data callback stop self data bruteforce_index
        min_value max_value callback_end = Raise ValueError).
Proof.
  intros Hrange. unfold CanActions.bruteforce_data.
  replace (Z.to_nat (max_value + 1 - min_value))
    with (S (Z.to_nat (max_value - min_value))) by lia.
  cbn [CanActions.bruteforce_data_loop].
  unfold CanActions.with_listeners.
  cbn [CanActions.set_running CanActions.notifier].
  split; [|split; [|split]].
  - intros ->. reflexivity.
  - intros Hnot Hidx. destruct (CanActions.notifier self); [|congruence].
    cbn [bind]. unfold setitem. rewrite Hidx. reflexivity.
  - intros Hnot Hidx Hlen. destruct (CanActions.notifier self); [|congruence].
    cbn [bind]. unfold setitem.
    destruct (py_index (len data) bruteforce_index) as [k|]; [|congruence].
    cbn [bind]. unfold CanActions.send. unfold len at 1. rewrite length_insert.
    fold (len data). replace (len data >? 8) with true by (symmetry; lia).
    reflexivity.
  - intros Hnot Hidx Hlen Harb. destruct (CanActions.notifier self); [|congruence].
    cbn [bind]. unfold setitem.
    destruct (py_index (len data) bruteforce_index) as [k|]; [|congruence].
    cbn [bind]. unfold CanActions.send. unfold len at 1. rewrite length_insert.
    fold (len data). replace (len data >? 8) with false by (symmetry; lia).
    unfold CanActions.self_arb_id. cbn [CanActions.arb_id CanActions.set_running].
    rewrite Harb. reflexivity.
Qed.

Lemma bruteforce_data_errors_witness :
  0x00 <= 0xFF
  /\ (CanActions.notifier (CanActions.__init__ (listener := Z) None true) <> None
      /\ py_index (len [0x01; 0x02]) 2 = None)
  /\ CanActions.bruteforce_data (fun v => v) (fun _ => false)
       (CanActions.__init__ None true) [0x01; 0x02] 2 0x00 0xFF false
     = Raise IndexError.
Proof.
  assert (Hrange : 0x00 <= 0xFF) by lia.
  assert (Hnot : CanActions.notifier (CanActions.__init__ (listener := Z) None true)
                 <> None) by discriminate.
  assert (Hidx : py_index (len [0x01; 0x02]) 2 = None) by reflexivity.
  split; [exact Hrange|]. split; [split; assumption|].
  exact (proj1 (proj2 (bruteforce_data_errors (fun v => v) (fun _ => false)
                         (CanActions.__init__ None true) [0x01; 0x02] 2
                         0x00 0xFF false Hrange))
               Hnot Hidx).
Defined.

(** ** The bruteforce of several bytes *)

Section BruteforceDataNew.
Import CanActions Wire.
Context {listener : Type} (callback_values : list Z -> listener)
        (stop_values : list Z -> bool).

Lemma py_index_lt (n i : Z) (k : nat) : py_index n i = Some k -> Z.of_nat k < n.
Proof.
  unfold py_index.
  destruct (Z.leb_spec 0 i), (Z.ltb_spec i n); cbn [andb];
    try (intros [= <-]; lia);
    destruct (Z.leb_spec (- n) i), (Z.ltb_spec i 0); cbn [andb];
    try discriminate; intros [= <-]; lia.
Qed.

Lemma agree_off_refl (ks : list nat) (d : list Z) : agree_off ks d d.
Proof. split; reflexivity. Qed.

Lemma agree_off_trans (ks : list nat) (d1 d2 d3 : list Z) :
  agree_off ks d1 d2 -> agree_off ks d2 d3 -> agree_off ks d1 d3.
Proof.
  intros [Hl1 H1] [Hl2 H2]. split; [congruence|].
  intros p Hp. rewrite H1, H2 by exact Hp. reflexivity.
Qed.

Lemma agree_off_cons (k : nat) (ks : list nat) (d1 d2 : list Z) :
  agree_off ks d1 d2 -> agree_off (k :: ks) d1 d2.
Proof.
  intros [Hl H]. split; [exact Hl|]. intros p Hp. apply H.
  intros Hin. apply Hp. right. exact Hin.
Qed.

Lemma agree_off_insert (k : nat) (ks : list nat) (v : Z) (d1 d2 : list Z) :
  agree_off (k :: ks) d1 d2 -> agree_off ks (<[k := v]> d1) (<[k := v]> d2).
Proof.
  intros [Hl H]. split; [rewrite !length_insert; exact Hl|].
  intros p Hp. destruct (Nat.eq_dec k p) as [<- | Hne].
  - destruct (Nat.lt_ge_cases k (length d1)) as [Hlt | Hge].
    + rewrite !list_lookup_insert_eq by lia. reflexivity.
    + rewrite !lookup_ge_None_2 by (rewrite length_insert; lia). reflexivity.
  - rewrite !list_lookup_insert_ne by exact Hne. apply H.
    intros [Heq | Hin]; [exact (Hne Heq) | exact (Hp Hin)].
Qed.

Lemma agree_off_nil (d1 d2 : list Z) : agree_off [] d1 d2 -> d1 = d2.
Proof. intros [_ H]. apply list_eq. intros p. apply H. intros []. Qed.

(** The assignments make the positions they write forget what was there. *)
Lemma assign_agree (ks : list nat) :
  forall (vs : list Z) (d1 d2 : list Z),
    length vs = length ks -> agree_off ks d1 d2 -> assign ks vs d1 = assign ks vs d2.
Proof.
  induction ks as [|k ks IH]; intros vs d1 d2 Hlen Hagree.
  - destruct vs; [|discriminate Hlen]. cbn. apply agree_off_nil. exact Hagree.
  - destruct vs as [|v vs]; [discriminate Hlen|]. cbn [assign].
    apply IH; [cbn in Hlen; lia|]. apply agree_off_insert. exact Hagree.
Qed.

Lemma assign_agree_off (ks : list nat) :
  forall (vs : list Z) (d : list Z), agree_off ks (assign ks vs d) d.
Proof.
  induction ks as [|k ks IH]; intros vs d; [apply agree_off_refl|].
  destruct vs as [|v vs]; [apply agree_off_refl|]. cbn [assign].
  apply agree_off_trans with (<[k := v]> d).
  - apply agree_off_cons, IH.
  - split; [apply length_insert|]. intros p Hp.
    apply list_lookup_insert_ne. intros ->. apply Hp. left. reflexivity.
Qed.

Lemma tuples_length (values : list Z) (n : nat) (t : list Z) :
  In t (tuples values n) -> length t = n.
Proof.
  revert t. induction n as [|n IH]; intros t Ht.
  - destruct Ht as [<- | []]. reflexivity.
  - cbn [tuples] in Ht. apply in_flat_map in Ht.
    destruct Ht as [v [_ Ht]]. apply in_map_iff in Ht.
    destruct Ht as [t' [<- Ht']]. cbn. f_equal. apply IH. exact Ht'.
Qed.

Lemma tuples_count (values : list Z) (n : nat) :
  length (tuples values n) = (length values ^ n)%nat.
Proof.
  induction n as [|n IH]; [reflexivity|].
  cbn [tuples Nat.pow].
  assert (H : forall l : list Z,
             length (flat_map (fun v => map (cons v) (tuples values n)) l)
             = (length l * length (tuples values n))%nat).
  { induction l as [|x l IHl]; [reflexivity|].
    cbn [flat_map]. rewrite length_app, length_map, IHl. cbn. lia. }
  rewrite H, IH. reflexivity.
Qed.

Lemma values_from_length (first : Z) (count : nat) :
  length (values_from first count) = count.
Proof. unfold values_from. rewrite length_map, length_seq. reflexivity. Qed.

(** Reading the bruteforced bytes back succeeds. *)
Lemma getitems_ok (d : list Z) (idxs : list Z) (ks : list nat) :
  Forall2 (fun i k => py_index (len d) i = Some k) idxs ks ->
  exists values, getitems d idxs = Ok values.
Proof.
  induction 1 as [|i k idxs ks Hi _ [values IH]]; [exists []; reflexivity|].
  cbn [getitems]. unfold getitem. rewrite Hi.
  apply py_index_lt in Hi. unfold len in Hi.
  destruct (lookup_lt_is_Some_2 d k) as [x Hx]; [lia|].
  rewrite Hx. cbn [bind]. rewrite IH. cbn [bind]. eauto.
Qed.

(** The inner [send]: one frame with the data as it is now, whatever the
    flag says. *)
Lemma data_new_send_spec (d : list Z) (idxs : list Z) (ks : list nat)
    (self : CanActions.t listener) (ls : list listener) (a : Z) :
  Forall2 (fun i k => py_index (len d) i = Some k) idxs ks ->
  notifier self = Some ls ->
  arb_id self = Some a ->
  len d <= 8 ->
  exists self' ls',
    data_new_send callback_values stop_values d idxs self = Ok self'
    /\ notifier self' = Some ls'
    /\ arb_id self' = Some a
    /\ bus_sent self'
       = bus_sent self
           ++ [can.mkMessage a d (a >? constants.ARBITRATION_ID_MAX) false false].
Proof.
  intros Hidx Hnot Harb Hlen. unfold data_new_send.
  destruct (getitems_ok d idxs ks Hidx) as [values ->]. cbn [bind].
  unfold with_listeners at 1. rewrite Hnot. cbn [bind].
  unfold send. replace (len d >? 8) with false by (symmetry; lia).
  unfold self_arb_id. cbn [arb_id]. rewrite Harb. cbn [bind]. cbv zeta.
  unfold with_listeners, bruteforce_stop, set_running, bus_send.
  destruct (stop_values values);
    cbn [bruteforce_running negb notifier arb_id bus_sent end_calls];
    [|destruct (bruteforce_running self); cbn [negb]];
    do 2 eexists; (split; [reflexivity|]); repeat split.
Qed.

Lemma agree_off_insert_self (k : nat) (ks : list nat) (v : Z) (d : list Z) :
  agree_off (k :: ks) (<[k := v]> d) d.
Proof.
  split; [apply length_insert|]. intros p Hp.
  apply list_lookup_insert_ne. intros ->. apply Hp. left. reflexivity.
Qed.

Lemma zero_indices_spec (L : nat) (idxs : list Z) (ks : list nat) :
  Forall2 (fun i k => py_index (Z.of_nat L) i = Some k) idxs ks ->
  forall d : list Z,
    length d = L ->
    zero_indices idxs d = Ok (assign ks (replicate (length ks) 0) d).
Proof.
  induction 1 as [|i k idxs ks Hi _ IH]; intros d Hd; [reflexivity|].
  cbn [zero_indices length replicate assign]. unfold setitem, len.
  rewrite Hd, Hi. cbn [bind]. apply IH. rewrite length_insert. exact Hd.
Qed.

(** The recursion over the indices sends one frame for each tuple of
    values, in order, each holding the data with the tuple written to the
    positions. *)
Lemma data_new_bruteforce_spec (bruteforce_indices : list Z) (allks : list nat)
    (L : nat) (a : Z) (min_value max_value : Z) :
  Z.of_nat L <= 8 ->
  Forall2 (fun i k => py_index (Z.of_nat L) i = Some k) bruteforce_indices allks ->
  forall (indices : list Z) (rs : list nat),
    Forall2 (fun i k => py_index (Z.of_nat L) i = Some k) indices rs ->
    forall (d : list Z) (self : CanActions.t listener) (ls : list listener),
      length d = L ->
      notifier self = Some ls ->
      arb_id self = Some a ->
      exists d' self' ls',
        data_new_bruteforce callback_values stop_values indices
          bruteforce_indices min_value max_value (d, self) = Ok (d', self')
        /\ agree_off rs d' d
        /\ notifier self' = Some ls'
        /\ arb_id self' = Some a
        /\ bus_sent self'
           = bus_sent self
               ++ map (fun t => can.mkMessage a (assign rs t d)
                                  (a >? constants.ARBITRATION_ID_MAX) false false)
                      (tuples (values_from min_value
                                 (Z.to_nat (max_value + 1 - min_value)))
                              (length rs)).
Proof.
  intros HL Hall.
  induction 1 as [|i k indices rs Hi Hrest IH]; intros d self ls Hd Hnot Harb.
  - cbn [data_new_bruteforce fst snd].
    destruct (data_new_send_spec d bruteforce_indices allks self ls a)
      as [self' [ls' [Hrun [Hnot' [Harb' Hsent]]]]];
      [unfold len; rewrite Hd; exact Hall | exact Hnot | exact Harb
       | unfold len; lia |].
    rewrite Hrun. cbn [bind].
    exists d, self', ls'. split; [reflexivity|].
    split; [apply agree_off_refl|]. split; [exact Hnot'|].
    split; [exact Harb'|]. exact Hsent.
  - cbn [data_new_bruteforce length tuples]. unfold for_in_range.
    set (T := tuples (values_from min_value
                        (Z.to_nat (max_value + 1 - min_value))) (length rs)).
    assert (Hloop : forall (c : nat) (v : Z) (d dc : list Z)
                           (selfc : CanActions.t listener) (lsc : list listener),
               length d = L ->
               agree_off (k :: rs) dc d ->
               notifier selfc = Some lsc ->
               arb_id selfc = Some a ->
               exists d' self' ls',
                 for_range v c
                   (fun i0 s =>
                      data <- setitem (fst s) i i0 ;;
                      data_new_bruteforce callback_values stop_values indices
                        bruteforce_indices min_value max_value (data, snd s))
                   (dc, selfc) = Ok (d', self')
                 /\ agree_off (k :: rs) d' d
                 /\ notifier self' = Some ls'
                 /\ arb_id self' = Some a
                 /\ bus_sent self'
                    = bus_sent selfc
                        ++ map (fun t => can.mkMessage a (assign (k :: rs) t d)
                                  (a >? constants.ARBITRATION_ID_MAX) false false)
                             (flat_map (fun x => map (cons x) T) (values_from v c))).
    { clear d self ls Hd Hnot Harb.
      induction c as [|c IHc]; intros v d dc selfc lsc Hd Hagree Hnot Harb.
      - cbn [for_range]. exists dc, selfc, lsc. split; [reflexivity|].
        split; [exact Hagree|]. split; [exact Hnot|]. split; [exact Harb|].
        cbn. rewrite app_nil_r. reflexivity.
      - cbn [for_range fst snd]. unfold setitem, len.
        rewrite (proj1 Hagree), Hd, Hi. cbn [bind].
        destruct (IH (<[k := v]> dc) selfc lsc)
          as [d1 [self1 [ls1 [Hrun [Hagree1 [Hnot1 [Harb1 Hsent1]]]]]]];
          [rewrite length_insert, (proj1 Hagree); exact Hd | exact Hnot | exact Harb |].
        rewrite Hrun. cbn [bind].
        destruct (IHc (v + 1) d d1 self1 ls1)
          as [d' [self' [ls' [Hrun' [Hagree' [Hnot' [Harb' Hsent']]]]]]];
          [exact Hd | | exact Hnot1 | exact Harb1 |].
        { apply agree_off_trans with (<[k := v]> dc);
            [apply agree_off_cons; exact Hagree1|].
          apply agree_off_trans with dc;
            [apply agree_off_insert_self | exact Hagree]. }
        exists d', self', ls'. split; [exact Hrun'|].
        split; [exact Hagree'|]. split; [exact Hnot'|]. split; [exact Harb'|].
        rewrite Hsent', Hsent1, <- app_assoc. f_equal.
        rewrite values_from_S. cbn [flat_map]. rewrite map_app, map_map.
        f_equal. apply map_ext_in. intros t Ht. cbn [assign].
        f_equal. apply assign_agree.
        + apply tuples_length in Ht. exact Ht.
        + apply agree_off_insert. exact Hagree. }
    apply (Hloop (Z.to_nat (max_value + 1 - min_value)) min_value d d self ls
                 Hd (agree_off_refl _ _) Hnot Harb).
Qed.

End BruteforceDataNew.

(** X18: [bruteforce_data_new] with valid indices, at most 8 data bytes and
    an instance arbitration ID sends one frame for every combination of
    values at the bruteforced positions, the first index varying slowest:
    [(max_value - min_value + 1) ^ len(bruteforce_indices)] frames.  It
    does so whatever the stop flag says, and the bytes at the other
    positions of the caller's [data] are left as they were. *)
Theorem bruteforce_data_new_frames {listener : Type}
    (callback_values : list Z -> listener) (stop_values : list Z -> bool)
    (self : CanActions.t listener) (ls : list listener) (data : list Z)
    (bruteforce_indices : list Z) (ks : list nat) (a : Z)
    (min_value max_value : Z) (callback_done : bool) :
  CanActions.notifier self = Some ls ->
  CanActions.arb_id self = Some a ->
  len data <= 8 ->
  Forall2 (fun i k => py_index (len data) i = Some k) bruteforce_indices ks ->
  exists self' data',
    CanActions.bruteforce_data_new callback_values stop_values self data
      bruteforce_indices min_value max_value callback_done
    = Ok (self', data', callback_done)
    /\ Wire.agree_off ks data' data
    /\ CanActions.bus_sent self'
       = CanActions.bus_sent self
           ++ map (fun t => can.mkMessage a (Wire.assign ks t data)
                              (a >? constants.ARBITRATION_ID_MAX) false false)
                  (Wire.tuples (Wire.values_from min_value
                                  (Z.to_nat (max_value + 1 - min_value)))
                               (length ks))
    /\ length (CanActions.bus_sent self')
       = (length (CanActions.bus_sent self)
          + Z.to_nat (max_value + 1 - min_value) ^ length bruteforce_indices)%nat.
Proof.
  intros Hnot Harb Hlen Hidx. unfold CanActions.bruteforce_data_new.
  unfold len in Hidx, Hlen.
  rewrite (zero_indices_spec (length data) bruteforce_indices ks Hidx data eq_refl).
  cbn [bind].
  pose proof (Wire_assign_zero := assign_agree_off ks
                (replicate (length ks) 0) data).
  destruct (data_new_bruteforce_spec callback_values stop_values
              bruteforce_indices ks (length data) a min_value max_value
              Hlen Hidx bruteforce_indices ks Hidx
              (Wire.assign ks (replicate (length ks) 0) data) self ls
              (proj1 Wire_assign_zero) Hnot Harb)
    as [d' [self' [ls' [Hrun [Hagree [_ [_ Hsent]]]]]]].
  rewrite Hrun. cbn [bind fst snd].
  assert (Hframes :
            CanActions.bus_sent self'
            = CanActions.bus_sent self
                ++ map (fun t => can.mkMessage a (Wire.assign ks t data)
                                   (a >? constants.ARBITRATION_ID_MAX) false false)
                       (Wire.tuples (Wire.values_from min_value
                                       (Z.to_nat (max_value + 1 - min_value)))
                                    (length ks))).
  { rewrite Hsent. f_equal. apply map_ext_in. intros t Ht. f_equal.
    apply assign_agree; [|exact Wire_assign_zero].
    apply tuples_length in Ht. exact Ht. }
  exists self', d'. split; [reflexivity|].
  split; [exact (agree_off_trans _ _ _ _ Hagree Wire_assign_zero)|].
  split; [exact Hframes|].
  rewrite Hframes, length_app, length_map, tuples_count, values_from_length.
  rewrite (Forall2_length _ _ _ Hidx). reflexivity.
Qed.

Lemma bruteforce_data_new_frames_witness :
  (CanActions.notifier (CanActions.__init__ (listener := list Z) (Some 0x7DF) true)
   = Some []
   /\ CanActions.arb_id (CanActions.__init__ (listener := list Z) (Some 0x7DF) true)
      = Some 0x7DF
   /\ len [0x02; 0x27; 0xAA; 0xBB] <= 8
   /\ Forall2 (fun i k => py_index (len [0x02; 0x27; 0xAA; 0xBB]) i = Some k)
        [2; -1] [2%nat; 3%nat])
  /\ exists self' data',
       CanActions.bruteforce_data_new (fun vs => vs) (fun _ => true)
         (CanActions.__init__ (Some 0x7DF) true) [0x02; 0x27; 0xAA; 0xBB]
         [2; -1] 0x00 0x01 true
       = Ok (self', data', true)
       /\ Wire.agree_off [2%nat; 3%nat] data' [0x02; 0x27; 0xAA; 0xBB]
       /\ CanActions.bus_sent self'
          = [] ++ map (fun t => can.mkMessage 0x7DF
                                  (Wire.assign [2%nat; 3%nat] t [0x02; 0x27; 0xAA; 0xBB])
                                  (0x7DF >? constants.ARBITRATION_ID_MAX) false false)
                      (Wire.tuples (Wire.values_from 0x00 (Z.to_nat (0x01 + 1 - 0x00)))
                                   2)
       /\ length (CanActions.bus_sent self') = (0 + 2 ^ 2)%nat.
Proof.
  assert (Hnot : CanActions.notifier
                   (CanActions.__init__ (listener := list Z) (Some 0x7DF) true)
                 = Some []) by reflexivity.
  assert (Harb : CanActions.arb_id
                   (CanActions.__init__ (listener := list Z) (Some 0x7DF) true)
                 = Some 0x7DF) by reflexivity.
  assert (Hlen : len [0x02; 0x27; 0xAA; 0xBB] <= 8) by (vm_compute; discriminate).
  assert (Hidx : Forall2 (fun i k => py_index (len [0x02; 0x27; 0xAA; 0xBB]) i = Some k)
                   [2; -1] [2%nat; 3%nat])
    by (repeat constructor).
  split; [repeat split; assumption|].
  exact (bruteforce_data_new_frames (fun vs => vs) (fun _ => true)
           (CanActions.__init__ (Some 0x7DF) true) [] [0x02; 0x27; 0xAA; 0xBB]
           [2; -1] [2%nat; 3%nat] 0x7DF 0x00 0x01 true Hnot Harb Hlen Hidx).
Defined.

(** * Further properties of the XCP memory dump *)

Section AddressBytes.
Import xcp Wire.

Lemma address_bytes_spec (start_address : Z) :
  address_bytes start_address
  = Ok [address_byte start_address 0; address_byte start_address 1;
        address_byte start_address 2; address_byte start_address 3].
Proof.
  unfold address_bytes, for_in_range. change (Z.to_nat (4 - 0)) with 4%nat.
  cbn [for_range bind fst app].
  change 4294967295 with (Z.ones 32). change 255 with (Z.ones 8).
  rewrite !Z.land_ones, !Z.shiftr_div_pow2 by lia.
  unfold address_byte.
  change (2 ^ 32) with 4294967296. change (2 ^ 8) with 256.
  change (256 ^ 0) with 1. change (256 ^ 1) with 256.
  change (256 ^ 2) with 65536. change (256 ^ 3) with 16777216.
  do 2 f_equal; [|f_equal; [|f_equal; [|f_equal]]];
    Z.to_euclidean_division_equations; lia.
Qed.

End AddressBytes.

(** X19: for every start address the dump computes four address bytes,
    each in 0..255, that are the little-endian digits of the address
    modulo 2^32. *)
Theorem address_bytes_little_endian (start_address : Z) :
  exists b0 b1 b2 b3,
    xcp.address_bytes start_address = Ok [b0; b1; b2; b3]
    /\ Forall (fun b => 0 <= b <= 0xFF) [b0; b1; b2; b3]
    /\ b0 + 0x100 * b1 + 0x10000 * b2 + 0x1000000 * b3
       = start_address mod 0x100000000.
Proof.
  do 4 eexists. split; [apply address_bytes_spec|].
  unfold Wire.address_byte.
  change (256 ^ 0) with 1. change (256 ^ 1) with 256.
  change (256 ^ 2) with 65536. change (256 ^ 3) with 16777216.
  split.
  - repeat constructor; Z.to_euclidean_division_equations; lia.
  - Z.to_euclidean_division_equations; lia.
Qed.

Section UploadPhase.
Import xcp Wire.

Lemma dumped_app (o1 o2 : list dump_output) : dumped (o1 ++ o2) = dumped o1 ++ dumped o2.
Proof.
  induction o1 as [|o o1 IH]; [reflexivity|].
  destruct o; cbn [app dumped]; rewrite IH; try reflexivity.
  rewrite app_assoc. reflexivity.
Qed.

Lemma slice_payload (payload : list Z) (n : Z) :
  length payload = 7%nat ->
  1 <= n ->
  slice (0xFF :: payload) 1 (Z.min 8 (n + 1)) = take (Z.to_nat (Z.min 7 n)) payload.
Proof.
  intros Hp Hn. unfold slice, slice_bound, len. cbn [length]. rewrite Hp.
  replace (1 <? 0) with false by reflexivity.
  replace (Z.min 8 (n + 1) <? 0) with false by (symmetry; lia).
  replace (Z.to_nat (Z.min 1 (Z.of_nat 8))) with 1%nat by reflexivity.
  cbn [drop]. f_equal. lia.
Qed.

(** The replies to the Upload commands are written out, seven bytes at a
    time, and each but the last is answered by the next command. *)
Lemma upload_phase (rcv_arb_id a : Z) (uploads : list can.Message) :
  forall (n : Z) (s : dump_state),
    1 <= n ->
    bytes_left s = n ->
    byte_counter s = 0 ->
    CanActions.notifier (can_wrap s) = Some [handle_upload_reply_h] ->
    CanActions.arb_id (can_wrap s) = Some a ->
    Forall (upload_reply rcv_arb_id) uploads ->
    Z.of_nat (length uploads) = (n + 6) / 7 ->
    exists s',
      wait_for_dump rcv_arb_id s uploads = Ok s'
      /\ dump_complete s' = true
      /\ dumped (output s')
         = dumped (output s) ++ take (Z.to_nat n) (uploaded uploads)
      /\ CanActions.bus_sent (can_wrap s')
         = CanActions.bus_sent (can_wrap s)
             ++ map (fun size =>
                       can.mkMessage a [0xF5; size]
                         (a >? constants.ARBITRATION_ID_MAX) false false)
                    (upload_sizes (length (tl uploads)) (n - 7)).
Proof.
  induction uploads as [|msg uploads IH];
    intros n s Hn Hleft Hcount Hnot Harb Hall Hlen.
  - exfalso. cbn [length] in Hlen.
    assert (1 <= (n + 6) / 7) by (apply Z.div_le_lower_bound; lia). lia.
  - inversion Hall as [|m l [Hid [payload [Hdata Hp]]] Hrest]. subst m l.
    cbn [wait_for_dump]. rewrite Hnot. cbn [notify run_handler].
    unfold handle_upload_reply. rewrite Hid, Z.eqb_refl. cbn [negb].
    rewrite Hdata, getitem_head. cbn [bind].
    change (255 =? 254) with false. change (255 =? 255) with true. cbv iota zeta.
    unfold put.
    cbn [byte_counter bytes_left segment_counter address can_wrap output
         dump_complete].
    rewrite Hleft, Hcount, (slice_payload payload n Hp Hn).
    unfold uploaded. cbn [map concat tl length]. rewrite Hdata.
    change (drop 1 (255 :: payload)) with payload.
    fold (uploaded uploads).
    destruct (Z.ltb_spec (n - 7) 1) as [Hlast | Hmore].
    + assert (Hnil : uploads = []).
      { destruct uploads; [reflexivity|]. exfalso. cbn [length] in Hlen.
        assert ((n + 6) / 7 < 2) by (apply Z.div_lt_upper_bound; lia). lia. }
      subst uploads. cbn [wait_for_dump bind].
      eexists. split; [reflexivity|].
      cbn [dump_complete output can_wrap length upload_sizes map].
      split; [reflexivity|]. split.
      * rewrite !dumped_app. cbn [dumped uploaded map concat].
        rewrite !app_nil_r. do 2 f_equal. lia.
      * rewrite app_nil_r. reflexivity.
    + change (0 + 7 >? max_segment_size - 1) with true. cbv iota.
      unfold CanActions.send_single_message_with_callback, CanActions.set_listener,
        CanActions.clear_listeners, CanActions.add_listener, CanActions.with_listeners.
      rewrite Hnot.
      cbn [bind CanActions.notifier CanActions.arb_id CanActions.bruteforce_running
                CanActions.bus_sent CanActions.end_calls app].
      unfold CanActions.send. change (len [245; Z.min max_segment_size (n - 7)] >? 8)
        with false. cbv iota.
      unfold CanActions.self_arb_id. cbn [CanActions.arb_id]. rewrite Harb.
      cbn [bind]. cbv zeta.
      match goal with
      | |- context [wait_for_dump _ ?s1 _] =>
          destruct (IH (n - 7) s1) as [s' [Hrun [Hdone [Hout Hsent]]]];
            [lia | reflexivity | reflexivity | reflexivity | reflexivity
             | exact Hrest | |]
      end.
      { cbn [length] in Hlen.
        replace (n + 6) with ((n - 7 + 6) + 1 * 7) in Hlen by lia.
        rewrite Z.div_add in Hlen by lia. lia. }
      exists s'. split; [exact Hrun|]. split; [exact Hdone|]. split.
      * rewrite Hout. cbn [output]. rewrite dumped_app. cbn [dumped].
        rewrite app_nil_r, <- app_assoc. f_equal.
        replace (Z.to_nat (Z.min 7 n)) with 7%nat by lia.
        rewrite <- Hp, firstn_all.
        replace (Z.to_nat n) with (length payload + Z.to_nat (n - 7))%nat by lia.
        rewrite take_app_add. reflexivity.
      * rewrite Hsent.
        cbn [can_wrap CanActions.bus_sent CanActions.bus_send].
        rewrite <- app_assoc. f_equal.
        destruct uploads as [|m2 uploads].
        { exfalso. cbn [length] in Hlen.
          assert (2 <= (n + 6) / 7) by (apply Z.div_le_lower_bound; lia). lia. }
        cbn [length tl upload_sizes map app]. reflexivity.
Qed.

End UploadPhase.

Section DumpSteps.
Import xcp Wire.

Lemma send_single_ok (c : CanActions.t dump_handler) (ls : list dump_handler)
    (a : Z) (data : list Z) (h : dump_handler) :
  CanActions.notifier c = Some ls ->
  CanActions.arb_id c = Some a ->
  len data <= 8 ->
  CanActions.send_single_message_with_callback c data h
  = Ok (CanActions.mkCanActions (Some a) (CanActions.bruteforce_running c)
          (Some [h])
          (CanActions.bus_sent c
             ++ [can.mkMessage a data (a >? constants.ARBITRATION_ID_MAX)
                   false false])
          (CanActions.end_calls c)).
Proof.
  intros Hnot Harb Hlen.
  unfold CanActions.send_single_message_with_callback, CanActions.set_listener,
    CanActions.clear_listeners, CanActions.add_listener, CanActions.with_listeners.
  rewrite Hnot.
  cbn [bind CanActions.notifier CanActions.arb_id CanActions.bruteforce_running
            CanActions.bus_sent CanActions.end_calls app].
  unfold CanActions.send. replace (len data >? 8) with false by (symmetry; lia).
  unfold CanActions.self_arb_id. cbn [CanActions.arb_id]. rewrite Harb.
  reflexivity.
Qed.

(** A positive Connect reply is answered by Set MTA, with the address in
    the byte order the reply asks for. *)
Lemma connect_step (rcv_arb_id : Z) (s : dump_state) (ls : list dump_handler)
    (a a0 a1 a2 a3 b1 b2 : Z) (rest : list Z) (e1 e2 e3 : bool) :
  CanActions.notifier (can_wrap s) = Some ls ->
  CanActions.arb_id (can_wrap s) = Some a ->
  address s = [a0; a1; a2; a3] ->
  exists s1,
    run_handler rcv_arb_id handle_connect_reply_h s
      (can.mkMessage rcv_arb_id (0xFF :: b1 :: b2 :: rest) e1 e2 e3) = Ok s1
    /\ byte_counter s1 = byte_counter s
    /\ bytes_left s1 = bytes_left s
    /\ CanActions.notifier (can_wrap s1) = Some [handle_set_mta_reply_h]
    /\ CanActions.arb_id (can_wrap s1) = Some a
    /\ CanActions.bus_sent (can_wrap s1)
       = CanActions.bus_sent (can_wrap s)
           ++ [can.mkMessage a
                 ([0xF6; 0x00; 0x00; 0x00]
                    ++ (if Z.land b2 1 =? 0 then [a3; a2; a1; a0]
                        else [a0; a1; a2; a3]))
                 (a >? constants.ARBITRATION_ID_MAX) false false]
    /\ dumped (output s1) = dumped (output s).
Proof.
  intros Hnot Harb Haddr. cbn [run_handler]. unfold handle_connect_reply.
  cbn [can.arbitration_id can.data]. rewrite Z.eqb_refl. cbn [negb].
  rewrite getitem_head. cbn [bind].
  change (255 =? 254) with false. change (255 =? 255) with true. cbv iota.
  rewrite (getitem_lookup (255 :: b1 :: b2 :: rest) 2 b2) by (lia || reflexivity).
  cbn [bind]. cbv zeta. rewrite Haddr.
  destruct (Z.land b2 1 =? 0); cbn [negb rev app]; cbv iota beta;
    rewrite getitem_head;
    match goal with
    | |- context [getitem ?l 1] =>
        rewrite (getitem_lookup l 1 _ ltac:(lia) eq_refl),
                (getitem_lookup l 2 _ ltac:(lia) eq_refl),
                (getitem_lookup l 3 _ ltac:(lia) eq_refl)
    end;
    cbn [bind];
    rewrite (send_single_ok (can_wrap s) ls a _ _ Hnot Harb)
      by (vm_compute; discriminate);
    cbn [bind]; cbv iota beta;
    (eexists; split; [reflexivity|]);
    cbn [byte_counter bytes_left can_wrap output CanActions.notifier
         CanActions.arb_id CanActions.bus_sent];
    rewrite dumped_app; cbn [dumped app]; rewrite app_nil_r; repeat split.
Qed.

(** A positive Set MTA reply is answered by the first Upload command. *)
Lemma set_mta_step (rcv_arb_id : Z) (s : dump_state) (ls : list dump_handler)
    (a : Z) (rest : list Z) (e1 e2 e3 : bool) :
  CanActions.notifier (can_wrap s) = Some ls ->
  CanActions.arb_id (can_wrap s) = Some a ->
  exists s1,
    run_handler rcv_arb_id handle_set_mta_reply_h s
      (can.mkMessage rcv_arb_id (0xFF :: rest) e1 e2 e3) = Ok s1
    /\ byte_counter s1 = byte_counter s
    /\ bytes_left s1 = bytes_left s
    /\ CanActions.notifier (can_wrap s1) = Some [handle_upload_reply_h]
    /\ CanActions.arb_id (can_wrap s1) = Some a
    /\ CanActions.bus_sent (can_wrap s1)
       = CanActions.bus_sent (can_wrap s)
           ++ [can.mkMessage a [0xF5; Z.min 7 (bytes_left s)]
                 (a >? constants.ARBITRATION_ID_MAX) false false]
    /\ dumped (output s1) = dumped (output s).
Proof.
  intros Hnot Harb. cbn [run_handler]. unfold handle_set_mta_reply.
  cbn [can.arbitration_id can.data]. rewrite Z.eqb_refl. cbn [negb].
  rewrite getitem_head. cbn [bind].
  change (255 =? 254) with false. change (255 =? 255) with true. cbv iota zeta.
  unfold put.
  cbn [byte_counter bytes_left segment_counter address can_wrap output
       dump_complete].
  rewrite (send_single_ok (can_wrap s) ls a _ _ Hnot Harb)
    by (vm_compute; discriminate).
  cbn [bind]. eexists. split; [reflexivity|].
  cbn [byte_counter bytes_left can_wrap output CanActions.notifier
       CanActions.arb_id CanActions.bus_sent].
  rewrite dumped_app. cbn [dumped]. rewrite app_nil_r. repeat split.
Qed.

End DumpSteps.

(** X20: a dump of [length >= 1] bytes whose Connect and Set MTA commands
    are acknowledged and whose Upload commands are each answered by a full
    reply completes after [ceil(length / 7)] replies: it has given out
    exactly the first [length] data bytes of the replies, and has sent
    Connect, Set MTA with the address (most significant byte first when
    bit 0 of the Connect reply's byte 2 is clear, least significant first
    otherwise) and one Upload command per reply, each asking for 7 bytes
    or for what is left. *)
Theorem xcp_memory_dump_transfer (send_arb_id rcv_arb_id start_address length : Z)
    (b1 b2 : Z) (connect_rest ack_rest : list Z) (e1 e2 e3 e4 e5 e6 : bool)
    (uploads : list can.Message) :
  1 <= length ->
  Forall (Wire.upload_reply rcv_arb_id) uploads ->
  Z.of_nat (List.length uploads) = (length + 6) / 7 ->
  exists s,
    xcp.xcp_memory_dump send_arb_id rcv_arb_id start_address length
      (can.mkMessage rcv_arb_id (0xFF :: b1 :: b2 :: connect_rest) e1 e2 e3
       :: can.mkMessage rcv_arb_id (0xFF :: ack_rest) e4 e5 e6
       :: uploads)
    = Ok s
    /\ xcp.dump_complete s = true
    /\ Wire.dumped (xcp.output s) = take (Z.to_nat length) (Wire.uploaded uploads)
    /\ map can.data (CanActions.bus_sent (xcp.can_wrap s))
       = [0xFF]
         :: ([0xF6; 0x00; 0x00; 0x00]
               ++ (if Z.land b2 1 =? 0
                   then [Wire.address_byte start_address 3;
                         Wire.address_byte start_address 2;
                         Wire.address_byte start_address 1;
                         Wire.address_byte start_address 0]
                   else [Wire.address_byte start_address 0;
                         Wire.address_byte start_address 1;
                         Wire.address_byte start_address 2;
                         Wire.address_byte start_address 3]))
         :: map (fun size => [0xF5; size])
                (Wire.upload_sizes (List.length uploads) length).
Proof.
  intros Hlength Hall Hcount.
  unfold xcp.xcp_memory_dump. rewrite address_bytes_spec. cbn [bind]. cbv zeta.
  rewrite (send_single_ok (CanActions.__init__ (Some send_arb_id) true) []
             send_arb_id [255] xcp.handle_connect_reply_h eq_refl eq_refl)
    by (vm_compute; discriminate).
  cbn [bind xcp.wait_for_dump xcp.can_wrap CanActions.notifier xcp.notify].
  match goal with
  | |- context [xcp.run_handler _ _ ?s0 _] =>
      destruct (connect_step rcv_arb_id s0 [xcp.handle_connect_reply_h]
                  send_arb_id _ _ _ _ b1 b2 connect_rest e1 e2 e3
                  eq_refl eq_refl eq_refl)
        as [s1 [Hrun1 [Hbc1 [Hbl1 [Hnot1 [Harb1 [Hsent1 Hout1]]]]]]]
  end.
  rewrite Hrun1. cbn [bind]. rewrite Hnot1. cbn [xcp.notify].
  destruct (set_mta_step rcv_arb_id s1 _ send_arb_id ack_rest e4 e5 e6 Hnot1 Harb1)
    as [s2 [Hrun2 [Hbc2 [Hbl2 [Hnot2 [Harb2 [Hsent2 Hout2]]]]]]].
  rewrite Hrun2. cbn [bind].
  cbn [xcp.byte_counter xcp.bytes_left] in Hbc1, Hbl1.
  destruct (upload_phase rcv_arb_id send_arb_id uploads length s2)
    as [s3 [Hrun3 [Hdone [Hout3 Hsent3]]]];
    [exact Hlength | congruence | congruence | exact Hnot2 | exact Harb2
     | exact Hall | exact Hcount |].
  rewrite Hrun3. cbn [bind]. rewrite Hdone. cbn [negb].
  exists s3. split; [reflexivity|]. split; [exact Hdone|]. split.
  - rewrite Hout3, Hout2, Hout1. reflexivity.
  - rewrite Hsent3, Hsent2, Hsent1, Hbl1.
    cbn [xcp.can_wrap CanActions.bus_sent CanActions.__init__ xcp.bytes_left].
    rewrite !map_app, map_map. cbn [map can.data app].
    destruct uploads as [|first uploads].
    { exfalso. cbn in Hcount.
      assert (1 <= (length + 6) / 7) by (apply Z.div_le_lower_bound; lia). lia. }
    cbn [List.length tl Wire.upload_sizes map].
    destruct (Z.land b2 1 =? 0); reflexivity.
Qed.

Lemma xcp_memory_dump_transfer_witness :
  (1 <= 9
   /\ Forall (Wire.upload_reply 0x3E9)
        [can.mkMessage 0x3E9 [0xFF; 1; 2; 3; 4; 5; 6; 7] false false false;
         can.mkMessage 0x3E9 [0xFF; 8; 9; 10; 11; 12; 13; 14] false false false]
   /\ Z.of_nat 2 = (9 + 6) / 7)
  /\ exists s,
       xcp.xcp_memory_dump 0x3E8 0x3E9 0x1FFFB000 9
         [can.mkMessage 0x3E9 [0xFF; 0x15; 0x00; 0x08; 0x08; 0x00; 0x01; 0x01]
            false false false;
          can.mkMessage 0x3E9 [0xFF] false false false;
          can.mkMessage 0x3E9 [0xFF; 1; 2; 3; 4; 5; 6; 7] false false false;
          can.mkMessage 0x3E9 [0xFF; 8; 9; 10; 11; 12; 13; 14] false false false]
       = Ok s
       /\ xcp.dump_complete s = true
       /\ Wire.dumped (xcp.output s) = [1; 2; 3; 4; 5; 6; 7; 8; 9]
       /\ map can.data (CanActions.bus_sent (xcp.can_wrap s))
          = [[0xFF]; [0xF6; 0x00; 0x00; 0x00; 0x1F; 0xFF; 0xB0; 0x00];
             [0xF5; 7]; [0xF5; 2]].
Proof.
  assert (Hlength : 1 <= 9) by lia.
  assert (Hall : Forall (Wire.upload_reply 0x3E9)
                   [can.mkMessage 0x3E9 [0xFF; 1; 2; 3; 4; 5; 6; 7] false false false;
                    can.mkMessage 0x3E9 [0xFF; 8; 9; 10; 11; 12; 13; 14]
                      false false false]).
  { repeat constructor; eexists; split; reflexivity. }
  assert (Hcount : Z.of_nat 2 = (9 + 6) / 7) by reflexivity.
  split; [repeat split; assumption|].
  exact (xcp_memory_dump_transfer 0x3E8 0x3E9 0x1FFFB000 9 0x15 0x00
           [0x08; 0x08; 0x00; 0x01; 0x01] [] false false false false false false
           _ Hlength Hall Hcount).
Defined.

(** ** The Connect response decoder *)

Section ConnectResponse.
Import xcp.

Lemma land_pow2_testbit (d i : Z) :
  0 <= i -> py_bool (Z.land d (2 ^ i)) = Z.testbit d i.
Proof.
  intros Hi. unfold py_bool. destruct (Z.testbit d i) eqn:Hbit.
  - destruct (Z.eqb_spec (Z.land d (2 ^ i)) 0) as [Hz|]; [|reflexivity].
    exfalso. assert (H : Z.testbit (Z.land d (2 ^ i)) i = true).
    { rewrite Z.land_spec, Hbit, Z.pow2_bits_true by lia. reflexivity. }
    rewrite Hz, Z.bits_0 in H. discriminate H.
  - replace (Z.land d (2 ^ i)) with 0; [reflexivity|].
    symmetry. apply Z.bits_inj'. intros n Hn.
    rewrite Z.land_spec, Z.bits_0.
    destruct (Z.eq_dec n i) as [-> | Hne].
    + rewrite Hbit. reflexivity.
    + rewrite Z.pow2_bits_false by lia. apply andb_false_r.
Qed.

Lemma granularity_bits (d : Z) :
  0 <= d <= 255 ->
  2 ^ Z.land (Z.land d 4 * 2 + d) 2 = if Z.testbit d 1 then 4 else 1.
Proof.
  intros Hd.
  pose (check := fun x => 2 ^ Z.land (Z.land x 4 * 2 + x) 2
                          =? (if Z.testbit x 1 then 4 else 1)).
  assert (H : check d = true).
  { apply (Z_below_forallb check 256); [vm_compute; reflexivity | lia]. }
  unfold check in H. lia.
Qed.

End ConnectResponse.

(** X21: for a Connect response of 8 data bytes [decode_connect_response]
    reports bit [i] of byte 1 as the protection flag of resource [i] and
    bit [i] of byte 2 as flag [i] of COMM_MODE_BASIC; the address
    granularity it reports is 4 when bit 1 of byte 2 is set and 1
    otherwise, whatever bit 2 (ADDRESS_GRANULARITY_1) is; the maximum DTO
    length is byte 5 times 16 plus byte 4.  A response of another length
    is reported as invalid and not decoded. *)
Theorem decode_connect_response_values (arb_id : Z) (data : list Z)
    (e1 e2 e3 : bool) :
  (forall d0 d1 d2 d3 d4 d5 d6 d7,
      data = [d0; d1; d2; d3; d4; d5; d6; d7] ->
      0 <= d2 <= 255 ->
      xcp.decode_connect_response (can.mkMessage arb_id data e1 e2 e3)
      = Ok (map (fun p => xcp.ResourceProtection (snd p)
                            (Z.testbit d1 (Z.of_nat (fst p))))
                (combine (seq 0 8) xcp.resource_bits)
            ++ map (fun p => xcp.CommModeBasic (snd p)
                               (xcp.int_of_bool (Z.testbit d2 (Z.of_nat (fst p)))))
                   (combine (seq 0 8) xcp.comm_mode_bits)
            ++ [xcp.AddressGranularity (if Z.testbit d2 1 then 4 else 1);
                xcp.MaxCtoLength d3;
                xcp.MaxDtoLength (d5 * 16 + d4);
                xcp.ProtocolLayerVersion d6;
                xcp.TransportLayerVersion d7]))
  /\ (len data <> 8 ->
      xcp.decode_connect_response (can.mkMessage arb_id data e1 e2 e3)
      = Ok [xcp.InvalidResponseLength (len data)]).
Proof.
  split.
  - intros d0 d1 d2 d3 d4 d5 d6 d7 -> Hd2.
    unfold xcp.decode_connect_response. cbn [can.data].
    change (len [d0; d1; d2; d3; d4; d5; d6; d7] =? 8) with true. cbn [negb].
    unfold for_in_range. change (Z.to_nat (8 - 0)) with 8%nat.
    cbn [for_range].
    change (0 + 1) with 1. change (1 + 1) with 2. change (2 + 1) with 3.
    change (3 + 1) with 4. change (4 + 1) with 5. change (5 + 1) with 6.
    change (6 + 1) with 7.
    cbv -[Z.land Z.pow Z.testbit Z.mul Z.add xcp.py_bool xcp.int_of_bool].
    rewrite !land_pow2_testbit by lia.
    rewrite granularity_bits by exact Hd2.
    reflexivity.
  - intros Hlen. unfold xcp.decode_connect_response. cbn [can.data].
    destruct (Z.eqb_spec (len data) 8); [contradiction | reflexivity].
Qed.

Lemma decode_connect_response_values_witness :
  ([0xFF; 0x15; 0x06; 0x08; 0x08; 0x00; 0x01; 0x01]
   = [0xFF; 0x15; 0x06; 0x08; 0x08; 0x00; 0x01; 0x01]
   /\ 0 <= 0x06 <= 255)
  /\ exists flags,
       xcp.decode_connect_response
         (can.mkMessage 0x3E9 [0xFF; 0x15; 0x06; 0x08; 0x08; 0x00; 0x01; 0x01]
            false false false)
       = Ok (flags
             ++ [xcp.AddressGranularity 4; xcp.MaxCtoLength 8; xcp.MaxDtoLength 8;
                 xcp.ProtocolLayerVersion 1; xcp.TransportLayerVersion 1]).
Proof.
  assert (Hdata : [0xFF; 0x15; 0x06; 0x08; 0x08; 0x00; 0x01; 0x01]
                  = [0xFF; 0x15; 0x06; 0x08; 0x08; 0x00; 0x01; 0x01]) by reflexivity.
  assert (Hd2 : 0 <= 0x06 <= 255) by lia.
  split; [split; assumption|].
  eexists.
  rewrite (proj1 (decode_connect_response_values 0x3E9 _ false false false)
             _ _ _ _ _ _ _ _ Hdata Hd2).
  rewrite app_assoc. reflexivity.
Defined.

(** * Further properties of the modules *)

(** X22: [insert_message_length] raises [IndexError] for more than 7 data
    bytes; otherwise the list it builds is the ISO-TP single frame of the
    data, as [get_frames_from_message] encodes it: unpadded without [pad],
    padded with 0x00 to 8 bytes with [pad]. *)
Theorem insert_message_length_single_frame (data : list Z) (pad : bool) :
  (7 < len data -> dcm.insert_message_length data pad = Raise IndexError)
  /\ (len data <= 7 ->
      exists full_data,
        dcm.insert_message_length data pad = Ok full_data
        /\ IsoTp.get_frames_from_message data (if pad then Some 0x00 else None)
           = Ok [full_data]
        /\ (pad = true -> len full_data = 8)).
Proof.
  split.
  - intros Hlen. unfold dcm.insert_message_length. cbv zeta.
    replace (len data >? 7) with true by (symmetry; lia). reflexivity.
  - intros Hlen. unfold dcm.insert_message_length. cbv zeta.
    replace (len data >? 7) with false by (symmetry; lia).
    eexists. split; [reflexivity|].
    destruct (get_frames_spec data (if pad then Some 0x00 else None))
      as [frames [Hrun Hframes]]; [unfold IsoTp.MAX_MESSAGE_LENGTH; lia|].
    rewrite Hrun.
    inversion Hframes as [Hsf Heq | cfs Hmf _ Heq]; [|lia].
    split.
    + do 2 f_equal. cbn [app]. f_equal. destruct pad; cbn [Wire.pad_tail].
      * unfold py_repeat, len.
        replace (Z.to_nat (7 - Z.of_nat (length data))) with (7 - length data)%nat
          by lia.
        reflexivity.
      * rewrite app_nil_r. reflexivity.
    + intros ->. unfold len in *. cbn [app length].
      rewrite length_app. unfold py_repeat. rewrite length_replicate. lia.
Qed.

Lemma insert_message_length_single_frame_witness :
  len [0x10; 0x03] <= 7
  /\ exists full_data,
       dcm.insert_message_length [0x10; 0x03] true = Ok full_data
       /\ IsoTp.get_frames_from_message [0x10; 0x03] (Some 0x00) = Ok [full_data]
       /\ (true = true -> len full_data = 8).
Proof.
  assert (Hlen : len [0x10; 0x03] <= 7) by (vm_compute; discriminate).
  split; [exact Hlen|].
  exact (proj2 (insert_message_length_single_frame [0x10; 0x03] true) Hlen).
Defined.

(** ** Nibbles and bytes of the fuzzer *)

Section Nibbles.
Import fuzzer Wire.

Lemma getitem_middle {A : Type} (pre post : list A) (x : A) :
  getitem (pre ++ x :: post) (len pre) = Ok x.
Proof.
  apply getitem_lookup; [apply len_nonneg|].
  unfold len. rewrite Nat2Z.id. apply list_lookup_middle. reflexivity.
Qed.

Lemma getitem_middle_next {A : Type} (pre post : list A) (x y : A) :
  getitem (pre ++ x :: y :: post) (len pre + 1) = Ok y.
Proof.
  replace (pre ++ x :: y :: post) with ((pre ++ [x]) ++ y :: post)
    by (rewrite <- app_assoc; reflexivity).
  replace (len pre + 1) with (len (pre ++ [x])) by (rewrite len_app; reflexivity).
  apply getitem_middle.
Qed.

Lemma getitem_past_end {A : Type} (l : list A) (i : Z) :
  len l <= i -> getitem l i = Raise IndexError.
Proof.
  intros Hi. unfold getitem, py_index. pose proof (len_nonneg l).
  replace (i <? len l) with false by (symmetry; lia).
  replace (i <? 0) with false by (symmetry; lia).
  rewrite !andb_false_r. reflexivity.
Qed.

Lemma len_two_more {A : Type} (pre : list A) (x y : A) :
  len (pre ++ [x; y]) = len pre + 2.
Proof. rewrite len_app. reflexivity. Qed.

(** An even number of nibbles is packed two to the byte. *)
Lemma nibbles_to_bytes_loop_even (count : nat) :
  forall (pre rest acc : list Z),
    length rest = (2 * count)%nat ->
    nibbles_to_bytes_loop count (len pre) (pre ++ rest) acc
    = Ok (acc ++ bytes_of rest).
Proof.
  induction count as [|count IH]; intros pre rest acc Hlen.
  - destruct rest; [|discriminate Hlen]. cbn. rewrite app_nil_r. reflexivity.
  - destruct rest as [|x [|y rest]]; try (cbn in Hlen; lia).
    cbn [nibbles_to_bytes_loop bytes_of].
    rewrite getitem_middle, getitem_middle_next. cbn [bind]. cbv zeta.
    replace (pre ++ x :: y :: rest) with ((pre ++ [x; y]) ++ rest)
      by (rewrite <- app_assoc; reflexivity).
    rewrite <- len_two_more with (x := x) (y := y).
    rewrite IH by (cbn in Hlen; lia).
    rewrite <- app_assoc. reflexivity.
Qed.

(** With an odd number of nibbles the last one has no partner. *)
Lemma nibbles_to_bytes_loop_odd (count : nat) :
  forall (pre rest acc : list Z),
    length rest = (2 * count + 1)%nat ->
    nibbles_to_bytes_loop (S count) (len pre) (pre ++ rest) acc = Raise IndexError.
Proof.
  induction count as [|count IH]; intros pre rest acc Hlen.
  - destruct rest as [|x [|y rest]]; try (cbn in Hlen; lia).
    cbn [nibbles_to_bytes_loop]. rewrite getitem_middle. cbn [bind].
    rewrite getitem_past_end; [reflexivity|]. rewrite len_app.
    change (len [x]) with 1. lia.
  - destruct rest as [|x [|y rest]]; try (cbn in Hlen; lia).
    remember (S count) as n eqn:Hn. cbn [nibbles_to_bytes_loop].
    rewrite getitem_middle, getitem_middle_next. cbn [bind]. cbv zeta.
    replace (pre ++ x :: y :: rest) with ((pre ++ [x; y]) ++ rest)
      by (rewrite <- app_assoc; reflexivity).
    rewrite <- len_two_more with (x := x) (y := y). subst n.
    apply IH. cbn in Hlen. lia.
Qed.

Lemma range_step2_count_even (n : nat) :
  range_step2_count (Z.of_nat (2 * n)) = n.
Proof.
  unfold range_step2_count.
  replace (Z.of_nat (2 * n) + 1) with (1 + Z.of_nat n * 2) by lia.
  rewrite Z.div_add by lia. change (1 / 2) with 0. lia.
Qed.

Lemma range_step2_count_odd (n : nat) :
  range_step2_count (Z.of_nat (2 * n + 1)) = S n.
Proof.
  unfold range_step2_count.
  replace (Z.of_nat (2 * n + 1) + 1) with (0 + Z.of_nat (S n) * 2) by lia.
  rewrite Z.div_add by lia. change (0 / 2) with 0. lia.
Qed.

Lemma nibbles_to_bytes_even (nibbles : list Z) (n : nat) :
  length nibbles = (2 * n)%nat -> nibbles_to_bytes nibbles = Ok (bytes_of nibbles).
Proof.
  intros Hlen. unfold nibbles_to_bytes, len. rewrite Hlen, range_step2_count_even.
  apply (nibbles_to_bytes_loop_even n [] nibbles [] Hlen).
Qed.

Lemma bytes_of_nibbles_of (bytes : list Z) : bytes_of (nibbles_of bytes) = bytes.
Proof.
  induction bytes as [|b bytes IH]; [reflexivity|].
  cbn [nibbles_of flat_map app bytes_of]. fold (nibbles_of bytes). rewrite IH.
  f_equal. change 15 with (Z.ones 4).
  rewrite Z.land_ones, Z.shiftl_mul_pow2, Z.shiftr_div_pow2 by lia.
  change (2 ^ 4) with 16. Z.to_euclidean_division_equations; lia.
Qed.

Lemma bytes_of_length (nibbles : list Z) (n : nat) :
  length nibbles = (2 * n)%nat -> length (bytes_of nibbles) = n.
Proof.
  revert nibbles. induction n as [|n IH]; intros nibbles Hlen.
  - destruct nibbles; [reflexivity | discriminate Hlen].
  - destruct nibbles as [|x [|y nibbles]]; try (cbn in Hlen; lia).
    cbn [bytes_of length]. f_equal. apply IH. cbn in Hlen. lia.
Qed.

End Nibbles.

(** X23: [nibbles_to_bytes] packs nibbles two to the byte, high nibble
    first: the nibbles of any list of bytes give the bytes back.  A list
    with an odd number of nibbles raises [IndexError]; after
    [pad_to_even_length] the conversion never raises and gives
    [ceil(n / 2)] bytes. *)
Theorem nibbles_to_bytes_round_trip :
  (forall bytes : list Z,
      fuzzer.nibbles_to_bytes (Wire.nibbles_of bytes) = Ok bytes)
  /\ (forall nibbles : list Z,
         len nibbles mod 2 = 1 ->
         fuzzer.nibbles_to_bytes nibbles = Raise IndexError)
  /\ (forall (nibbles : list Z) (padding : Z),
         exists bytes,
           fuzzer.nibbles_to_bytes (fuzzer.pad_to_even_length nibbles padding)
           = Ok bytes
           /\ len bytes = (len nibbles + 1) / 2).
Proof.
  split; [|split].
  - intros bytes.
    rewrite (nibbles_to_bytes_even (Wire.nibbles_of bytes) (length bytes)).
    + rewrite bytes_of_nibbles_of. reflexivity.
    + unfold Wire.nibbles_of. induction bytes as [|b bytes IH]; [reflexivity|].
      cbn [flat_map app length]. rewrite IH. lia.
  - intros nibbles Hodd. unfold len in Hodd.
    assert (Hlen : length nibbles = (2 * (length nibbles / 2) + 1)%nat).
    { pose proof (Nat.div_mod_eq (length nibbles) 2) as Hdm.
      assert (Hm : (length nibbles mod 2 = 1)%nat).
      { apply Nat2Z.inj. rewrite Nat2Z.inj_mod. exact Hodd. }
      lia. }
    unfold fuzzer.nibbles_to_bytes, len. rewrite Hlen at 1.
    rewrite range_step2_count_odd.
    apply (nibbles_to_bytes_loop_odd (length nibbles / 2) [] nibbles [] Hlen).
  - intros nibbles padding. unfold fuzzer.pad_to_even_length.
    pose proof (Z.mod_pos_bound (len nibbles) 2 ltac:(lia)) as Hmod.
    pose proof (Z.div_mod (len nibbles) 2 ltac:(lia)) as Hdm.
    destruct (Z.eqb_spec (len nibbles mod 2) 1) as [Hodd | Heven].
    + assert (Hlen : length (padding :: nibbles)
                     = (2 * Z.to_nat ((len nibbles + 1) / 2))%nat).
      { cbn [length]. unfold len in *.
        replace (Z.of_nat (length nibbles) + 1)
          with (0 + (Z.of_nat (length nibbles) / 2 + 1) * 2) by lia.
        rewrite Z.div_add by lia. change (0 / 2) with 0. lia. }
      rewrite (nibbles_to_bytes_even _ _ Hlen). eexists. split; [reflexivity|].
      unfold len at 1. rewrite (bytes_of_length _ _ Hlen).
      pose proof (len_nonneg nibbles).
      assert (0 <= (len nibbles + 1) / 2) by (apply Z.div_pos; lia). lia.
    + assert (Hlen : length nibbles = (2 * Z.to_nat ((len nibbles + 1) / 2))%nat).
      { unfold len in *.
        replace (Z.of_nat (length nibbles) + 1)
          with (1 + (Z.of_nat (length nibbles) / 2) * 2) by lia.
        rewrite Z.div_add by lia. change (1 / 2) with 0. lia. }
      rewrite (nibbles_to_bytes_even _ _ Hlen). eexists. split; [reflexivity|].
      unfold len at 1. rewrite (bytes_of_length _ _ Hlen).
      pose proof (len_nonneg nibbles).
      assert (0 <= (len nibbles + 1) / 2) by (apply Z.div_pos; lia). lia.
Qed.

Lemma nibbles_to_bytes_round_trip_witness :
  len [0x1; 0x2; 0x3] mod 2 = 1
  /\ fuzzer.nibbles_to_bytes [0x1; 0x2; 0x3] = Raise IndexError.
Proof.
  assert (Hodd : len [0x1; 0x2; 0x3] mod 2 = 1) by reflexivity.
  split; [exact Hodd|].
  exact (proj1 (proj2 nibbles_to_bytes_round_trip) [0x1; 0x2; 0x3] Hodd).
Defined.

Section ApplyFuzzed.
Import fuzzer Wire.

Lemma len_one_more {A : Type} (pre : list A) (x : A) : len (pre ++ [x]) = len pre + 1.
Proof. rewrite len_app. reflexivity. Qed.

Lemma app_cons2 {A : Type} (pre rest : list A) (x y : A) :
  pre ++ x :: y :: rest = (pre ++ [x; y]) ++ rest.
Proof. rewrite <- app_assoc. reflexivity. Qed.

Lemma app_cons1 {A : Type} (pre rest : list A) (x : A) :
  pre ++ x :: rest = (pre ++ [x]) ++ rest.
Proof. rewrite <- app_assoc. reflexivity. Qed.

(** The loop reads the bitmap two entries at a time, takes the marked
    nibbles from the fuzzed ones in order and the others from the initial
    data, and packs each pair into a byte. *)
Lemma apply_fuzzed_loop_spec (count : nat) :
  forall (pre_b rest_b : list bool) (pre_i rest_i used rest_f acc : list Z),
    length rest_b = (2 * count)%nat ->
    length pre_i = length pre_b ->
    (length rest_b <= length rest_i)%nat ->
    (marked rest_b <= length rest_f)%nat ->
    apply_fuzzed_loop count (len pre_b) (pre_i ++ rest_i) (used ++ rest_f)
      (pre_b ++ rest_b) (len used) acc
    = Ok (acc ++ bytes_of (fuzzed rest_b rest_i rest_f)).
Proof.
  induction count as [|count IH];
    intros pre_b rest_b pre_i rest_i used rest_f acc Hlen Hpre Hinit Hfuzz.
  - destruct rest_b; [|discriminate Hlen]. cbn. rewrite app_nil_r. reflexivity.
  - destruct rest_b as [|b1 [|b2 rest_b]]; try (cbn in Hlen; lia).
    destruct rest_i as [|x [|y rest_i]]; try (cbn in Hinit; lia).
    assert (Hpi : len pre_b = len pre_i) by (unfold len; lia).
    cbn [apply_fuzzed_loop].
    rewrite (getitem_middle pre_b), (getitem_middle_next pre_b). cbn [bind].
    destruct b1, b2; unfold marked in Hfuzz; cbn [List.filter length] in Hfuzz.
    + destruct rest_f as [|f1 [|f2 rest_f]]; try (cbn in Hfuzz; lia).
      rewrite (getitem_middle used). cbn [bind fst snd].
      rewrite (getitem_middle_next used). cbn [bind fst snd]. cbv zeta.
      cbn [fuzzed bytes_of].
      rewrite (app_cons2 pre_b), (app_cons2 pre_i), (app_cons2 used).
      replace (len pre_b + 2) with (len (pre_b ++ [true; true]))
        by (rewrite len_app; reflexivity).
      replace (len used + 1 + 1) with (len (used ++ [f1; f2]))
        by (rewrite len_app; unfold len; cbn [length]; lia).
      rewrite IH; [rewrite <- app_assoc; reflexivity | | | |];
        try (cbn in *; rewrite ?length_app; cbn; lia).
      unfold marked. cbn in Hfuzz. lia.
    + destruct rest_f as [|f1 rest_f]; try (cbn in Hfuzz; lia).
      rewrite (getitem_middle used). cbn [bind fst snd].
      rewrite Hpi, (getitem_middle_next pre_i), <- Hpi. cbn [bind fst snd]. cbv zeta.
      cbn [fuzzed bytes_of].
      rewrite (app_cons2 pre_b), (app_cons2 pre_i), (app_cons1 used).
      replace (len pre_b + 2) with (len (pre_b ++ [true; false]))
        by (rewrite len_app; reflexivity).
      rewrite <- (len_one_more used f1).
      rewrite IH; [rewrite <- app_assoc; reflexivity | | | |];
        try (cbn in *; rewrite ?length_app; cbn; lia).
      unfold marked. cbn in Hfuzz. lia.
    + rewrite Hpi, (getitem_middle pre_i), <- Hpi. cbn [bind fst snd].
      destruct rest_f as [|f1 rest_f]; try (cbn in Hfuzz; lia).
      rewrite (getitem_middle used). cbn [bind fst snd]. cbv zeta.
      cbn [fuzzed bytes_of].
      rewrite (app_cons2 pre_b), (app_cons2 pre_i), (app_cons1 used).
      replace (len pre_b + 2) with (len (pre_b ++ [false; true]))
        by (rewrite len_app; reflexivity).
      rewrite <- (len_one_more used f1).
      rewrite IH; [rewrite <- app_assoc; reflexivity | | | |];
        try (cbn in *; rewrite ?length_app; cbn; lia).
      unfold marked. cbn in Hfuzz. lia.
    + rewrite Hpi, (getitem_middle pre_i), (getitem_middle_next pre_i), <- Hpi.
      cbn [bind fst snd]. cbv zeta. cbn [fuzzed bytes_of].
      rewrite (app_cons2 pre_b), (app_cons2 pre_i).
      replace (len pre_b + 2) with (len (pre_b ++ [false; false]))
        by (rewrite len_app; reflexivity).
      rewrite IH; [rewrite <- app_assoc; reflexivity | | | |];
        try (cbn in *; rewrite ?length_app; cbn; lia).
      unfold marked. exact Hfuzz.
Qed.

Lemma fuzzed_length (bitmap : list bool) :
  forall (initial_data fuzzed_nibbles : list Z),
    (length bitmap <= length initial_data)%nat ->
    (marked bitmap <= length fuzzed_nibbles)%nat ->
    length (fuzzed bitmap initial_data fuzzed_nibbles) = length bitmap.
Proof.
  induction bitmap as [|b bitmap IH]; intros initial_data fuzzed_nibbles Hi Hf.
  - reflexivity.
  - destruct initial_data as [|x initial_data]; [cbn in Hi; lia|].
    unfold marked in Hf. destruct b; cbn [List.filter length] in Hf.
    + destruct fuzzed_nibbles as [|f fuzzed_nibbles]; [cbn in Hf; lia|].
      cbn [fuzzed length]. f_equal. apply IH; [cbn in Hi; lia|].
      unfold marked. cbn in Hf. lia.
    + cbn [fuzzed length]. f_equal. apply IH; [cbn in Hi; lia | exact Hf].
Qed.

End ApplyFuzzed.

(** X24: for a bitmap of even length, initial data at least as long and
    enough fuzzed nibbles for the marked positions, [apply_fuzzed_data]
    gives the bytes of the nibble list that has, at every marked position,
    the next fuzzed nibble in order and elsewhere the initial nibble: one
    byte for every two bitmap entries, the same bytes [nibbles_to_bytes]
    makes of that list. *)
Theorem apply_fuzzed_data_bytes (initial_data fuzzed_nibbles : list Z)
    (bitmap : list bool) (n : nat) :
  length bitmap = (2 * n)%nat ->
  (length bitmap <= length initial_data)%nat ->
  (Wire.marked bitmap <= length fuzzed_nibbles)%nat ->
  exists result_bytes,
    fuzzer.apply_fuzzed_data initial_data fuzzed_nibbles bitmap = Ok result_bytes
    /\ fuzzer.nibbles_to_bytes (Wire.fuzzed bitmap initial_data fuzzed_nibbles)
       = Ok result_bytes
    /\ length result_bytes = n.
Proof.
  intros Hlen Hinit Hfuzz.
  pose proof (fuzzed_length bitmap initial_data fuzzed_nibbles Hinit Hfuzz) as Hfl.
  rewrite Hlen in Hfl.
  exists (Wire.bytes_of (Wire.fuzzed bitmap initial_data fuzzed_nibbles)).
  split; [|split].
  - unfold fuzzer.apply_fuzzed_data, len. rewrite Hlen, range_step2_count_even.
    apply (apply_fuzzed_loop_spec n [] bitmap [] initial_data [] fuzzed_nibbles []
             Hlen eq_refl Hinit Hfuzz).
  - apply (nibbles_to_bytes_even _ n Hfl).
  - apply (bytes_of_length _ n Hfl).
Qed.

Lemma apply_fuzzed_data_bytes_witness :
  (length [true; false; false; true] = (2 * 2)%nat
   /\ (length [true; false; false; true] <= length [0x1; 0x2; 0x3; 0x4])%nat
   /\ (Wire.marked [true; false; false; true] <= length [0xA; 0xB])%nat)
  /\ exists result_bytes,
       fuzzer.apply_fuzzed_data [0x1; 0x2; 0x3; 0x4] [0xA; 0xB]
         [true; false; false; true] = Ok result_bytes
       /\ fuzzer.nibbles_to_bytes
            (Wire.fuzzed [true; false; false; true] [0x1; 0x2; 0x3; 0x4] [0xA; 0xB])
          = Ok result_bytes
       /\ length result_bytes = 2%nat.
Proof.
  assert (Hlen : length [true; false; false; true] = (2 * 2)%nat) by reflexivity.
  assert (Hinit : (length [true; false; false; true]
                   <= length [0x1; 0x2; 0x3; 0x4])%nat) by (cbn; lia).
  assert (Hfuzz : (Wire.marked [true; false; false; true] <= length [0xA; 0xB])%nat)
    by (cbn; lia).
  split; [repeat split; assumption|].
  exact (apply_fuzzed_data_bytes [0x1; 0x2; 0x3; 0x4] [0xA; 0xB]
           [true; false; false; true] 2 Hlen Hinit Hfuzz).
Defined.

Section SplitLists.
Import fuzzer.
Context {A : Type}.

Lemma take_then_take (n k : nat) :
  forall m : list A, take n m ++ take k (drop n m) = take (n + k) m.
Proof.
  induction n as [|n IH]; intros m; [reflexivity|].
  destruct m as [|x m]; [cbn; rewrite take_nil; reflexivity|].
  cbn [take drop Nat.add app]. cbn. f_equal. apply IH.
Qed.

Lemma slices_join (l : list A) (a b c : nat) :
  (a <= b)%nat -> (b <= c)%nat ->
  take (b - a) (drop a l) ++ take (c - b) (drop b l) = take (c - a) (drop a l).
Proof.
  intros Hab Hbc.
  replace (drop b l) with (drop (b - a) (drop a l))
    by (rewrite drop_drop; f_equal; lia).
  rewrite take_then_take. f_equal. lia.
Qed.

Lemma bound_mono (n pieces i j : Z) :
  0 <= n -> 1 <= pieces -> 0 <= i <= j ->
  (Z.to_nat (i * n / pieces) <= Z.to_nat (j * n / pieces))%nat.
Proof.
  intros Hn Hp Hij. apply Z2Nat.inj_le.
  - apply Z.div_pos; [apply Z.mul_nonneg_nonneg|]; lia.
  - apply Z.div_pos; [apply Z.mul_nonneg_nonneg|]; lia.
  - apply Z.div_le_mono; [lia|]. apply Z.mul_le_mono_nonneg_r; lia.
Qed.

(** The sub-lists of the loop are consecutive slices of the list. *)
Lemma split_lists_loop_spec (full_list : list A) (pieces : Z) (count : nat) :
  1 <= pieces ->
  forall i : Z,
    0 <= i ->
    let lo := Z.to_nat (i * len full_list / pieces) in
    let hi := Z.to_nat ((i + Z.of_nat count) * len full_list / pieces) in
    concat (split_lists_loop count i full_list pieces)
    = take (hi - lo) (drop lo full_list)
    /\ Forall (fun sub_list => sub_list <> []) (split_lists_loop count i full_list pieces)
    /\ (length (split_lists_loop count i full_list pieces) <= count)%nat.
Proof.
  intros Hp. pose proof (len_nonneg full_list) as Hn.
  induction count as [|count IH]; intros i Hi; cbv zeta.
  - cbn [split_lists_loop concat length]. rewrite Z.add_0_r, Nat.sub_diag.
    split; [reflexivity|]. split; [constructor | lia].
  - cbn [split_lists_loop]. cbv zeta.
    destruct (IH (i + 1)) as [Hcat [Hne Hlen]]; [lia|]. cbv zeta in Hcat.
    replace (i + 1 + Z.of_nat count) with (i + Z.of_nat (S count)) in Hcat by lia.
    set (lo := Z.to_nat (i * len full_list / pieces)) in *.
    set (mid := Z.to_nat ((i + 1) * len full_list / pieces)) in *.
    set (hi := Z.to_nat ((i + Z.of_nat (S count)) * len full_list / pieces)) in *.
    assert (Hlm : (lo <= mid)%nat) by (apply bound_mono; lia).
    assert (Hmh : (mid <= hi)%nat) by (apply bound_mono; lia).
    set (sub_list := take (mid - lo) (drop lo full_list)).
    assert (Hjoin : sub_list ++ concat (split_lists_loop count (i + 1) full_list pieces)
                    = take (hi - lo) (drop lo full_list)).
    { rewrite Hcat. apply slices_join; assumption. }
    destruct (Z.eqb_spec (len sub_list) 0) as [Hempty | Hfull].
    + assert (Hnil : sub_list = []).
      { destruct sub_list; [reflexivity|]. unfold len in Hempty. cbn in Hempty. lia. }
      rewrite Hnil in Hjoin. split; [exact Hjoin|]. split; [exact Hne | lia].
    + cbn [concat length]. split; [exact Hjoin|]. split; [|lia].
      constructor; [|exact Hne]. intros Hnil. apply Hfull. rewrite Hnil. reflexivity.
Qed.

End SplitLists.

(** X25: for [pieces >= 1] the sub-lists that [split_lists] yields are
    consecutive parts of the list: joined in order they give the list
    back, none of them is empty, and there are at most [pieces] of them.
    For [pieces <= 0] it yields nothing. *)
Theorem split_lists_partition {A : Type} (full_list : list A) (pieces : Z) :
  (1 <= pieces ->
   concat (fuzzer.split_lists full_list pieces) = full_list
   /\ Forall (fun sub_list => sub_list <> []) (fuzzer.split_lists full_list pieces)
   /\ len (fuzzer.split_lists full_list pieces) <= pieces)
  /\ (pieces <= 0 -> fuzzer.split_lists full_list pieces = []).
Proof.
  split.
  - intros Hp. unfold fuzzer.split_lists.
    destruct (split_lists_loop_spec full_list pieces (Z.to_nat pieces) Hp 0
                ltac:(lia)) as [Hcat [Hne Hlen]].
    cbv zeta in Hcat. split; [|split; [exact Hne | unfold len; lia]].
    rewrite Hcat. rewrite Z.mul_0_l, Z.div_0_l by lia.
    change (Z.to_nat 0) with 0%nat. rewrite drop_0, Nat.sub_0_r.
    replace ((0 + Z.of_nat (Z.to_nat pieces)) * len full_list / pieces)
      with (len full_list).
    + unfold len. rewrite Nat2Z.id. apply firstn_all.
    + rewrite Z.add_0_l, Z2Nat.id, Z.mul_comm, Z.div_mul by lia. reflexivity.
  - intros Hp. unfold fuzzer.split_lists.
    replace (Z.to_nat pieces) with 0%nat by lia. reflexivity.
Qed.

Lemma split_lists_partition_witness :
  1 <= 5
  /\ concat (fuzzer.split_lists [0x1; 0x2; 0x3] 5) = [0x1; 0x2; 0x3]
  /\ Forall (fun sub_list => sub_list <> []) (fuzzer.split_lists [0x1; 0x2; 0x3] 5)
  /\ len (fuzzer.split_lists [0x1; 0x2; 0x3] 5) <= 5.
Proof.
  assert (Hp : 1 <= 5) by lia.
  split; [exact Hp|].
  exact (proj1 (split_lists_partition [0x1; 0x2; 0x3] 5) Hp).
Defined.

(** ** Sending a list of messages *)

Section SendMessages.
Import send Wire.
Context {duration : Type}.
Implicit Types (messages pre rest : list (CanMessage duration)).

Lemma send_frame (can_wrap : CanActions.t unit) (msg : CanMessage duration) :
  len (data msg) <= 8 ->
  CanActions.send can_wrap (data msg) (Some (arb_id msg)) (Some (is_extended msg))
    (is_error msg) (is_remote msg)
  = Ok (CanActions.bus_send can_wrap (frame_of msg)).
Proof.
  intros Hlen. unfold CanActions.send.
  replace (len (data msg) >? 8) with false by (symmetry; lia). reflexivity.
Qed.

Lemma send_frame_too_long (can_wrap : CanActions.t unit) (msg : CanMessage duration) :
  8 < len (data msg) ->
  CanActions.send can_wrap (data msg) (Some (arb_id msg)) (Some (is_extended msg))
    (is_error msg) (is_remote msg)
  = Raise IndexError.
Proof.
  intros Hlen. unfold CanActions.send.
  replace (len (data msg) >? 8) with true by (symmetry; lia). reflexivity.
Qed.

(** One pass over messages that all fit a frame sends each of them. *)
Lemma send_loop_all rest :
  forall pre (loop_counter : Z) (can_wrap : CanActions.t unit) (slept : list duration),
    Forall (fun msg => len (data msg) <= 8) rest ->
    exists can_wrap',
      send_loop (length rest) (len pre) (pre ++ rest) loop_counter can_wrap slept
      = (Ok tt, can_wrap',
         slept ++ map delay
                    (if (len pre =? 0) && (loop_counter =? 0) then tl rest else rest))
      /\ CanActions.bus_sent can_wrap'
         = CanActions.bus_sent can_wrap ++ map frame_of rest.
Proof.
  induction rest as [|msg rest IH]; intros pre loop_counter can_wrap slept Hall.
  - exists can_wrap. cbn [length send_loop map tl].
    destruct ((len pre =? 0) && (loop_counter =? 0)); cbn [map];
      rewrite !app_nil_r; split; reflexivity.
  - inversion Hall as [|m l Hmsg Hrest]. subst m l.
    cbn [length send_loop]. rewrite getitem_middle. cbv zeta.
    rewrite send_frame by exact Hmsg.
    rewrite (app_cons1 pre), <- (len_one_more pre msg).
    destruct (IH (pre ++ [msg]) loop_counter (CanActions.bus_send can_wrap (frame_of msg))
                (if negb (len pre =? 0) || negb (loop_counter =? 0)
                 then slept ++ [delay msg] else slept) Hrest)
      as [can_wrap' [Hrun Hsent]].
    exists can_wrap'. split.
    + rewrite Hrun. f_equal.
      pose proof (len_nonneg pre).
      replace (len (pre ++ [msg]) =? 0) with false
        by (symmetry; rewrite len_one_more; lia).
      cbn [andb tl map].
      destruct (len pre =? 0), (loop_counter =? 0); cbn [negb orb andb];
        rewrite <- ?app_assoc; reflexivity.
    + rewrite Hsent. cbn [CanActions.bus_sent CanActions.bus_send map].
      rewrite <- app_assoc. reflexivity.
Qed.

(** A pass stops at the first message that does not fit a frame. *)
Lemma send_loop_too_long rest :
  forall pre (bad : CanMessage duration) post (loop_counter : Z)
         (can_wrap : CanActions.t unit) (slept : list duration),
    Forall (fun msg => len (data msg) <= 8) rest ->
    8 < len (data bad) ->
    exists can_wrap' slept',
      send_loop (length (rest ++ bad :: post)) (len pre) (pre ++ rest ++ bad :: post)
        loop_counter can_wrap slept
      = (Raise IndexError, can_wrap', slept')
      /\ CanActions.bus_sent can_wrap'
         = CanActions.bus_sent can_wrap ++ map frame_of rest.
Proof.
  induction rest as [|msg rest IH];
    intros pre bad post loop_counter can_wrap slept Hall Hbad.
  - cbn [app length send_loop]. rewrite getitem_middle. cbv zeta.
    rewrite send_frame_too_long by exact Hbad.
    do 2 eexists. split; [reflexivity|]. cbn [map]. rewrite app_nil_r. reflexivity.
  - inversion Hall as [|m l Hmsg Hrest]. subst m l.
    cbn [app length send_loop]. rewrite getitem_middle. cbv zeta.
    rewrite send_frame by exact Hmsg.
    rewrite (app_cons1 pre), <- (len_one_more pre msg).
    destruct (IH (pre ++ [msg]) bad post loop_counter
                (CanActions.bus_send can_wrap (frame_of msg))
                (if negb (len pre =? 0) || negb (loop_counter =? 0)
                 then slept ++ [delay msg] else slept) Hrest Hbad)
      as [can_wrap' [slept' [Hrun Hsent]]].
    exists can_wrap', slept'. split.
    + exact Hrun.
    + rewrite Hsent. cbn [CanActions.bus_sent CanActions.bus_send map].
      rewrite <- app_assoc. reflexivity.
Qed.

(** With [loop] set, every round sends the whole list again. *)
Lemma send_rounds_forever (messages : list (CanMessage duration)) (fuel : nat) :
  Forall (fun msg => len (data msg) <= 8) messages ->
  forall (loop_counter : Z) (can_wrap : CanActions.t unit) (slept : list duration),
    exists can_wrap' slept',
      send_rounds fuel messages true loop_counter can_wrap slept
      = (OutOfFuel, can_wrap', slept')
      /\ CanActions.bus_sent can_wrap'
         = CanActions.bus_sent can_wrap
             ++ concat (replicate fuel (map frame_of messages)).
Proof.
  intros Hall. induction fuel as [|fuel IH]; intros loop_counter can_wrap slept.
  - exists can_wrap, slept. cbn. rewrite app_nil_r. split; reflexivity.
  - cbn [send_rounds].
    destruct (send_loop_all messages [] loop_counter can_wrap slept Hall)
      as [can_wrap1 [Hrun Hsent]].
    cbn [app] in Hrun. change (len []) with 0 in Hrun. rewrite Hrun.
    cbn [negb].
    destruct (IH (loop_counter + 1) can_wrap1
                (slept ++ map delay
                            (if (0 =? 0) && (loop_counter =? 0)
                             then tl messages else messages)))
      as [can_wrap' [slept' [Hrest Hsent']]].
    exists can_wrap', slept'. split; [exact Hrest|].
    rewrite Hsent', Hsent. cbn [replicate concat]. rewrite <- app_assoc.
    reflexivity.
Qed.

End SendMessages.

(** X26: [send_messages] without [loop] sends every message of the list
    once, in order, as a frame with the message's ID, data and flags, and
    sleeps the delay of every message but the first; with [loop] it never
    returns, sending the whole list again in every round.  At the first
    message with more than 8 data bytes it stops with [IndexError], having
    sent the messages before it. *)
Theorem send_messages_frames {duration : Type}
    (messages : list (send.CanMessage duration)) :
  (Forall (fun msg => len (send.data msg) <= 8) messages ->
   (forall fuel : nat,
       exists can_wrap,
         send.send_messages (S fuel) messages false
         = (Ok tt, can_wrap, map send.delay (tl messages))
         /\ CanActions.bus_sent can_wrap = map Wire.frame_of messages)
   /\ (forall fuel : nat,
          exists can_wrap slept,
            send.send_messages fuel messages true = (OutOfFuel, can_wrap, slept)
            /\ CanActions.bus_sent can_wrap
               = concat (replicate fuel (map Wire.frame_of messages))))
  /\ (forall (pre post : list (send.CanMessage duration))
             (bad : send.CanMessage duration) (loop : bool) (fuel : nat),
         messages = pre ++ bad :: post ->
         Forall (fun msg => len (send.data msg) <= 8) pre ->
         8 < len (send.data bad) ->
         exists can_wrap slept,
           send.send_messages (S fuel) messages loop
           = (Raise IndexError, can_wrap, slept)
           /\ CanActions.bus_sent can_wrap = map Wire.frame_of pre).
Proof.
  split; [intros Hall; split|].
  - intros fuel. unfold send.send_messages. cbn [send.send_rounds].
    destruct (send_loop_all messages [] 0 (CanActions.__init__ None false) [] Hall)
      as [can_wrap [Hrun Hsent]].
    cbn [app] in Hrun. change (len []) with 0 in Hrun. rewrite Hrun. cbn [negb].
    exists can_wrap. split; [reflexivity | exact Hsent].
  - intros fuel. unfold send.send_messages.
    destruct (send_rounds_forever messages fuel Hall 0
                (CanActions.__init__ None false) [])
      as [can_wrap [slept [Hrun Hsent]]].
    exists can_wrap, slept. split; [exact Hrun | exact Hsent].
  - intros pre post bad loop fuel -> Hpre Hbad.
    unfold send.send_messages. cbn [send.send_rounds].
    destruct (send_loop_too_long pre [] bad post 0
                (CanActions.__init__ None false) [] Hpre Hbad)
      as [can_wrap [slept [Hrun Hsent]]].
    cbn [app] in Hrun. change (len []) with 0 in Hrun. rewrite Hrun.
    exists can_wrap, slept. split; [reflexivity | exact Hsent].
Qed.

Lemma send_messages_frames_witness :
  Forall (fun msg : send.CanMessage Z => len (send.data msg) <= 8)
    [send.__init__ (fun d => Z.max d 0) 0x7DF [0x02; 0x10; 0x01] 0 None false false;
     send.__init__ (fun d => Z.max d 0) 0x18DA00F1 [0x02; 0x3E; 0x00] 500 None
       false false]
  /\ exists can_wrap,
       send.send_messages 1
         [send.__init__ (fun d => Z.max d 0) 0x7DF [0x02; 0x10; 0x01] 0 None false false;
          send.__init__ (fun d => Z.max d 0) 0x18DA00F1 [0x02; 0x3E; 0x00] 500 None
            false false]
         false
       = (Ok tt, can_wrap, [500])
       /\ CanActions.bus_sent can_wrap
          = [can.mkMessage 0x7DF [0x02; 0x10; 0x01] false false false;
             can.mkMessage 0x18DA00F1 [0x02; 0x3E; 0x00] true false false].
Proof.
  assert (Hall : Forall (fun msg : send.CanMessage Z => len (send.data msg) <= 8)
                   [send.__init__ (fun d => Z.max d 0) 0x7DF [0x02; 0x10; 0x01] 0 None
                      false false;
                    send.__init__ (fun d => Z.max d 0) 0x18DA00F1 [0x02; 0x3E; 0x00]
                      500 None false false]).
  { repeat constructor; vm_compute; discriminate. }
  split; [exact Hall|].
  exact (proj1 (proj1 (send_messages_frames _) Hall) 0%nat).
Defined.

(** ** The traffic dump *)

Section Dump.
Import dump Wire.




End Dump.


